(** * The trade simulator of modules/simulator.py, embedded and verified

    The development follows [src/modules/simulator.py]:
    [calculate_transaction_charges] and the per-bar loop of
    [simulate_trades]. The source is embedded twice.

    The definitions of this first part read Python numbers (prices, rates,
    capital) as exact rationals [Q], with numeric equality [Qeq] ([==]).
    They carry the properties of control flow, order and bookkeeping, which
    do not depend on rounding. The module [Double] further down reads the
    same numbers as IEEE 754 binary64 doubles; it carries the properties in
    which rounding, NaN or the infinities matter.

    Modelling choices common to both.
    - Share counts are integers [Z].
    - Dictionaries indexed by string keys ([charges_config] and its per-side
      tables) are [gmap string _]; a subscript on an absent key raises
      [KeyError].
    - Exceptions are values of [exn], threaded by the error monad [result].
    - The deque [long_positions] is a list in insertion order; [remove]
      deletes the first element that compares equal, as [deque.remove]. *)

From Stdlib Require Import ZArith QArith Qminmax Qround Lqa Lia Floats.
From stdpp Require Import base option list gmap strings.

Local Open Scope Q_scope.

(** ** Exceptions and the error monad *)

Inductive exn : Type :=
| KeyError (key : string)
| ZeroDivisionError
| ValueError
| OverflowError.

Inductive result (A : Type) : Type :=
| Ok (a : A)
| Raise (e : exn).

Arguments Ok {A} a.
Arguments Raise {A} e.

Definition rbind {A B : Type} (m : result A) (k : A -> result B) : result B :=
  match m with
  | Ok a => k a
  | Raise e => Raise e
  end.

Notation "x <~ m ;; k" := (rbind m (fun x => k))
  (at level 100, m at next level, right associativity).

(** [d[k]] on a dictionary. *)
Definition getitem {A : Type} (d : gmap string A) (k : string) : result A :=
  match d !! k with
  | Some v => Ok v
  | None => Raise (KeyError k)
  end.

(** ** calculate_transaction_charges (simulator.py, lines 7-27) *)

Record Charges : Type := {
  total : Q;
  brokerage : Q;
  stt : Q;
  transaction_charge : Q;
  sebi_charge : Q;
  gst : Q;
  stamp_duty : Q
}.

(** [charges_config[transaction_type][key]] *)
Definition rate (charges_config : gmap string (gmap string Q))
    (transaction_type key : string) : result Q :=
  side <~ getitem charges_config transaction_type;;
  getitem side key.

Definition calculate_transaction_charges (price : Q) (quantity : Z)
    (transaction_type : string)
    (charges_config : gmap string (gmap string Q)) : result Charges :=
  let turnover := price * inject_Z quantity in
  r_brokerage <~ rate charges_config transaction_type "BROKERAGE";;
  let brokerage := Qmin (turnover * (r_brokerage / 100)) 20 in
  r_stt <~ rate charges_config transaction_type "STT";;
  let stt := turnover * (r_stt / 100) in
  r_transaction <~ rate charges_config transaction_type "TRANSACTION";;
  let transaction_charge := turnover * (r_transaction / 100) in
  r_sebi <~ rate charges_config transaction_type "SEBI";;
  let sebi_charge := turnover * (r_sebi / 100) in
  r_gst <~ rate charges_config transaction_type "GST";;
  let gst := (brokerage + transaction_charge + sebi_charge) * (r_gst / 100) in
  stamp_duty <~
    (if String.eqb transaction_type "BUY"
     then r_stamp <~ rate charges_config transaction_type "STAMP";;
          Ok (turnover * (r_stamp / 100))
     else Ok 0);;
  let total_charges :=
    brokerage + stt + transaction_charge + sebi_charge + gst + stamp_duty in
  Ok {| total := total_charges;
        brokerage := brokerage;
        stt := stt;
        transaction_charge := transaction_charge;
        sebi_charge := sebi_charge;
        gst := gst;
        stamp_duty := stamp_duty |}.

(** ** Timestamps

    A bar's timestamp is a timezone-naive [pandas.Timestamp]: a calendar day
    (its ordinal) and the time of day, counted in nanoseconds since
    midnight. *)

Record Timestamp : Type := {
  ts_date : Z;
  ts_nanos : Z
}.

Definition nanos_per_minute : Z := 60000000000.
Definition nanos_per_day : Z := 1440 * nanos_per_minute.

(** [timestamp.replace(hour=h, minute=m, second=0, microsecond=0)]: the
    nanosecond component below one microsecond is not reset by [replace]. *)
Definition replace_time (t : Timestamp) (hour minute : Z) : Timestamp :=
  {| ts_date := ts_date t;
     ts_nanos := ((hour * 60 + minute) * nanos_per_minute
                  + ts_nanos t mod 1000)%Z |}.

(** [t - pd.Timedelta(minutes=m)] *)
Definition sub_minutes (t : Timestamp) (m : Z) : Timestamp :=
  let n := (ts_nanos t - m * nanos_per_minute)%Z in
  {| ts_date := (ts_date t + n / nanos_per_day)%Z;
     ts_nanos := (n mod nanos_per_day)%Z |}.

(** [a >= b] on timestamps. *)
Definition ts_geb (a b : Timestamp) : bool :=
  (ts_date b <? ts_date a)%Z
  || ((ts_date a =? ts_date b)%Z && (ts_nanos b <=? ts_nanos a)%Z).

Definition market_close_time (timestamp : Timestamp) : Timestamp :=
  replace_time timestamp 15 30.
Definition square_off_time (timestamp : Timestamp) : Timestamp :=
  sub_minutes (market_close_time timestamp) 30.
Definition no_new_buys_time (timestamp : Timestamp) : Timestamp :=
  sub_minutes (market_close_time timestamp) 60.

(** ** Rows, positions, event records and the engine state *)

Record Row : Type := {
  timestamp : Timestamp;
  close : Q;
  ATR : Q;
  Buy_Signal : bool;
  Sell_Signal : bool
}.

(** An entry of [long_positions]. *)
Record Position : Type := {
  p_shares : Z;
  p_price : Q;
  p_buy_charges : Q;
  p_margin_used : Q;
  p_target_price : Q;
  p_trailing_stop_loss : Q
}.

(** An entry of [trades]. *)
Record Trade : Type := {
  t_Time : Timestamp;
  t_Type : string;
  t_Price : Q;
  t_Shares : Z;
  t_Profit_Loss : Q;
  t_Charges : Q;
  t_Brokerage : Q;
  t_STT : Q;
  t_Transaction_Charge : Q;
  t_SEBI_Charge : Q;
  t_GST : Q;
  t_Stamp_Duty : Q;
  t_Reason : string
}.

(** An entry of [missed_signals]. *)
Record MissedSignal : Type := {
  m_Time : Timestamp;
  m_Price : Q;
  m_Reason : string
}.

(** An entry of [daily_summary]. *)
Record DaySummary : Type := {
  d_Date : Z;
  d_Start_of_Day_Capital : Q;
  d_End_of_Day_Capital : Q
}.

(** The arguments of [simulate_trades] that the loop reads. The
    [indicator_config] and [historical_data] arguments are only echoed into
    the final summary and are left out. *)
Record Params : Type := {
  initial_capital : Q;
  trade_allocation : Q;
  leverage : Q;
  target_profit_percentage : Q;
  atr_multiplier : Q;
  charges_config : gmap string (gmap string Q)
}.

(** The local variables of [simulate_trades] that live across iterations.
    [start_of_day_capital] is unbound in the source until the first bar
    binds it; it is never read before that, here it starts at 0. *)
Record State : Type := {
  capital : Q;
  free_cash : Q;
  total_profit_loss : Q;
  total_revenue : Q;
  total_cost : Q;
  trades : list Trade;
  missed_signals : list MissedSignal;
  daily_summary : list DaySummary;
  long_positions : list Position;
  current_day : option Z;
  start_of_day_capital : Q;
  daily_margin_used : Q;
  daily_profit_loss : Q
}.

Definition initial_state (p : Params) : State :=
  {| capital := initial_capital p;
     free_cash := initial_capital p;
     total_profit_loss := 0;
     total_revenue := 0;
     total_cost := 0;
     trades := [];
     missed_signals := [];
     daily_summary := [];
     long_positions := [];
     current_day := None;
     start_of_day_capital := 0;
     daily_margin_used := 0;
     daily_profit_loss := 0 |}.

(** ** The deque of open positions *)

(** [==] on two position dictionaries: the same keys, numerically equal
    values. *)
Definition position_eqb (a b : Position) : bool :=
  (p_shares a =? p_shares b)%Z
  && Qeq_bool (p_price a) (p_price b)
  && Qeq_bool (p_buy_charges a) (p_buy_charges b)
  && Qeq_bool (p_margin_used a) (p_margin_used b)
  && Qeq_bool (p_target_price a) (p_target_price b)
  && Qeq_bool (p_trailing_stop_loss a) (p_trailing_stop_loss b).

(** [dq.remove(x)]: delete the first element equal to [x]; [ValueError]
    when there is none. *)
Fixpoint deque_remove (x : Position) (dq : list Position)
    : result (list Position) :=
  match dq with
  | [] => Raise ValueError
  | y :: dq' =>
      if position_eqb y x then Ok dq'
      else (rest <~ deque_remove x dq';; Ok (y :: rest))
  end.

(** Truth value of a deque: non-empty. *)
Definition truthy {A : Type} (l : list A) : bool :=
  match l with
  | [] => false
  | _ :: _ => true
  end.

(** ** The body of the bar loop (simulator.py, lines 68-214) *)

(** Lines 80-107: the loop over [list(long_positions)] of the scheduled
    square-off. [snapshot] is the copy the loop iterates. *)
Fixpoint square_off_loop (p : Params) (row : Row) (snapshot : list Position)
    (st : State) : result State :=
  match snapshot with
  | [] => Ok st
  | position :: snapshot' =>
      let price := close row in
      let shares_to_sell := p_shares position in
      sell_charges_details <~
        calculate_transaction_charges price shares_to_sell "SELL"
          (charges_config p);;
      let sell_revenue :=
        inject_Z shares_to_sell * price - total sell_charges_details in
      let cost :=
        inject_Z shares_to_sell * p_price position + p_buy_charges position in
      let profit_loss := sell_revenue - cost in
      remaining <~ deque_remove position (long_positions st);;
      square_off_loop p row snapshot'
        {| capital := capital st + profit_loss;
           free_cash := free_cash st + (p_margin_used position + sell_revenue);
           total_profit_loss := total_profit_loss st + profit_loss;
           total_revenue := total_revenue st;
           total_cost := total_cost st;
           trades := trades st ++
             [ {| t_Time := timestamp row;
                  t_Type := "Square Off";
                  t_Price := price;
                  t_Shares := shares_to_sell;
                  t_Profit_Loss := profit_loss;
                  t_Charges := total sell_charges_details;
                  t_Brokerage := brokerage sell_charges_details;
                  t_STT := stt sell_charges_details;
                  t_Transaction_Charge :=
                    transaction_charge sell_charges_details;
                  t_SEBI_Charge := sebi_charge sell_charges_details;
                  t_GST := gst sell_charges_details;
                  t_Stamp_Duty := stamp_duty sell_charges_details;
                  t_Reason := "Square Off Before Market Close" |} ];
           missed_signals := missed_signals st;
           daily_summary := daily_summary st;
           long_positions := remaining;
           current_day := current_day st;
           start_of_day_capital := start_of_day_capital st;
           daily_margin_used := daily_margin_used st;
           daily_profit_loss := daily_profit_loss st + profit_loss |}
  end.

(** Lines 78-107: square off all positions 30 minutes before market close. *)
Definition scheduled_square_off (p : Params) (row : Row) (st : State)
    : result State :=
  if ts_geb (timestamp row) (square_off_time (timestamp row))
     && truthy (long_positions st)
  then square_off_loop p row (long_positions st) st
  else Ok st.

(** [current_day != trade_day], where [current_day] may be [None]. *)
Definition is_new_day (st : State) (trade_day : Z) : bool :=
  match current_day st with
  | None => true
  | Some d => negb (d =? trade_day)%Z
  end.

(** Lines 109-123: start of a new day. *)
Definition start_of_new_day (row : Row) (st : State) : State :=
  let trade_day := ts_date (timestamp row) in
  if is_new_day st trade_day then
    {| capital := capital st;
       free_cash := capital st;
       total_profit_loss := total_profit_loss st;
       total_revenue := total_revenue st;
       total_cost := total_cost st;
       trades := trades st;
       missed_signals := missed_signals st;
       daily_summary :=
         match current_day st with
         | Some day =>
             daily_summary st ++
               [ {| d_Date := day;
                    d_Start_of_Day_Capital := start_of_day_capital st;
                    d_End_of_Day_Capital := capital st |} ]
         | None => daily_summary st
         end;
       long_positions := long_positions st;
       current_day := Some trade_day;
       start_of_day_capital := capital st;
       daily_margin_used := 0;
       daily_profit_loss := 0 |}
  else st.

(** [missed_signals.append({'Time': .., 'Price': .., 'Reason': reason})] *)
Definition record_missed (row : Row) (reason : string) (st : State) : State :=
  {| capital := capital st;
     free_cash := free_cash st;
     total_profit_loss := total_profit_loss st;
     total_revenue := total_revenue st;
     total_cost := total_cost st;
     trades := trades st;
     missed_signals := missed_signals st ++
       [ {| m_Time := timestamp row; m_Price := close row;
            m_Reason := reason |} ];
     daily_summary := daily_summary st;
     long_positions := long_positions st;
     current_day := current_day st;
     start_of_day_capital := start_of_day_capital st;
     daily_margin_used := daily_margin_used st;
     daily_profit_loss := daily_profit_loss st |}.

(** [int(a // b)]: floor division, [ZeroDivisionError] on a zero divisor. *)
Definition floordiv (a b : Q) : result Z :=
  if Qeq_bool b 0 then Raise ZeroDivisionError else Ok (Qfloor (a / b)).

(** Lines 131-171: buy signal logic. *)
Definition buy_signal_logic (p : Params) (row : Row) (st : State)
    : result State :=
  let price := close row in
  if Buy_Signal row then
    let allocated_margin := free_cash st * trade_allocation p in
    let leveraged_buying_power := allocated_margin * leverage p in
    if Qle_bool price leveraged_buying_power then
      shares_to_buy <~ floordiv leveraged_buying_power price;;
      if (0 <? shares_to_buy)%Z then
        buy_charges_details <~
          calculate_transaction_charges price shares_to_buy "BUY"
            (charges_config p);;
        let buy_cost :=
          inject_Z shares_to_buy * price + total buy_charges_details in
        Ok {| capital := capital st;
              free_cash := free_cash st - allocated_margin;
              total_profit_loss := total_profit_loss st;
              total_revenue := total_revenue st;
              total_cost := total_cost st + buy_cost;
              trades := trades st ++
                [ {| t_Time := timestamp row;
                     t_Type := "Buy";
                     t_Price := price;
                     t_Shares := shares_to_buy;
                     t_Profit_Loss := 0;
                     t_Charges := total buy_charges_details;
                     t_Brokerage := brokerage buy_charges_details;
                     t_STT := stt buy_charges_details;
                     t_Transaction_Charge :=
                       transaction_charge buy_charges_details;
                     t_SEBI_Charge := sebi_charge buy_charges_details;
                     t_GST := gst buy_charges_details;
                     t_Stamp_Duty := stamp_duty buy_charges_details;
                     t_Reason := "Buy Signal" |} ];
              missed_signals := missed_signals st;
              daily_summary := daily_summary st;
              long_positions := long_positions st ++
                [ {| p_shares := shares_to_buy;
                     p_price := price;
                     p_buy_charges := total buy_charges_details;
                     p_margin_used := allocated_margin;
                     p_target_price :=
                       price * (1 + target_profit_percentage p / 100);
                     p_trailing_stop_loss :=
                       price - ATR row * atr_multiplier p |} ];
              current_day := current_day st;
              start_of_day_capital := start_of_day_capital st;
              daily_margin_used := daily_margin_used st + allocated_margin;
              daily_profit_loss := daily_profit_loss st |}
      else Ok st
    else Ok (record_missed row "Insufficient Funds" st)
  else Ok st.

(** Lines 176-184: the reason chosen for one position, [None] when no
    condition matches. *)
Definition exit_reason (row : Row) (position : Position) : option string :=
  let price := close row in
  if Sell_Signal row then Some "Sell Signal Triggered"
  else if Qle_bool (p_target_price position) price
    then Some "Target Profit Reached"
  else if Qle_bool price (p_trailing_stop_loss position)
    then Some "Trailing Stop-Loss Triggered"
  else if ts_geb (timestamp row) (square_off_time (timestamp row))
    then Some "Square Off Before Market Close"
  else None.

(** Lines 175-214: the loop over [list(long_positions)] of the sell logic. *)
Fixpoint sell_loop (p : Params) (row : Row) (snapshot : list Position)
    (st : State) : result State :=
  match snapshot with
  | [] => Ok st
  | position :: snapshot' =>
      match exit_reason row position with
      | Some reason =>
          let price := close row in
          let shares_to_sell := p_shares position in
          sell_charges_details <~
            calculate_transaction_charges price shares_to_sell "SELL"
              (charges_config p);;
          let sell_revenue :=
            inject_Z shares_to_sell * price - total sell_charges_details in
          let cost :=
            inject_Z shares_to_sell * p_price position
            + p_buy_charges position in
          let profit_loss := sell_revenue - cost in
          remaining <~ deque_remove position (long_positions st);;
          sell_loop p row snapshot'
            {| capital := capital st + profit_loss;
               free_cash :=
                 free_cash st + (p_margin_used position + sell_revenue);
               total_profit_loss := total_profit_loss st + profit_loss;
               total_revenue := total_revenue st + sell_revenue;
               total_cost := total_cost st;
               trades := trades st ++
                 [ {| t_Time := timestamp row;
                      t_Type := "Sell";
                      t_Price := price;
                      t_Shares := shares_to_sell;
                      t_Profit_Loss := profit_loss;
                      t_Charges := total sell_charges_details;
                      t_Brokerage := brokerage sell_charges_details;
                      t_STT := stt sell_charges_details;
                      t_Transaction_Charge :=
                        transaction_charge sell_charges_details;
                      t_SEBI_Charge := sebi_charge sell_charges_details;
                      t_GST := gst sell_charges_details;
                      t_Stamp_Duty := stamp_duty sell_charges_details;
                      t_Reason := reason |} ];
               missed_signals := missed_signals st;
               daily_summary := daily_summary st;
               long_positions := remaining;
               current_day := current_day st;
               start_of_day_capital := start_of_day_capital st;
               daily_margin_used := daily_margin_used st;
               daily_profit_loss := daily_profit_loss st + profit_loss |}
      | None => sell_loop p row snapshot' st
      end
  end.

(** Lines 173-214: sell signal logic. *)
Definition sell_signal_logic (p : Params) (row : Row) (st : State)
    : result State :=
  if truthy (long_positions st)
  then sell_loop p row (long_positions st) st
  else Ok st.

(** Lines 125-214: the gate on late buys, then the buy and the sell logic.
    The [continue] of line 129 ends the iteration with the state reached so
    far. *)
Definition gate_entry_exit (p : Params) (row : Row) (st : State)
    : result State :=
  if ts_geb (timestamp row) (no_new_buys_time (timestamp row))
     && Buy_Signal row
  then Ok (record_missed row "Buy restricted near market close" st)
  else
    st' <~ buy_signal_logic p row st;;
    sell_signal_logic p row st'.

(** One iteration of [for i, row in data.iterrows()]: the scheduled
    square-off, the start of a new day, then the rest of the body. *)
Definition process_row (p : Params) (st : State) (row : Row) : result State :=
  st1 <~ scheduled_square_off p row st;;
  gate_entry_exit p row (start_of_new_day row st1).

(** The whole loop, from a given state. *)
Fixpoint run (p : Params) (st : State) (data : list Row) : result State :=
  match data with
  | [] => Ok st
  | row :: data' => st' <~ process_row p st row;; run p st' data'
  end.

(** ** The results of [simulate_trades] (lines 216-259) *)

Record FinalSummary : Type := {
  Final_Capital : Q;
  Total_Profit_Loss : Q;
  Total_Revenue : Q;
  Total_Cost : Q;
  Initial_Capital : Q;
  Current_Stock_Holding : Z;
  Leverage_Used : Q;
  TRADE_ALLOCATION : Q;
  TARGET_PROFIT_PERCENTAGE : Q;
  ATR_MULTIPLIER : Q
}.

Record Output : Type := {
  trades_df : list Trade;
  missed_signals_df : list MissedSignal;
  daily_summary_df : list DaySummary;
  final_summary : FinalSummary
}.

(** [sum(pos['shares'] for pos in long_positions)] *)
Definition sum_shares (l : list Position) : Z :=
  fold_left (fun acc pos => (acc + p_shares pos)%Z) l 0%Z.

Definition simulate_trades (data : list Row) (p : Params) : result Output :=
  st <~ run p (initial_state p) data;;
  let daily_summary' :=
    match current_day st with
    | Some day =>
        daily_summary st ++
          [ {| d_Date := day;
               d_Start_of_Day_Capital := start_of_day_capital st;
               d_End_of_Day_Capital := capital st |} ]
    | None => daily_summary st
    end in
  let final_capital := initial_capital p + total_profit_loss st in
  let current_stock_holding := sum_shares (long_positions st) in
  Ok {| trades_df := trades st;
        missed_signals_df := missed_signals st;
        daily_summary_df := daily_summary';
        final_summary :=
          {| Final_Capital := final_capital;
             Total_Profit_Loss := total_profit_loss st;
             Total_Revenue := total_revenue st;
             Total_Cost := total_cost st;
             Initial_Capital := initial_capital p;
             Current_Stock_Holding := current_stock_holding;
             Leverage_Used := leverage p;
             TRADE_ALLOCATION := trade_allocation p;
             TARGET_PROFIT_PERCENTAGE := target_profit_percentage p;
             ATR_MULTIPLIER := atr_multiplier p |} |}.

(** ** generate_signals (signals.py)

    A cell of a float column is [option Q]: [None] is NaN. A comparison of
    pandas with NaN on either side, or with a [None] scalar (a threshold
    that [indicator_config.get] did not find), is [False]. The model covers
    frames that hold the columns the function reads (close, RSI, MACD,
    Signal, VWAP, ATR), as [calculate_indicators] leaves them. *)

Record IndicatorRow : Type := {
  i_close : option Q;
  i_RSI : option Q;
  i_MACD : option Q;
  i_Signal : option Q;
  i_VWAP : option Q;
  i_ATR : option Q
}.

(** A row of the frame [generate_signals] returns: the input row and the
    columns it adds. *)
Record SignalRow : Type := {
  g_row : IndicatorRow;
  g_SMA50 : option Q;
  g_SMA200 : option Q;
  g_RSI_Recovery : bool;
  g_VWAP_Recovery : bool;
  g_Buy_Signal : bool;
  g_Sell_Signal : bool
}.

(** [a > b] and [a < b] on cells. *)
Definition cell_gt (a b : option Q) : bool :=
  match a, b with
  | Some x, Some y => negb (Qle_bool x y)
  | _, _ => false
  end.

Definition cell_lt (a b : option Q) : bool := cell_gt b a.

(** The mean of a full window without NaN, NaN otherwise. *)
Definition window_mean (w : nat) (window : list (option Q)) : option Q :=
  if (length window <? w)%nat then None
  else
    match fold_right
            (fun cell acc =>
               match cell, acc with
               | Some x, Some s => Some (x + s)
               | _, _ => None
               end)
            (Some 0) window with
    | Some s => Some (s / inject_Z (Z.of_nat w))
    | None => None
    end.

(** [series.rolling(window=w).mean()]; [seen] holds the cells before the
    current one, latest first. *)
Fixpoint rolling_mean_from (w : nat) (seen : list (option Q))
    (cells : list (option Q)) : list (option Q) :=
  match cells with
  | [] => []
  | cell :: cells' =>
      window_mean w (firstn w (cell :: seen))
      :: rolling_mean_from w (cell :: seen) cells'
  end.

Definition rolling_mean (w : nat) (cells : list (option Q))
    : list (option Q) :=
  rolling_mean_from w [] cells.

(** The columns added to one row (lines 26-49); [prev] is the row before it,
    none for the first row, where [shift(1)] gives NaN. *)
Definition signal_row (indicator_config : gmap string Q)
    (prev : option IndicatorRow) (r : IndicatorRow)
    (sma50 sma200 : option Q) : SignalRow :=
  let atr_threshold := indicator_config !! "ATR_THRESHOLD" in
  let buy_rsi_threshold_low := indicator_config !! "BUY_RSI_THRESHOLD_LOW" in
  let buy_rsi_threshold_high :=
    indicator_config !! "BUY_RSI_THRESHOLD_HIGH" in
  let sell_rsi_threshold := indicator_config !! "SELL_RSI_THRESHOLD" in
  let shifted_RSI :=
    match prev with Some q => i_RSI q | None => None end in
  let shifted_close :=
    match prev with Some q => i_close q | None => None end in
  let rsi_recovery :=
    cell_lt shifted_RSI buy_rsi_threshold_low
    && cell_gt (i_RSI r) buy_rsi_threshold_high in
  let vwap_recovery :=
    cell_lt shifted_close (i_VWAP r) && cell_gt (i_close r) (i_VWAP r) in
  {| g_row := r;
     g_SMA50 := sma50;
     g_SMA200 := sma200;
     g_RSI_Recovery := rsi_recovery;
     g_VWAP_Recovery := vwap_recovery;
     g_Buy_Signal :=
       rsi_recovery
       && cell_gt (i_MACD r) (i_Signal r)
       && cell_gt (i_ATR r) atr_threshold
       && vwap_recovery;
     g_Sell_Signal :=
       cell_lt (i_MACD r) (i_Signal r)
       && cell_gt (i_RSI r) sell_rsi_threshold
       && cell_gt (i_ATR r) atr_threshold
       && cell_gt (i_close r) (i_VWAP r) |}.

(** The rows with their new columns, row by row. *)
Fixpoint signal_rows (indicator_config : gmap string Q)
    (prev : option IndicatorRow) (data : list IndicatorRow)
    (sma50 sma200 : list (option Q)) : list SignalRow :=
  match data, sma50, sma200 with
  | r :: data', a :: sma50', b :: sma200' =>
      signal_row indicator_config prev r a b
      :: signal_rows indicator_config (Some r) data' sma50' sma200'
  | _, _, _ => []
  end.

(** [generate_signals(data, indicator_config)]: the frame and the two RSI
    recovery thresholds; on an empty frame, the frame and two [None]. *)
Definition generate_signals (data : list IndicatorRow)
    (indicator_config : gmap string Q)
    : list SignalRow * option Q * option Q :=
  match data with
  | [] => ([], None, None)
  | _ :: _ =>
      (signal_rows indicator_config None data
         (rolling_mean 50 (map i_close data))
         (rolling_mean 200 (map i_close data)),
       indicator_config !! "BUY_RSI_THRESHOLD_LOW",
       indicator_config !! "BUY_RSI_THRESHOLD_HIGH")
  end.

(** ** The win rate of main (main.py, lines 124-128) *)

(** [trades['Type'].isin(['Sell', 'Square Off'])] *)
Definition is_completed (t : Trade) : bool :=
  String.eqb (t_Type t) "Sell" || String.eqb (t_Type t) "Square Off".

Definition win_rate (trades_frame : list Trade) : Q :=
  let completed_trades := List.filter is_completed trades_frame in
  let wins :=
    length (List.filter (fun t => negb (Qle_bool (t_Profit_Loss t) 0))
              completed_trades) in
  let total_trades := length completed_trades in
  if (0 <? total_trades)%nat
  then inject_Z (Z.of_nat wins) / inject_Z (Z.of_nat total_trades) * 100
  else 0.

(** ** clean_token (auth.py, lines 11-16)

    A token is a string of characters. *)

Definition clean_token (token : string) : string :=
  let bearer_prefix := "Bearer "%string in
  if String.prefix bearer_prefix token
  then String.substring (String.length bearer_prefix)
         (String.length token - String.length bearer_prefix) token
  else token.

(** ** The column widths of center_align_and_autofit_excel
    (utils.py, lines 33-52)

    A cell is its column number and the text [str(cell.value)], [None] for
    an empty cell; a sheet is its rows of cells. [get_column_letter] belongs
    to openpyxl and is an argument. The result maps a column letter to the
    width the function sets for it. *)

Definition Cell : Type := (positive * option string)%type.

(** Lines 42-48: one cell of the scan. *)
Definition track_cell (get_column_letter : positive -> string)
    (column_widths : gmap string nat) (cell : Cell) : gmap string nat :=
  match cell.2 with
  | Some text =>
      let cell_length := String.length text in
      let column_letter := get_column_letter cell.1 in
      match column_widths !! column_letter with
      | None => <[column_letter := cell_length]> column_widths
      | Some width =>
          <[column_letter := Nat.max width cell_length]> column_widths
      end
  | None => column_widths
  end.

(** Lines 33-48: the dictionary [column_widths] after the scan of a sheet. *)
Definition scan_widths (get_column_letter : positive -> string)
    (rows : list (list Cell)) : gmap string nat :=
  fold_left
    (fun column_widths row =>
       fold_left (track_cell get_column_letter) row column_widths)
    rows ∅.

(** Lines 50-52: the widths set on the sheet. *)
Definition autofit_widths (get_column_letter : positive -> string)
    (rows : list (list Cell)) : gmap string nat :=
  (fun width => (width + 2)%nat) <$> scan_widths get_column_letter rows.

(** ** load_config (config.py)

    The content of the configuration file, as [json.load] returns it. An
    object is the list of its fields in file order. *)

#[warnings="-register-all"]
Inductive json : Type :=
| JNull
| JBool (b : bool)
| JNum (q : Q)
| JStr (s : string)
| JArr (items : list json)
| JObj (fields : list (string * json)).

(** [d.get(key)] on the fields of an object. *)
Fixpoint field (key : string) (fields : list (string * json))
    : option json :=
  match fields with
  | [] => None
  | (k, v) :: fields' =>
      if String.eqb k key then Some v else field key fields'
  end.

(** [d[key] = value] on the fields of an object: in place when the key is
    there, at the end otherwise. *)
Fixpoint set_field (key : string) (value : json)
    (fields : list (string * json)) : list (string * json) :=
  match fields with
  | [] => [(key, value)]
  | (k, v) :: fields' =>
      if String.eqb k key then (k, value) :: fields'
      else (k, v) :: set_field key value fields'
  end.

(** [key in value]: a field of an object, an item of an array, a substring
    of a string; [None] is the [TypeError] of the other values. *)
Definition contains (value : json) (key : string) : option bool :=
  match value with
  | JObj fields =>
      Some (match field key fields with Some _ => true | None => false end)
  | JArr items =>
      Some (existsb
              (fun item =>
                 match item with JStr s => String.eqb s key | _ => false end)
              items)
  | JStr s =>
      Some (match String.index 0 key s with Some _ => true | None => false end)
  | _ => None
  end.

(** [value[key]] with a string key: defined on objects that hold the key. *)
Definition subscript (value : json) (key : string) : option json :=
  match value with
  | JObj fields => field key fields
  | _ => None
  end.

Definition HISTORICAL_DATA_keys : list string :=
  ["exchange"; "symboltoken"; "interval"; "fromdate"; "todate"].

Definition required_sections : list string :=
  ["INDICATOR_CONFIG"; "CHARGES"; "TRADE_CONFIG"].

(** Lines 23-27: one section of the loop over [required_sections]. *)
Definition default_section (config : option json) (section : string)
    : option json :=
  match config with
  | Some (JObj fields) =>
      match field section fields with
      | Some _ => Some (JObj fields)
      | None => Some (JObj (set_field section (JObj []) fields))
      end
  | _ => None
  end.

(** [load_config], from the parsed content of the file on. [None] is
    [sys.exit(1)], which every exception of the body leads to. *)
Definition load_config (config : json) : option json :=
  match contains config "HISTORICAL_DATA" with
  | Some true =>
      match subscript config "HISTORICAL_DATA" with
      | Some historical =>
          if forallb
               (fun key =>
                  match contains historical key with
                  | Some true => true
                  | _ => false
                  end)
               HISTORICAL_DATA_keys
          then fold_left default_section required_sections (Some config)
          else None
      | None => None
      end
  | _ => None
  end.

(** ** remove_timezone and assert_timezone_naive (utils.py, lines 58-89)

    A frame is its columns in order, each with its name. A datetime column
    has a timezone, [None] when it is naive, and its wall-clock values,
    which [tz_localize(None)] keeps; the cells of the other columns are
    text. *)

Inductive Column : Type :=
| DatetimeColumn (tz : option string) (wall : list Timestamp)
| OtherColumn (cells : list string).

Definition Frame : Type := list (string * Column).

Definition remove_timezone (df : Frame) : Frame :=
  map (fun named =>
         match named.2 with
         | DatetimeColumn (Some _) wall =>
             (named.1, DatetimeColumn None wall)
         | _ => named
         end)
    df.

(** Returns nothing; raises [ValueError] at the first timezone-aware
    column. *)
Fixpoint assert_timezone_naive (df : Frame) (df_name : string)
    : result unit :=
  match df with
  | [] => Ok tt
  | (_, DatetimeColumn (Some _) _) :: _ => Raise ValueError
  | _ :: df' => assert_timezone_naive df' df_name
  end.

(** * The simulator over binary64 doubles

    The definitions above read Python numbers as exact rationals. The
    module [Double] embeds the same source, [calculate_transaction_charges]
    and [simulate_trades] of [src/modules/simulator.py], with Python's
    [float] as the IEEE 754 binary64 numbers of [PrimFloat], rounded to
    nearest even as CPython's are: sums and products round, NaN and the
    infinities are values, and every comparison with NaN is false. It is
    the model of the properties that depend on rounding or on non-finite
    values.

    The numbers of the configuration and of the frame are doubles (a JSON
    integer takes part in the same arithmetic after an exact conversion,
    below 2^53); share counts are Python integers, converted where the
    source multiplies them with a double. *)

Module Double.

Local Open Scope float_scope.

(** ** Python's numeric operations on [float] and [int] *)

(** The conversion of an [int] operand in [int * float] and [float * int]:
    correctly rounded, [OverflowError] when the integer is too large. *)
Definition float_of_int (n : Z) : result float :=
  let x := SF2Prim (binary_normalize prec emax n 0 false) in
  if is_infinity x then Raise OverflowError else Ok x.

(** [x * n] for a float [x] and an int [n] (line 11). *)
Definition times_int (x : float) (n : Z) : result float :=
  q <~ float_of_int n;; Ok (x * q).

(** [n * x] for an int [n] and a float [x] (lines 83, 84, 140, 189, 190). *)
Definition int_times (n : Z) (x : float) : result float :=
  q <~ float_of_int n;; Ok (q * x).

(** [int(x)]: truncation; [ValueError] on NaN, [OverflowError] on an
    infinity. *)
Definition int_of_float (x : float) : result Z :=
  match Prim2SF x with
  | S754_nan => Raise ValueError
  | S754_infinity _ => Raise OverflowError
  | S754_zero _ => Ok 0%Z
  | S754_finite s m e =>
      let magnitude := Z.shiftl (Zpos m) e in
      Ok (if s then (- magnitude)%Z else magnitude)
  end.

(** C's [floor]. *)
Definition floor (x : float) : float :=
  match Prim2SF x with
  | S754_finite s m e =>
      if (e <? 0)%Z
      then SF2Prim (binary_normalize prec emax
                      (Z.shiftl (if s then Zneg m else Zpos m) e) 0 false)
      else x
  | _ => x
  end.

(** C's [fmod]: the remainder of the truncated quotient, computed exactly;
    it has the sign of [x]. *)
Definition fmod (x y : float) : float :=
  match Prim2SF x with
  | S754_nan => nan
  | S754_infinity _ => nan
  | S754_zero _ =>
      match Prim2SF y with
      | S754_nan => nan
      | S754_zero _ => nan
      | _ => x
      end
  | S754_finite sx mx ex =>
      match Prim2SF y with
      | S754_nan => nan
      | S754_zero _ => nan
      | S754_infinity _ => x
      | S754_finite _ my ey =>
          let e := Z.min ex ey in
          let r := Z.rem (Zpos mx * 2 ^ (ex - e)) (Zpos my * 2 ^ (ey - e)) in
          SF2Prim (binary_normalize prec emax (if sx then (- r)%Z else r) e sx)
      end
  end.

(** C's [copysign(0.0, x)]. *)
Definition signed_zero (x : float) : float :=
  if get_sign x then neg_zero else zero.

(** [vx // wx] on floats, as CPython's [float_floor_div] computes it: the
    quotient of [vx - fmod(vx, wx)] by [wx], corrected by one when the
    remainder and the divisor differ in sign, and snapped to the nearest
    integral value. *)
Definition float_floor_div (vx wx : float) : result float :=
  if wx =? 0 then Raise ZeroDivisionError
  else
    let remainder := fmod vx wx in
    let div := (vx - remainder) / wx in
    let div :=
      if negb (remainder =? 0)
         && negb (Bool.eqb (wx <? 0) (remainder <? 0))
      then div - 1 else div in
    if negb (div =? 0) then
      let floordiv := floor div in
      Ok (if 0.5 <? div - floordiv then floordiv + 1 else floordiv)
    else Ok (signed_zero (vx / wx)).

(** [min(a, b)]: [b] when [b < a], else [a]. *)
Definition min (a b : float) : float :=
  if b <? a then b else a.

(** ** calculate_transaction_charges (simulator.py, lines 7-27) *)

Record Charges : Type := {
  total : float;
  brokerage : float;
  stt : float;
  transaction_charge : float;
  sebi_charge : float;
  gst : float;
  stamp_duty : float
}.

(** [charges_config[transaction_type][key]] *)
Definition rate (charges_config : gmap string (gmap string float))
    (transaction_type key : string) : result float :=
  side <~ getitem charges_config transaction_type;;
  getitem side key.

Definition calculate_transaction_charges (price : float) (quantity : Z)
    (transaction_type : string)
    (charges_config : gmap string (gmap string float)) : result Charges :=
  turnover <~ times_int price quantity;;
  r_brokerage <~ rate charges_config transaction_type "BROKERAGE";;
  let brokerage := min (turnover * (r_brokerage / 100)) 20 in
  r_stt <~ rate charges_config transaction_type "STT";;
  let stt := turnover * (r_stt / 100) in
  r_transaction <~ rate charges_config transaction_type "TRANSACTION";;
  let transaction_charge := turnover * (r_transaction / 100) in
  r_sebi <~ rate charges_config transaction_type "SEBI";;
  let sebi_charge := turnover * (r_sebi / 100) in
  r_gst <~ rate charges_config transaction_type "GST";;
  let gst := (brokerage + transaction_charge + sebi_charge) * (r_gst / 100) in
  stamp_duty <~
    (if String.eqb transaction_type "BUY"
     then r_stamp <~ rate charges_config transaction_type "STAMP";;
          Ok (turnover * (r_stamp / 100))
     else Ok 0);;
  let total_charges :=
    brokerage + stt + transaction_charge + sebi_charge + gst + stamp_duty in
  Ok {| total := total_charges;
        brokerage := brokerage;
        stt := stt;
        transaction_charge := transaction_charge;
        sebi_charge := sebi_charge;
        gst := gst;
        stamp_duty := stamp_duty |}.

(** ** Rows, positions, event records and the engine state *)

Record Row : Type := {
  timestamp : Timestamp;
  close : float;
  ATR : float;
  Buy_Signal : bool;
  Sell_Signal : bool
}.

(** An entry of [long_positions]. *)
Record Position : Type := {
  p_shares : Z;
  p_price : float;
  p_buy_charges : float;
  p_margin_used : float;
  p_target_price : float;
  p_trailing_stop_loss : float
}.

(** An entry of [trades]. *)
Record Trade : Type := {
  t_Time : Timestamp;
  t_Type : string;
  t_Price : float;
  t_Shares : Z;
  t_Profit_Loss : float;
  t_Charges : float;
  t_Brokerage : float;
  t_STT : float;
  t_Transaction_Charge : float;
  t_SEBI_Charge : float;
  t_GST : float;
  t_Stamp_Duty : float;
  t_Reason : string
}.

(** An entry of [missed_signals]. *)
Record MissedSignal : Type := {
  m_Time : Timestamp;
  m_Price : float;
  m_Reason : string
}.

(** An entry of [daily_summary]. *)
Record DaySummary : Type := {
  d_Date : Z;
  d_Start_of_Day_Capital : float;
  d_End_of_Day_Capital : float
}.

(** The arguments of [simulate_trades] that the loop reads. *)
Record Params : Type := {
  initial_capital : float;
  trade_allocation : float;
  leverage : float;
  target_profit_percentage : float;
  atr_multiplier : float;
  charges_config : gmap string (gmap string float)
}.

(** The local variables of [simulate_trades] that live across iterations.
    [start_of_day_capital] is unbound in the source until the first bar
    binds it; it is never read before that, here it starts at 0. *)
Record State : Type := {
  capital : float;
  free_cash : float;
  total_profit_loss : float;
  total_revenue : float;
  total_cost : float;
  trades : list Trade;
  missed_signals : list MissedSignal;
  daily_summary : list DaySummary;
  long_positions : list Position;
  current_day : option Z;
  start_of_day_capital : float;
  daily_margin_used : float;
  daily_profit_loss : float
}.

Definition initial_state (p : Params) : State :=
  {| capital := initial_capital p;
     free_cash := initial_capital p;
     total_profit_loss := 0;
     total_revenue := 0;
     total_cost := 0;
     trades := [];
     missed_signals := [];
     daily_summary := [];
     long_positions := [];
     current_day := None;
     start_of_day_capital := 0;
     daily_margin_used := 0;
     daily_profit_loss := 0 |}.

(** ** The deque of open positions *)

(** [==] on two distinct position dictionaries: the same keys, values equal
    as numbers, so a NaN value makes them differ. *)
Definition position_eqb (a b : Position) : bool :=
  (p_shares a =? p_shares b)%Z
  && (p_price a =? p_price b)
  && (p_buy_charges a =? p_buy_charges b)
  && (p_margin_used a =? p_margin_used b)
  && (p_target_price a =? p_target_price b)
  && (p_trailing_stop_loss a =? p_trailing_stop_loss b).

(** The same object. Objects carry no identity here: two entries are taken
    for the same object when all their fields agree bit for bit. In both
    loops of the bar body the entry found this way is the iterated one (see
    [remove_at_head] and [remove_after_kept]). *)
Definition position_is (a b : Position) : bool :=
  (p_shares a =? p_shares b)%Z
  && Leibniz.eqb (p_price a) (p_price b)
  && Leibniz.eqb (p_buy_charges a) (p_buy_charges b)
  && Leibniz.eqb (p_margin_used a) (p_margin_used b)
  && Leibniz.eqb (p_target_price a) (p_target_price b)
  && Leibniz.eqb (p_trailing_stop_loss a) (p_trailing_stop_loss b).

(** [dq.remove(x)]: delete the first element that is [x] or equals [x];
    [ValueError] when there is none. *)
Fixpoint deque_remove (x : Position) (dq : list Position)
    : result (list Position) :=
  match dq with
  | [] => Raise ValueError
  | y :: dq' =>
      if position_is y x || position_eqb y x then Ok dq'
      else (rest <~ deque_remove x dq';; Ok (y :: rest))
  end.

(** ** The body of the bar loop (simulator.py, lines 68-214) *)

(** Lines 80-107: the loop over [list(long_positions)] of the scheduled
    square-off. [snapshot] is the copy the loop iterates. *)
Fixpoint square_off_loop (p : Params) (row : Row) (snapshot : list Position)
    (st : State) : result State :=
  match snapshot with
  | [] => Ok st
  | position :: snapshot' =>
      let price := close row in
      let shares_to_sell := p_shares position in
      sell_charges_details <~
        calculate_transaction_charges price shares_to_sell "SELL"
          (charges_config p);;
      gross <~ int_times shares_to_sell price;;
      let sell_revenue := gross - total sell_charges_details in
      paid <~ int_times shares_to_sell (p_price position);;
      let cost := paid + p_buy_charges position in
      let profit_loss := sell_revenue - cost in
      remaining <~ deque_remove position (long_positions st);;
      square_off_loop p row snapshot'
        {| capital := capital st + profit_loss;
           free_cash := free_cash st + (p_margin_used position + sell_revenue);
           total_profit_loss := total_profit_loss st + profit_loss;
           total_revenue := total_revenue st;
           total_cost := total_cost st;
           trades := trades st ++
             [ {| t_Time := timestamp row;
                  t_Type := "Square Off";
                  t_Price := price;
                  t_Shares := shares_to_sell;
                  t_Profit_Loss := profit_loss;
                  t_Charges := total sell_charges_details;
                  t_Brokerage := brokerage sell_charges_details;
                  t_STT := stt sell_charges_details;
                  t_Transaction_Charge :=
                    transaction_charge sell_charges_details;
                  t_SEBI_Charge := sebi_charge sell_charges_details;
                  t_GST := gst sell_charges_details;
                  t_Stamp_Duty := stamp_duty sell_charges_details;
                  t_Reason := "Square Off Before Market Close" |} ];
           missed_signals := missed_signals st;
           daily_summary := daily_summary st;
           long_positions := remaining;
           current_day := current_day st;
           start_of_day_capital := start_of_day_capital st;
           daily_margin_used := daily_margin_used st;
           daily_profit_loss := daily_profit_loss st + profit_loss |}
  end.

(** Lines 78-107: square off all positions 30 minutes before market close. *)
Definition scheduled_square_off (p : Params) (row : Row) (st : State)
    : result State :=
  if ts_geb (timestamp row) (square_off_time (timestamp row))
     && truthy (long_positions st)
  then square_off_loop p row (long_positions st) st
  else Ok st.

(** [current_day != trade_day], where [current_day] may be [None]. *)
Definition is_new_day (st : State) (trade_day : Z) : bool :=
  match current_day st with
  | None => true
  | Some d => negb (d =? trade_day)%Z
  end.

(** Lines 109-123: start of a new day. *)
Definition start_of_new_day (row : Row) (st : State) : State :=
  let trade_day := ts_date (timestamp row) in
  if is_new_day st trade_day then
    {| capital := capital st;
       free_cash := capital st;
       total_profit_loss := total_profit_loss st;
       total_revenue := total_revenue st;
       total_cost := total_cost st;
       trades := trades st;
       missed_signals := missed_signals st;
       daily_summary :=
         match current_day st with
         | Some day =>
             daily_summary st ++
               [ {| d_Date := day;
                    d_Start_of_Day_Capital := start_of_day_capital st;
                    d_End_of_Day_Capital := capital st |} ]
         | None => daily_summary st
         end;
       long_positions := long_positions st;
       current_day := Some trade_day;
       start_of_day_capital := capital st;
       daily_margin_used := 0;
       daily_profit_loss := 0 |}
  else st.

(** [missed_signals.append({'Time': .., 'Price': .., 'Reason': reason})] *)
Definition record_missed (row : Row) (reason : string) (st : State) : State :=
  {| capital := capital st;
     free_cash := free_cash st;
     total_profit_loss := total_profit_loss st;
     total_revenue := total_revenue st;
     total_cost := total_cost st;
     trades := trades st;
     missed_signals := missed_signals st ++
       [ {| m_Time := timestamp row; m_Price := close row;
            m_Reason := reason |} ];
     daily_summary := daily_summary st;
     long_positions := long_positions st;
     current_day := current_day st;
     start_of_day_capital := start_of_day_capital st;
     daily_margin_used := daily_margin_used st;
     daily_profit_loss := daily_profit_loss st |}.

(** [int(a // b)] (line 137). *)
Definition floordiv (a b : float) : result Z :=
  quotient <~ float_floor_div a b;; int_of_float quotient.

(** Lines 131-171: buy signal logic. *)
Definition buy_signal_logic (p : Params) (row : Row) (st : State)
    : result State :=
  let price := close row in
  if Buy_Signal row then
    let allocated_margin := free_cash st * trade_allocation p in
    let leveraged_buying_power := allocated_margin * leverage p in
    if price <=? leveraged_buying_power then
      shares_to_buy <~ floordiv leveraged_buying_power price;;
      if (0 <? shares_to_buy)%Z then
        buy_charges_details <~
          calculate_transaction_charges price shares_to_buy "BUY"
            (charges_config p);;
        gross <~ int_times shares_to_buy price;;
        let buy_cost := gross + total buy_charges_details in
        Ok {| capital := capital st;
              free_cash := free_cash st - allocated_margin;
              total_profit_loss := total_profit_loss st;
              total_revenue := total_revenue st;
              total_cost := total_cost st + buy_cost;
              trades := trades st ++
                [ {| t_Time := timestamp row;
                     t_Type := "Buy";
                     t_Price := price;
                     t_Shares := shares_to_buy;
                     t_Profit_Loss := 0;
                     t_Charges := total buy_charges_details;
                     t_Brokerage := brokerage buy_charges_details;
                     t_STT := stt buy_charges_details;
                     t_Transaction_Charge :=
                       transaction_charge buy_charges_details;
                     t_SEBI_Charge := sebi_charge buy_charges_details;
                     t_GST := gst buy_charges_details;
                     t_Stamp_Duty := stamp_duty buy_charges_details;
                     t_Reason := "Buy Signal" |} ];
              missed_signals := missed_signals st;
              daily_summary := daily_summary st;
              long_positions := long_positions st ++
                [ {| p_shares := shares_to_buy;
                     p_price := price;
                     p_buy_charges := total buy_charges_details;
                     p_margin_used := allocated_margin;
                     p_target_price :=
                       price * (1 + target_profit_percentage p / 100);
                     p_trailing_stop_loss :=
                       price - ATR row * atr_multiplier p |} ];
              current_day := current_day st;
              start_of_day_capital := start_of_day_capital st;
              daily_margin_used := daily_margin_used st + allocated_margin;
              daily_profit_loss := daily_profit_loss st |}
      else Ok st
    else Ok (record_missed row "Insufficient Funds" st)
  else Ok st.

(** Lines 176-184: the reason chosen for one position, [None] when no
    condition matches. *)
Definition exit_reason (row : Row) (position : Position) : option string :=
  let price := close row in
  if Sell_Signal row then Some "Sell Signal Triggered"
  else if p_target_price position <=? price
    then Some "Target Profit Reached"
  else if price <=? p_trailing_stop_loss position
    then Some "Trailing Stop-Loss Triggered"
  else if ts_geb (timestamp row) (square_off_time (timestamp row))
    then Some "Square Off Before Market Close"
  else None.

(** Lines 175-214: the loop over [list(long_positions)] of the sell logic. *)
Fixpoint sell_loop (p : Params) (row : Row) (snapshot : list Position)
    (st : State) : result State :=
  match snapshot with
  | [] => Ok st
  | position :: snapshot' =>
      match exit_reason row position with
      | Some reason =>
          let price := close row in
          let shares_to_sell := p_shares position in
          sell_charges_details <~
            calculate_transaction_charges price shares_to_sell "SELL"
              (charges_config p);;
          gross <~ int_times shares_to_sell price;;
          let sell_revenue := gross - total sell_charges_details in
          paid <~ int_times shares_to_sell (p_price position);;
          let cost := paid + p_buy_charges position in
          let profit_loss := sell_revenue - cost in
          remaining <~ deque_remove position (long_positions st);;
          sell_loop p row snapshot'
            {| capital := capital st + profit_loss;
               free_cash :=
                 free_cash st + (p_margin_used position + sell_revenue);
               total_profit_loss := total_profit_loss st + profit_loss;
               total_revenue := total_revenue st + sell_revenue;
               total_cost := total_cost st;
               trades := trades st ++
                 [ {| t_Time := timestamp row;
                      t_Type := "Sell";
                      t_Price := price;
                      t_Shares := shares_to_sell;
                      t_Profit_Loss := profit_loss;
                      t_Charges := total sell_charges_details;
                      t_Brokerage := brokerage sell_charges_details;
                      t_STT := stt sell_charges_details;
                      t_Transaction_Charge :=
                        transaction_charge sell_charges_details;
                      t_SEBI_Charge := sebi_charge sell_charges_details;
                      t_GST := gst sell_charges_details;
                      t_Stamp_Duty := stamp_duty sell_charges_details;
                      t_Reason := reason |} ];
               missed_signals := missed_signals st;
               daily_summary := daily_summary st;
               long_positions := remaining;
               current_day := current_day st;
               start_of_day_capital := start_of_day_capital st;
               daily_margin_used := daily_margin_used st;
               daily_profit_loss := daily_profit_loss st + profit_loss |}
      | None => sell_loop p row snapshot' st
      end
  end.

(** Lines 173-214: sell signal logic. *)
Definition sell_signal_logic (p : Params) (row : Row) (st : State)
    : result State :=
  if truthy (long_positions st)
  then sell_loop p row (long_positions st) st
  else Ok st.

(** Lines 125-214: the gate on late buys, then the buy and the sell logic.
    The [continue] of line 129 ends the iteration with the state reached so
    far. *)
Definition gate_entry_exit (p : Params) (row : Row) (st : State)
    : result State :=
  if ts_geb (timestamp row) (no_new_buys_time (timestamp row))
     && Buy_Signal row
  then Ok (record_missed row "Buy restricted near market close" st)
  else
    st' <~ buy_signal_logic p row st;;
    sell_signal_logic p row st'.

(** One iteration of [for i, row in data.iterrows()]. *)
Definition process_row (p : Params) (st : State) (row : Row) : result State :=
  st1 <~ scheduled_square_off p row st;;
  gate_entry_exit p row (start_of_new_day row st1).

(** The whole loop, from a given state. *)
Fixpoint run (p : Params) (st : State) (data : list Row) : result State :=
  match data with
  | [] => Ok st
  | row :: data' => st' <~ process_row p st row;; run p st' data'
  end.

(** ** The results of [simulate_trades] (lines 216-259) *)

Record FinalSummary : Type := {
  Final_Capital : float;
  Total_Profit_Loss : float;
  Total_Revenue : float;
  Total_Cost : float;
  Initial_Capital : float;
  Current_Stock_Holding : Z;
  Leverage_Used : float;
  TRADE_ALLOCATION : float;
  TARGET_PROFIT_PERCENTAGE : float;
  ATR_MULTIPLIER : float
}.

Record Output : Type := {
  trades_df : list Trade;
  missed_signals_df : list MissedSignal;
  daily_summary_df : list DaySummary;
  final_summary : FinalSummary
}.

(** [sum(pos['shares'] for pos in long_positions)] *)
Definition sum_shares (l : list Position) : Z :=
  fold_left (fun acc pos => (acc + p_shares pos)%Z) l 0%Z.

Definition simulate_trades (data : list Row) (p : Params) : result Output :=
  st <~ run p (initial_state p) data;;
  let daily_summary' :=
    match current_day st with
    | Some day =>
        daily_summary st ++
          [ {| d_Date := day;
               d_Start_of_Day_Capital := start_of_day_capital st;
               d_End_of_Day_Capital := capital st |} ]
    | None => daily_summary st
    end in
  let final_capital := initial_capital p + total_profit_loss st in
  let current_stock_holding := sum_shares (long_positions st) in
  Ok {| trades_df := trades st;
        missed_signals_df := missed_signals st;
        daily_summary_df := daily_summary';
        final_summary :=
          {| Final_Capital := final_capital;
             Total_Profit_Loss := total_profit_loss st;
             Total_Revenue := total_revenue st;
             Total_Cost := total_cost st;
             Initial_Capital := initial_capital p;
             Current_Stock_Holding := current_stock_holding;
             Leverage_Used := leverage p;
             TRADE_ALLOCATION := trade_allocation p;
             TARGET_PROFIT_PERCENTAGE := target_profit_percentage p;
             ATR_MULTIPLIER := atr_multiplier p |} |}.

End Double.

(** ** Vocabulary of the properties *)

(** The six rates of one side of the charges configuration, in percent. *)
Record Rates : Type := {
  r_BROKERAGE : Q;
  r_STT : Q;
  r_TRANSACTION : Q;
  r_SEBI : Q;
  r_GST : Q;
  r_STAMP : Q
}.

(** The table of [side] in [cfg] is complete and holds the rates [r]. *)
Definition side_has_rates (cfg : gmap string (gmap string Q)) (side : string)
    (r : Rates) : Prop :=
  exists d : gmap string Q,
    cfg !! side = Some d
    /\ d !! "BROKERAGE" = Some (r_BROKERAGE r)
    /\ d !! "STT" = Some (r_STT r)
    /\ d !! "TRANSACTION" = Some (r_TRANSACTION r)
    /\ d !! "SEBI" = Some (r_SEBI r)
    /\ d !! "GST" = Some (r_GST r)
    /\ d !! "STAMP" = Some (r_STAMP r).

Definition rates_nonneg (r : Rates) : Prop :=
  0 <= r_BROKERAGE r /\ 0 <= r_STT r /\ 0 <= r_TRANSACTION r
  /\ 0 <= r_SEBI r /\ 0 <= r_GST r /\ 0 <= r_STAMP r.

(** The fixed ceiling of the brokerage component. *)
Definition brokerage_cap : Q := 20.

(** The exit conditions of one position on one bar, in the priority order of
    the specification, each with its reason. *)
Definition exit_conditions (row : Row) (position : Position)
    : list (bool * string) :=
  [ (Sell_Signal row, "Sell Signal Triggered");
    (Qle_bool (p_target_price position) (close row), "Target Profit Reached");
    (Qle_bool (close row) (p_trailing_stop_loss position),
     "Trailing Stop-Loss Triggered");
    (ts_geb (timestamp row) (square_off_time (timestamp row)),
     "Square Off Before Market Close") ].

(** The reason of the first condition that holds. *)
Fixpoint first_match (conditions : list (bool * string)) : option string :=
  match conditions with
  | [] => None
  | (holds, reason) :: conditions' =>
      if holds then Some reason else first_match conditions'
  end.

(** The realized profit/loss of a list of trade events. *)
Definition sum_profit_loss (events : list Trade) : Q :=
  fold_right (fun t acc => t_Profit_Loss t + acc) 0 events.

(** The bar body in the order of the specification: the day rollover
    first, then the scheduled square-off, then the rest. *)
Definition process_row_rollover_first (p : Params) (st : State) (row : Row)
    : result State :=
  st1 <~ scheduled_square_off p row (start_of_new_day row st);;
  gate_entry_exit p row st1.

(** The rates [calculate_transaction_charges] reads for a side. *)
Definition required_rates (side : string) : list string :=
  ["BROKERAGE"; "STT"; "TRANSACTION"; "SEBI"; "GST"]
  ++ (if String.eqb side "BUY" then ["STAMP"] else []).

(** The rate [key] of [side] is absent from the configuration: the side has
    no table, or its table has no such key. *)
Definition rate_absent (cfg : gmap string (gmap string Q))
    (side key : string) : Prop :=
  match cfg !! side with
  | Some d => d !! key = None
  | None => True
  end.

(** What a trade event shows of the position it closes. *)
Definition event_view (t : Trade) : string * string * Q * Z :=
  (t_Type t, t_Reason t, t_Price t, t_Shares t).

(** The view of the Square Off event that closes [position] on [row]. *)
Definition squared_off_view (row : Row) (position : Position)
    : string * string * Q * Z :=
  ("Square Off", "Square Off Before Market Close", close row,
   p_shares position).

(** The view of the Sell event for [position] on [row], when one of the exit
    conditions holds. *)
Definition sold_view (row : Row) (position : Position)
    : option (string * string * Q * Z) :=
  match exit_reason row position with
  | Some reason => Some ("Sell", reason, close row, p_shares position)
  | None => None
  end.

(** The largest part of a sale's turnover that the charges of rates [r] can
    take: the brokerage is at most its uncapped value. *)
Definition charge_fraction (r : Rates) : Q :=
  r_BROKERAGE r / 100 + r_STT r / 100 + r_TRANSACTION r / 100
  + r_SEBI r / 100
  + (r_BROKERAGE r / 100 + r_TRANSACTION r / 100 + r_SEBI r / 100)
    * (r_GST r / 100).

(** [sell_revenue] of lines 83 and 189 for [position] on [row]: the sale's
    turnover less its charges. *)
Definition net_proceeds (p : Params) (row : Row) (position : Position) : Q :=
  match calculate_transaction_charges (close row) (p_shares position) "SELL"
          (charges_config p) with
  | Ok c => inject_Z (p_shares position) * close row - total c
  | Raise _ => 0
  end.

(** The cash the exits of [positions] on [row] give back to [free_cash]:
    for each, its margin and its net sale proceeds. *)
Definition restored_cash (p : Params) (row : Row)
    (positions : list Position) : Q :=
  fold_right
    (fun position acc =>
       p_margin_used position + net_proceeds p row position + acc)
    0 positions.

(** Margins and share counts of the open positions are non-negative. *)
Definition ledger_sound (positions : list Position) : Prop :=
  Forall (fun position =>
            0 <= p_margin_used position /\ (0 <= p_shares position)%Z)
    positions.

(** Free cash is non-negative and the ledger is sound. *)
Definition cash_invariant (st : State) : Prop :=
  0 <= free_cash st /\ ledger_sound (long_positions st).

(** ** The elementary updates of one bar

    The states the loop body moves through, named, and the relation
    [bar_step] of one elementary update under the guard the code tests
    before it. *)

(** The state after one iteration of the square-off loop (lines 81-107). *)
Definition after_square_off (row : Row) (position : Position) (c : Charges)
    (remaining : list Position) (st : State) : State :=
  let price := close row in
  let shares_to_sell := p_shares position in
  let sell_revenue := inject_Z shares_to_sell * price - total c in
  let cost :=
    inject_Z shares_to_sell * p_price position + p_buy_charges position in
  let profit_loss := sell_revenue - cost in
  {| capital := capital st + profit_loss;
     free_cash := free_cash st + (p_margin_used position + sell_revenue);
     total_profit_loss := total_profit_loss st + profit_loss;
     total_revenue := total_revenue st;
     total_cost := total_cost st;
     trades := trades st ++
       [ {| t_Time := timestamp row;
            t_Type := "Square Off";
            t_Price := price;
            t_Shares := shares_to_sell;
            t_Profit_Loss := profit_loss;
            t_Charges := total c;
            t_Brokerage := brokerage c;
            t_STT := stt c;
            t_Transaction_Charge := transaction_charge c;
            t_SEBI_Charge := sebi_charge c;
            t_GST := gst c;
            t_Stamp_Duty := stamp_duty c;
            t_Reason := "Square Off Before Market Close" |} ];
     missed_signals := missed_signals st;
     daily_summary := daily_summary st;
     long_positions := remaining;
     current_day := current_day st;
     start_of_day_capital := start_of_day_capital st;
     daily_margin_used := daily_margin_used st;
     daily_profit_loss := daily_profit_loss st + profit_loss |}.

(** The state after one exit of the sell loop (lines 186-214). *)
Definition after_sell (row : Row) (position : Position) (reason : string)
    (c : Charges) (remaining : list Position) (st : State) : State :=
  let price := close row in
  let shares_to_sell := p_shares position in
  let sell_revenue := inject_Z shares_to_sell * price - total c in
  let cost :=
    inject_Z shares_to_sell * p_price position + p_buy_charges position in
  let profit_loss := sell_revenue - cost in
  {| capital := capital st + profit_loss;
     free_cash := free_cash st + (p_margin_used position + sell_revenue);
     total_profit_loss := total_profit_loss st + profit_loss;
     total_revenue := total_revenue st + sell_revenue;
     total_cost := total_cost st;
     trades := trades st ++
       [ {| t_Time := timestamp row;
            t_Type := "Sell";
            t_Price := price;
            t_Shares := shares_to_sell;
            t_Profit_Loss := profit_loss;
            t_Charges := total c;
            t_Brokerage := brokerage c;
            t_STT := stt c;
            t_Transaction_Charge := transaction_charge c;
            t_SEBI_Charge := sebi_charge c;
            t_GST := gst c;
            t_Stamp_Duty := stamp_duty c;
            t_Reason := reason |} ];
     missed_signals := missed_signals st;
     daily_summary := daily_summary st;
     long_positions := remaining;
     current_day := current_day st;
     start_of_day_capital := start_of_day_capital st;
     daily_margin_used := daily_margin_used st;
     daily_profit_loss := daily_profit_loss st + profit_loss |}.

(** The state after an entry of [shares_to_buy] shares (lines 139-169). *)
Definition after_buy (p : Params) (row : Row) (shares_to_buy : Z)
    (c : Charges) (st : State) : State :=
  let price := close row in
  let allocated_margin := free_cash st * trade_allocation p in
  let buy_cost := inject_Z shares_to_buy * price + total c in
  {| capital := capital st;
     free_cash := free_cash st - allocated_margin;
     total_profit_loss := total_profit_loss st;
     total_revenue := total_revenue st;
     total_cost := total_cost st + buy_cost;
     trades := trades st ++
       [ {| t_Time := timestamp row;
            t_Type := "Buy";
            t_Price := price;
            t_Shares := shares_to_buy;
            t_Profit_Loss := 0;
            t_Charges := total c;
            t_Brokerage := brokerage c;
            t_STT := stt c;
            t_Transaction_Charge := transaction_charge c;
            t_SEBI_Charge := sebi_charge c;
            t_GST := gst c;
            t_Stamp_Duty := stamp_duty c;
            t_Reason := "Buy Signal" |} ];
     missed_signals := missed_signals st;
     daily_summary := daily_summary st;
     long_positions := long_positions st ++
       [ {| p_shares := shares_to_buy;
            p_price := price;
            p_buy_charges := total c;
            p_margin_used := allocated_margin;
            p_target_price :=
              price * (1 + target_profit_percentage p / 100);
            p_trailing_stop_loss := price - ATR row * atr_multiplier p |} ];
     current_day := current_day st;
     start_of_day_capital := start_of_day_capital st;
     daily_margin_used := daily_margin_used st + allocated_margin;
     daily_profit_loss := daily_profit_loss st |}.

(** One elementary update of the bar [row], with the guards the loop body
    has tested when it makes it. The updates after the new-day block see
    [current_day] set to the bar's day. *)
Inductive bar_step (p : Params) (row : Row) : State -> State -> Prop :=
| step_square_off (st : State) (position : Position) (c : Charges)
    (remaining : list Position) :
    ts_geb (timestamp row) (square_off_time (timestamp row)) = true ->
    calculate_transaction_charges (close row) (p_shares position) "SELL"
      (charges_config p) = Ok c ->
    deque_remove position (long_positions st) = Ok remaining ->
    bar_step p row st (after_square_off row position c remaining st)
| step_new_day (st : State) :
    is_new_day st (ts_date (timestamp row)) = true ->
    bar_step p row st (start_of_new_day row st)
| step_late_buy (st : State) :
    current_day st = Some (ts_date (timestamp row)) ->
    ts_geb (timestamp row) (no_new_buys_time (timestamp row)) = true ->
    Buy_Signal row = true ->
    bar_step p row st
      (record_missed row "Buy restricted near market close" st)
| step_insufficient (st : State) :
    current_day st = Some (ts_date (timestamp row)) ->
    ts_geb (timestamp row) (no_new_buys_time (timestamp row)) = false ->
    Buy_Signal row = true ->
    Qle_bool (close row)
      (free_cash st * trade_allocation p * leverage p) = false ->
    bar_step p row st (record_missed row "Insufficient Funds" st)
| step_buy (st : State) (shares_to_buy : Z) (c : Charges) :
    current_day st = Some (ts_date (timestamp row)) ->
    ts_geb (timestamp row) (no_new_buys_time (timestamp row)) = false ->
    Buy_Signal row = true ->
    Qle_bool (close row)
      (free_cash st * trade_allocation p * leverage p) = true ->
    floordiv (free_cash st * trade_allocation p * leverage p) (close row)
    = Ok shares_to_buy ->
    (0 < shares_to_buy)%Z ->
    calculate_transaction_charges (close row) shares_to_buy "BUY"
      (charges_config p) = Ok c ->
    bar_step p row st (after_buy p row shares_to_buy c st)
| step_sell (st : State) (position : Position) (reason : string)
    (c : Charges) (remaining : list Position) :
    current_day st = Some (ts_date (timestamp row)) ->
    exit_reason row position = Some reason ->
    calculate_transaction_charges (close row) (p_shares position) "SELL"
      (charges_config p) = Ok c ->
    deque_remove position (long_positions st) = Ok remaining ->
    bar_step p row st (after_sell row position reason c remaining st).

(** ** Sums over the trade log *)

(** The sum of [f] over the events of type [ty]. *)
Definition sum_over (ty : string) (f : Trade -> Q) (events : list Trade) : Q :=
  fold_right
    (fun t acc => if String.eqb (t_Type t) ty then f t + acc else acc)
    0 events.

(** The shares of the events of type [ty]. *)
Definition shares_over (ty : string) (events : list Trade) : Z :=
  fold_right
    (fun t acc => if String.eqb (t_Type t) ty then (t_Shares t + acc)%Z
                  else acc)
    0%Z events.

(** What a Buy event cost: its turnover and its charges. *)
Definition event_cost (t : Trade) : Q :=
  inject_Z (t_Shares t) * t_Price t + t_Charges t.

(** What an exit event brought in: its turnover less its charges. *)
Definition event_proceeds (t : Trade) : Q :=
  inject_Z (t_Shares t) * t_Price t - t_Charges t.

(** The running totals are the sums of the trade log: profit/loss over all
    events, cost over the Buy events, revenue over the Sell events. *)
Definition totals_match (st : State) : Prop :=
  total_profit_loss st == sum_profit_loss (trades st)
  /\ total_cost st == sum_over "Buy" event_cost (trades st)
  /\ total_revenue st == sum_over "Sell" event_proceeds (trades st).

(** Shares bought are shares sold, squared off or still held. *)
Definition shares_conserved (st : State) : Prop :=
  shares_over "Buy" (trades st)
  = (shares_over "Sell" (trades st) + shares_over "Square Off" (trades st)
     + sum_shares (long_positions st))%Z.

(** ** The shape of the logged events *)

(** A Buy event is stamped before the no-new-buy deadline of its day, a
    Square Off event at or after the square-off deadline. *)
Definition timely (t : Trade) : Prop :=
  (t_Type t = "Buy" ->
   ts_geb (t_Time t) (no_new_buys_time (t_Time t)) = false)
  /\ (t_Type t = "Square Off" ->
      ts_geb (t_Time t) (square_off_time (t_Time t)) = true).

(** The reasons the sell logic can record. *)
Definition sell_reasons : list string :=
  [ "Sell Signal Triggered"; "Target Profit Reached";
    "Trailing Stop-Loss Triggered"; "Square Off Before Market Close" ].

(** The type, share count, charges and reason of an event fit together. *)
Definition well_formed_event (t : Trade) : Prop :=
  (t_Type t = "Buy" \/ t_Type t = "Sell" \/ t_Type t = "Square Off")
  /\ (0 < t_Shares t)%Z
  /\ t_Charges t
     = t_Brokerage t + t_STT t + t_Transaction_Charge t + t_SEBI_Charge t
       + t_GST t + t_Stamp_Duty t
  /\ t_Brokerage t <= 20
  /\ (t_Type t = "Buy" ->
      t_Profit_Loss t = 0 /\ t_Reason t = "Buy Signal")
  /\ (t_Type t <> "Buy" -> t_Stamp_Duty t = 0)
  /\ (t_Type t = "Square Off" ->
      t_Reason t = "Square Off Before Market Close")
  /\ (t_Type t = "Sell" -> In (t_Reason t) sell_reasons).

(** The events are well formed and every open position has a positive
    share count. *)
Definition log_well_formed (st : State) : Prop :=
  Forall well_formed_event (trades st)
  /\ Forall (fun position => (0 < p_shares position)%Z) (long_positions st).

(** The event [t] was recorded on a bar of [data]: it carries the bar's
    timestamp and close; a Buy event comes from a bar with a buy signal, an
    exit for the sell signal from a bar with a sell signal. *)
Definition from_bar (data : list Row) (t : Trade) : Prop :=
  exists row : Row,
    In row data
    /\ t_Time t = timestamp row
    /\ t_Price t = close row
    /\ (t_Type t = "Buy" -> Buy_Signal row = true)
    /\ (t_Reason t = "Sell Signal Triggered" -> Sell_Signal row = true).

(** The missed signal [m] was recorded on a bar of [data] with a buy
    signal: restricted at or after the no-new-buy deadline, for insufficient
    funds before it. *)
Definition missed_on_bar (data : list Row) (m : MissedSignal) : Prop :=
  exists row : Row,
    In row data
    /\ m_Time m = timestamp row
    /\ m_Price m = close row
    /\ Buy_Signal row = true
    /\ ((m_Reason m = "Buy restricted near market close"
         /\ ts_geb (m_Time m) (no_new_buys_time (m_Time m)) = true)
        \/ (m_Reason m = "Insufficient Funds"
            /\ ts_geb (m_Time m) (no_new_buys_time (m_Time m)) = false)).

(** ** The daily capital snapshots *)

(** The snapshots [l] form a chain from the capital [start]: the first one
    starts with [start], each next one starts with the end-of-day capital of
    the one before it, on a different date. *)
Fixpoint chained (start : Q) (l : list DaySummary) : Prop :=
  match l with
  | [] => True
  | d :: l' =>
      d_Start_of_Day_Capital d = start
      /\ (forall d' : DaySummary, head l' = Some d' -> d_Date d <> d_Date d')
      /\ chained (d_End_of_Day_Capital d) l'
  end.

(** The snapshot the end of the run would append for the current day. *)
Definition open_snapshot (today : Z) (st : State) : DaySummary :=
  {| d_Date := today;
     d_Start_of_Day_Capital := start_of_day_capital st;
     d_End_of_Day_Capital := capital st |}.

(** Before the first bar nothing has happened; afterwards the finalized
    snapshots followed by the current day's form a chain from the initial
    capital. *)
Definition day_book_chained (p : Params) (st : State) : Prop :=
  match current_day st with
  | None =>
      daily_summary st = [] /\ capital st = initial_capital p
      /\ long_positions st = []
  | Some today =>
      chained (initial_capital p)
        (daily_summary st ++ [open_snapshot today st])
  end.

(** ** The events of one bar *)

(** The event has type [ty] and carries the timestamp and close of [row]. *)
Definition event_of (row : Row) (ty : string) (t : Trade) : Prop :=
  t_Type t = ty /\ t_Time t = timestamp row /\ t_Price t = close row.

(** What one bar adds to the logs: square-off events, then at most one Buy
    event, then Sell events; and at most one missed signal, none beside a
    Buy event. *)
Definition bar_events (row : Row) (new : list Trade)
    (missed : list MissedSignal) : Prop :=
  exists square_offs buys sells : list Trade,
    new = square_offs ++ buys ++ sells
    /\ Forall (event_of row "Square Off") square_offs
    /\ Forall (event_of row "Buy") buys
    /\ Forall (event_of row "Sell") sells
    /\ (length buys + length missed <= 1)%nat
    /\ Forall (fun m => m_Time m = timestamp row) missed.

(** ** Columns without timezone *)

(** The column [remove_timezone] leaves for [col]. *)
Definition naive_column (col : Column) : Column :=
  match col with
  | DatetimeColumn (Some _) wall => DatetimeColumn None wall
  | _ => col
  end.

(** ** Bars that compute a charge *)

(** The bar computes a BUY charge: it carries a buy signal before the
    no-new-buy deadline, the buying power after the new-day block covers
    the close, and the share count is positive. *)
Definition buy_charge_due (p : Params) (st : State) (row : Row) : Prop :=
  let st1 := start_of_new_day row st in
  let leveraged_buying_power :=
    free_cash st1 * trade_allocation p * leverage p in
  Buy_Signal row = true
  /\ ts_geb (timestamp row) (no_new_buys_time (timestamp row)) = false
  /\ Qle_bool (close row) leveraged_buying_power = true
  /\ exists shares_to_buy : Z,
       floordiv leveraged_buying_power (close row) = Ok shares_to_buy
       /\ (0 < shares_to_buy)%Z.

(** The bar computes a SELL charge: positions are open at or past the
    square-off deadline; or the bar, before that deadline, passes the gate
    on late buys, its buy logic returns, and an open position has an exit
    reason. *)
Definition sell_charge_due (p : Params) (st : State) (row : Row) : Prop :=
  (ts_geb (timestamp row) (square_off_time (timestamp row)) = true
   /\ long_positions st <> [])
  \/ (ts_geb (timestamp row) (square_off_time (timestamp row)) = false
      /\ ts_geb (timestamp row) (no_new_buys_time (timestamp row))
         && Buy_Signal row = false
      /\ exists st' : State,
           buy_signal_logic p row (start_of_new_day row st) = Ok st'
           /\ Exists (fun position => exit_reason row position <> None)
                (long_positions st')).

Definition charge_due (p : Params) (side : string) (st : State) (row : Row)
    : Prop :=
  (side = "BUY" /\ buy_charge_due p st row)
  \/ (side = "SELL" /\ sell_charge_due p st row).

(** The types of the events whose charges are those of [side]. *)
Definition side_events (side : string) : list string :=
  if String.eqb side "BUY" then ["Buy"]
  else if String.eqb side "SELL" then ["Sell"; "Square Off"]
  else [].

(** ** Concrete inputs used by the examples *)

Definition side_table (r : Rates) : gmap string Q :=
  <["BROKERAGE" := r_BROKERAGE r]>
    (<["STT" := r_STT r]>
      (<["TRANSACTION" := r_TRANSACTION r]>
        (<["SEBI" := r_SEBI r]>
          (<["GST" := r_GST r]>
            (<["STAMP" := r_STAMP r]> ∅))))).

Definition buy_rates : Rates :=
  {| r_BROKERAGE := 0.03; r_STT := 0; r_TRANSACTION := 0.003;
     r_SEBI := 0.0001; r_GST := 18; r_STAMP := 0.003 |}.

Definition sell_rates : Rates :=
  {| r_BROKERAGE := 0.03; r_STT := 0.025; r_TRANSACTION := 0.003;
     r_SEBI := 0.0001; r_GST := 18; r_STAMP := 0 |}.

Definition sample_charges : gmap string (gmap string Q) :=
  <["BUY" := side_table buy_rates]> (<["SELL" := side_table sell_rates]> ∅).

Definition sample_params : Params :=
  {| initial_capital := 100000;
     trade_allocation := 0.5;
     leverage := 5;
     target_profit_percentage := 1;
     atr_multiplier := 1;
     charges_config := sample_charges |}.

(** The timestamp of day [d] at [h]:[m]. *)
Definition at_time (d h m : Z) : Timestamp :=
  {| ts_date := d; ts_nanos := ((h * 60 + m) * nanos_per_minute)%Z |}.

Definition bar (d h m : Z) (c a : Q) (buy sell : bool) : Row :=
  {| timestamp := at_time d h m; close := c; ATR := a;
     Buy_Signal := buy; Sell_Signal := sell |}.

(** One morning: an entry at 09:20, the target reached at 09:25. *)
Definition sample_morning : list Row :=
  [ bar 1 9 20 100 2 true false;
    bar 1 9 25 102 2 false false;
    bar 1 9 30 101 2 false false ].

(** A state with one open lot of 100 shares bought at 100. *)
Definition one_lot : Position :=
  {| p_shares := 100;
     p_price := 100;
     p_buy_charges := 5;
     p_margin_used := 2000;
     p_target_price := 101;
     p_trailing_stop_loss := 98 |}.

Definition holding_one_lot : State :=
  {| capital := 100000;
     free_cash := 98000;
     total_profit_loss := 0;
     total_revenue := 0;
     total_cost := 10005;
     trades := [];
     missed_signals := [];
     daily_summary := [];
     long_positions := [one_lot];
     current_day := Some 1%Z;
     start_of_day_capital := 100000;
     daily_margin_used := 2000;
     daily_profit_loss := 0 |}.

(** An entry at 14:20, then a bar at 14:35 that carries both signals. *)
Definition late_entry : Row := bar 1 14 20 100 2 true false.
Definition late_both_signals : Row := bar 1 14 35 100 2 true true.
Definition late_sell_signal : Row := bar 1 14 35 100 2 false true.

(** The lot opened by [late_entry] under [sample_params]. *)
Definition late_lot : Position :=
  {| p_shares := 2500;
     p_price := 100;
     p_buy_charges := 40.245;
     p_margin_used := 50000;
     p_target_price := 101;
     p_trailing_stop_loss := 98 |}.

(** A lot held overnight: an entry at 14:20 on day 1, the next bar at 15:05
    on day 2. *)
Definition overnight_entry : Row := bar 1 14 20 100 2 true false.
Definition next_day_late : Row := bar 2 15 5 100.5 2 false false.

(** Configurations with missing rates: no table at all, and no SELL table. *)
Definition no_charges_params : Params :=
  {| initial_capital := 100000;
     trade_allocation := 0.5;
     leverage := 5;
     target_profit_percentage := 1;
     atr_multiplier := 1;
     charges_config := ∅ |}.

Definition buy_only_params : Params :=
  {| initial_capital := 100000;
     trade_allocation := 0.5;
     leverage := 5;
     target_profit_percentage := 1;
     atr_multiplier := 1;
     charges_config := <["BUY" := side_table buy_rates]> ∅ |}.

(** Bars without any signal. *)
Definition quiet_morning : list Row :=
  [ bar 1 9 20 100 2 false false;
    bar 1 9 25 102 2 false false ].

(** An entry bar with a negative ATR: the lot it opens is sold on the same
    bar. *)
Definition negative_atr_entry : Row := bar 1 9 20 100 (-2) true false.

(** A leveraged entry at 100, a fall to 50 on the next bar, and the first
    bar of the next day. *)
Definition crash_days : list Row :=
  [ bar 1 9 20 100 2 true false;
    bar 1 9 25 50 2 false false;
    bar 2 9 20 50 2 false false ].

(** A frame of two rows on which the second row gives a buy signal, and its
    thresholds. *)
Definition sample_frame : list IndicatorRow :=
  [ {| i_close := Some 99; i_RSI := Some 25; i_MACD := Some (-1);
       i_Signal := Some 0; i_VWAP := Some 100; i_ATR := Some 3 |};
    {| i_close := Some 101; i_RSI := Some 45; i_MACD := Some 1;
       i_Signal := Some 0; i_VWAP := Some 100; i_ATR := Some 3 |} ].

Definition sample_thresholds : gmap string Q :=
  <["ATR_THRESHOLD" := 1]>
    (<["BUY_RSI_THRESHOLD_LOW" := 30]>
      (<["BUY_RSI_THRESHOLD_HIGH" := 40]>
        (<["SELL_RSI_THRESHOLD" := 70]> ∅))).

(** The same thresholds without the ATR threshold. *)
Definition thresholds_without_atr : gmap string Q :=
  <["BUY_RSI_THRESHOLD_LOW" := 30]>
    (<["BUY_RSI_THRESHOLD_HIGH" := 40]>
      (<["SELL_RSI_THRESHOLD" := 70]> ∅)).

(** The trade log of [sample_morning]: one Buy, one winning Sell. *)
Definition sample_log : list Trade :=
  match simulate_trades sample_morning sample_params with
  | Ok out => trades_df out
  | Raise _ => []
  end.

(** A sheet of two rows and two columns; the second cell of the first row is
    empty. *)
Definition sample_sheet : list (list Cell) :=
  [ [ (1%positive, Some "Time"); (2%positive, None) ];
    [ (1%positive, Some "2024-01-02 09:20:00");
      (2%positive, Some "Buy") ] ].

(** Column letters for the first columns, as openpyxl names them. *)
Definition sample_letter (column : positive) : string :=
  match column with
  | 1%positive => "A"
  | 2%positive => "B"
  | _ => "C"
  end.

(** A configuration file with its historical data and trade sections only. *)
Definition sample_config : json :=
  JObj
    [ ("HISTORICAL_DATA",
       JObj [ ("exchange", JStr "NSE"); ("symboltoken", JStr "3045");
              ("interval", JStr "FIVE_MINUTE");
              ("fromdate", JStr "2024-01-01 09:15");
              ("todate", JStr "2024-01-31 15:30") ]);
      ("TRADE_CONFIG", JObj [ ("INITIAL_CAPITAL", JNum 100000) ]) ].

(** A frame with a timezone-aware Time column. *)
Definition sample_aware_frame : Frame :=
  [ ("Time"%string,
     DatetimeColumn (Some "Asia/Kolkata"%string) [at_time 1 9 20]);
    ("Reason"%string, OtherColumn ["Buy Signal"%string]) ].

(** ** Vocabulary and concrete inputs of the properties over doubles *)

Module DoubleSpec.

Import Double.

Local Open Scope float_scope.

(** The realized profit/loss amounts of a trade log, in log order: one for
    each Sell or Square Off event. A Buy event realizes nothing. *)
Definition realized (events : list Trade) : list float :=
  map t_Profit_Loss
    (List.filter (fun t => negb (String.eqb (t_Type t) "Buy")) events).

(** [acc += x] for each amount in turn, from [start]. *)
Definition accumulate (start : float) (amounts : list float) : float :=
  fold_left PrimFloat.add amounts start.

(** The running capital and the cumulative profit/loss are the amounts
    realized so far, added one at a time to the initial capital and to 0. *)
Definition books_follow_log (p : Params) (st : State) : Prop :=
  capital st = accumulate (initial_capital p) (realized (trades st))
  /\ total_profit_loss st = accumulate 0 (realized (trades st)).

(** [leveraged_buying_power] of line 134. *)
Definition buying_power (p : Params) (st : State) : float :=
  free_cash st * trade_allocation p * leverage p.

(** The position lines 146-153 append for [n] shares with buy charges
    [c]. *)
Definition opened_position (p : Params) (row : Row) (st : State) (n : Z)
    (c : Charges) : Position :=
  {| p_shares := n;
     p_price := close row;
     p_buy_charges := total c;
     p_margin_used := free_cash st * trade_allocation p;
     p_target_price := close row * (1 + target_profit_percentage p / 100);
     p_trailing_stop_loss := close row - ATR row * atr_multiplier p |}.

(** The table of [side] holds every rate [calculate_transaction_charges]
    reads for that side. *)
Definition has_rates (cfg : gmap string (gmap string float)) (side : string)
    : Prop :=
  exists d : gmap string float,
    cfg !! side = Some d
    /\ Forall (fun key => is_Some (d !! key)) (required_rates side).

(** The share count converts to a double: the double nearest to it is
    finite, so that [n * x] does not raise [OverflowError]. *)
Definition convertible (n : Z) : Prop :=
  exists q : float, float_of_int n = Ok q.

(** What a trade event shows of the position it closes. *)
Definition event_view (t : Trade) : string * string * float * Z :=
  (t_Type t, t_Reason t, t_Price t, t_Shares t).

(** The view of the Sell event for [position] on [row], when one of the exit
    conditions holds. *)
Definition sold_view (row : Row) (position : Position)
    : option (string * string * float * Z) :=
  match exit_reason row position with
  | Some reason => Some ("Sell", reason, close row, p_shares position)
  | None => None
  end.

(** The bar reaches the buy logic with its buy signal: it is before the
    no-new-buy deadline. *)
Definition entry_attempted (row : Row) : Prop :=
  Buy_Signal row = true
  /\ ts_geb (timestamp row) (no_new_buys_time (timestamp row)) = false.

(** *** Concrete inputs *)

Definition side_table (b s t e g d : float) : gmap string float :=
  <["BROKERAGE" := b]>
    (<["STT" := s]>
      (<["TRANSACTION" := t]>
        (<["SEBI" := e]> (<["GST" := g]> (<["STAMP" := d]> ∅))))).

#[warnings="-inexact-float"]
Definition sample_charges : gmap string (gmap string float) :=
  <["BUY" := side_table 0.03 0 0.003 0.0001 18 0.003]>
    (<["SELL" := side_table 0.03 0.025 0.003 0.0001 18 0]> ∅).

(** A tenth of the free cash per trade, no leverage. *)
#[warnings="-inexact-float"]
Definition cautious_params : Params :=
  {| initial_capital := 100000;
     trade_allocation := 0.1;
     leverage := 1;
     target_profit_percentage := 1;
     atr_multiplier := 1;
     charges_config := sample_charges |}.

(** Half of the free cash per trade at leverage 5. *)
Definition leveraged_params : Params :=
  {| initial_capital := 100000;
     trade_allocation := 0.5;
     leverage := 5;
     target_profit_percentage := 1;
     atr_multiplier := 1;
     charges_config := sample_charges |}.

Definition bar (d h m : Z) (c a : float) (buy sell : bool) : Row :=
  {| timestamp := at_time d h m; close := c; ATR := a;
     Buy_Signal := buy; Sell_Signal := sell |}.

(** An entry at 100 that reaches its target at 101, then an entry at 101
    that is stopped out at 98. *)
Definition stopped_out_morning : list Row :=
  [ bar 1 9 20 100 2 true false;
    bar 1 9 25 101 2 false false;
    bar 1 9 30 101 2 true false;
    bar 1 9 35 98 2 false false ].

(** Bars with values a validation would reject: entries with a NaN and
    with a negative ATR, a bar with a negative close, and a bar with a NaN
    close after the square-off deadline. *)
Definition sound_entry : Row := bar 1 9 20 100 2 true false.
Definition nan_atr_entry : Row := bar 1 9 20 100 nan true false.
Definition negative_atr_entry : Row := bar 1 9 20 100 (-2) true false.
Definition halved_close : Row := bar 1 9 25 50 2 false false.
Definition negative_close : Row := bar 1 9 25 (-1) 2 false false.
Definition nan_close_late : Row := bar 1 15 5 nan 2 false false.

(** Entry bars whose close is NaN, zero and negative. *)
Definition nan_close_entry : Row := bar 1 9 20 nan 2 true false.
Definition zero_close_entry : Row := bar 1 9 20 0 2 true false.
Definition negative_close_entry : Row := bar 1 9 20 (-1) 2 true false.

End DoubleSpec.

(** ** Properties of the charges calculator *)

Lemma rate_lookup (cfg : gmap string (gmap string Q)) (side key : string)
    (d : gmap string Q) (v : Q) :
  cfg !! side = Some d -> d !! key = Some v -> rate cfg side key = Ok v.
Proof.
  intros Hs Hk. unfold rate, getitem. rewrite Hs. simpl. now rewrite Hk.
Qed.

(** With a complete table the calculator returns, and returns this record. *)
Lemma charges_with_rates (cfg : gmap string (gmap string Q)) (side : string)
    (r : Rates) (price : Q) (quantity : Z) :
  side_has_rates cfg side r ->
  let turnover := price * inject_Z quantity in
  let b := Qmin (turnover * (r_BROKERAGE r / 100)) 20 in
  let tc := turnover * (r_TRANSACTION r / 100) in
  let sc := turnover * (r_SEBI r / 100) in
  let g := (b + tc + sc) * (r_GST r / 100) in
  let sd := if String.eqb side "BUY"
            then turnover * (r_STAMP r / 100) else 0 in
  calculate_transaction_charges price quantity side cfg
  = Ok {| total := b + turnover * (r_STT r / 100) + tc + sc + g + sd;
          brokerage := b;
          stt := turnover * (r_STT r / 100);
          transaction_charge := tc;
          sebi_charge := sc;
          gst := g;
          stamp_duty := sd |}.
Proof.
  intros (d & Hd & Hb & Hs & Ht & He & Hg & Hp). simpl.
  unfold calculate_transaction_charges.
  rewrite (rate_lookup _ _ _ _ _ Hd Hb), (rate_lookup _ _ _ _ _ Hd Hs),
    (rate_lookup _ _ _ _ _ Hd Ht), (rate_lookup _ _ _ _ _ Hd He),
    (rate_lookup _ _ _ _ _ Hd Hg). simpl.
  destruct (String.eqb side "BUY"); simpl; [|reflexivity].
  now rewrite (rate_lookup _ _ _ _ _ Hd Hp).
Qed.

Lemma charges_return (cfg : gmap string (gmap string Q)) (side : string)
    (r : Rates) (price : Q) (quantity : Z) :
  side_has_rates cfg side r ->
  exists c : Charges,
    calculate_transaction_charges price quantity side cfg = Ok c.
Proof.
  intros Hr. eexists. apply (charges_with_rates _ _ _ price quantity Hr).
Qed.

(** C5. For a fill [price], [quantity] on [side] whose rate table is
    complete, the calculator returns a breakdown with
    turnover = price * quantity, brokerage = min(turnover * rate, 20),
    securities tax, transaction charge and regulatory charge each
    turnover * rate, tax on fees = (brokerage + transaction + regulatory)
    * rate, stamp duty = turnover * rate on BUY and 0 on SELL, and total
    the sum of the six components. Rates are stored in percent, so
    each rate enters as [rate / 100]. *)
Theorem charges_breakdown (cfg : gmap string (gmap string Q)) (side : string)
    (r : Rates) (price : Q) (quantity : Z) :
  0 < price -> (0 < quantity)%Z ->
  side_has_rates cfg side r ->
  exists c : Charges,
    calculate_transaction_charges price quantity side cfg = Ok c
    /\ let turnover := price * inject_Z quantity in
       brokerage c = Qmin (turnover * (r_BROKERAGE r / 100)) brokerage_cap
       /\ stt c = turnover * (r_STT r / 100)
       /\ transaction_charge c = turnover * (r_TRANSACTION r / 100)
       /\ sebi_charge c = turnover * (r_SEBI r / 100)
       /\ gst c = (brokerage c + transaction_charge c + sebi_charge c)
                  * (r_GST r / 100)
       /\ (side = "BUY" -> stamp_duty c = turnover * (r_STAMP r / 100))
       /\ (side = "SELL" -> stamp_duty c = 0)
       /\ total c = brokerage c + stt c + transaction_charge c
                    + sebi_charge c + gst c + stamp_duty c.
Proof.
  intros _ _ Hr. eexists. split.
  - apply (charges_with_rates _ _ _ price quantity Hr).
  - simpl. repeat split; intros ->; reflexivity.
Qed.

Lemma sample_buy_rates : side_has_rates sample_charges "BUY" buy_rates.
Proof. exists (side_table buy_rates). repeat split. Qed.

Lemma sample_sell_rates : side_has_rates sample_charges "SELL" sell_rates.
Proof. exists (side_table sell_rates). repeat split. Qed.

Lemma charges_breakdown_witness :
  0 < 100 /\ (0 < 10)%Z /\ side_has_rates sample_charges "BUY" buy_rates
  /\ exists c : Charges,
       calculate_transaction_charges 100 10 "BUY" sample_charges = Ok c
       /\ brokerage c == 0.3 /\ stamp_duty c == 0.03 /\ total c == 0.42058.
Proof.
  assert (Hp : 0 < 100) by reflexivity.
  assert (Hq : (0 < 10)%Z) by reflexivity.
  repeat split; try reflexivity; [exact sample_buy_rates|].
  destruct (charges_breakdown sample_charges "BUY" buy_rates 100 10 Hp Hq
              sample_buy_rates)
    as (c & Hc & Hb & Hs & Ht & He & Hg & Hbuy & _ & Htot).
  exists c. split; [exact Hc|].
  rewrite Htot, Hg, (Hbuy eq_refl), Hb, Hs, Ht, He.
  repeat split; vm_compute; reflexivity.
Defined.

Lemma rate_fraction_nonneg (r : Q) : 0 <= r -> 0 <= r / 100.
Proof.
  intros H. unfold Qdiv. apply Qmult_le_0_compat; [exact H | discriminate].
Qed.

Lemma scale_by_rate_mono (t1 t2 r : Q) :
  t1 <= t2 -> 0 <= r -> t1 * (r / 100) <= t2 * (r / 100).
Proof.
  intros Ht Hr. apply Qmult_le_compat_r; [exact Ht|].
  now apply rate_fraction_nonneg.
Qed.

Lemma capped_le_cap (x : Q) : Qmin x 20 <= 20.
Proof. apply Q.le_min_r. Qed.

(** C6. For fixed non-negative rates and a fixed side, the total charge is
    non-decreasing in the turnover price * quantity, and the brokerage
    component is at most its cap. *)
Theorem charges_monotone (cfg : gmap string (gmap string Q)) (side : string)
    (r : Rates) (price1 price2 : Q) (quantity1 quantity2 : Z) :
  side_has_rates cfg side r ->
  rates_nonneg r ->
  price1 * inject_Z quantity1 <= price2 * inject_Z quantity2 ->
  exists c1 c2 : Charges,
    calculate_transaction_charges price1 quantity1 side cfg = Ok c1
    /\ calculate_transaction_charges price2 quantity2 side cfg = Ok c2
    /\ total c1 <= total c2
    /\ brokerage c1 <= brokerage_cap
    /\ brokerage c2 <= brokerage_cap.
Proof.
  intros Hr (Hb & Hs & Ht & He & Hg & Hp) Hle.
  do 2 eexists. split; [|split].
  - apply (charges_with_rates _ _ _ price1 quantity1 Hr).
  - apply (charges_with_rates _ _ _ price2 quantity2 Hr).
  - cbn [total brokerage]. unfold brokerage_cap.
    split; [|split; apply capped_le_cap].
    set (t1 := price1 * inject_Z quantity1) in *.
    set (t2 := price2 * inject_Z quantity2) in *.
    pose proof (Q.min_le_compat_r _ _ 20
                  (scale_by_rate_mono t1 t2 _ Hle Hb)) as Hbro.
    pose proof (scale_by_rate_mono t1 t2 _ Hle Hs) as Hstt.
    pose proof (scale_by_rate_mono t1 t2 _ Hle Ht) as Htr.
    pose proof (scale_by_rate_mono t1 t2 _ Hle He) as Hse.
    assert (Hgst :
      (Qmin (t1 * (r_BROKERAGE r / 100)) 20 + t1 * (r_TRANSACTION r / 100)
       + t1 * (r_SEBI r / 100)) * (r_GST r / 100)
      <= (Qmin (t2 * (r_BROKERAGE r / 100)) 20 + t2 * (r_TRANSACTION r / 100)
          + t2 * (r_SEBI r / 100)) * (r_GST r / 100)).
    { apply Qmult_le_compat_r; [lra | now apply rate_fraction_nonneg]. }
    destruct (String.eqb side "BUY").
    + pose proof (scale_by_rate_mono t1 t2 _ Hle Hp) as Hst. lra.
    + lra.
Qed.

Lemma charges_monotone_witness :
  side_has_rates sample_charges "SELL" sell_rates
  /\ rates_nonneg sell_rates
  /\ 100 * inject_Z 10 <= 101 * inject_Z 2500
  /\ exists c1 c2 : Charges,
       calculate_transaction_charges 100 10 "SELL" sample_charges = Ok c1
       /\ calculate_transaction_charges 101 2500 "SELL" sample_charges = Ok c2
       /\ total c1 <= total c2
       /\ brokerage c1 <= brokerage_cap
       /\ brokerage c2 <= brokerage_cap.
Proof.
  assert (Hn : rates_nonneg sell_rates) by (repeat split; discriminate).
  assert (Hle : 100 * inject_Z 10 <= 101 * inject_Z 2500) by discriminate.
  split; [exact sample_sell_rates|]. split; [exact Hn|]. split; [exact Hle|].
  exact (charges_monotone sample_charges "SELL" sell_rates 100 101 10 2500
           sample_sell_rates Hn Hle).
Defined.

(** ** Stepping through the error monad *)

Lemma rbind_ok {A B : Type} (m : result A) (k : A -> result B) (b : B) :
  rbind m k = Ok b -> exists a : A, m = Ok a /\ k a = Ok b.
Proof. destruct m as [a|e]; simpl; [eauto | discriminate]. Qed.

(** Split a hypothesis [x <~ m ;; k = Ok b] into [m = Ok a] and
    [k a = Ok b]. *)
Ltac bind_ok H a E :=
  apply rbind_ok in H; destruct H as (a & E & H).

(** ** Running capital and realized profit/loss over doubles *)

Module DoubleBooks.

Import Double DoubleSpec.

Local Open Scope float_scope.

Lemma realized_exit (events : list Trade) (t : Trade) :
  String.eqb (t_Type t) "Buy" = false ->
  realized (events ++ [t]) = realized events ++ [t_Profit_Loss t].
Proof.
  intros Hty. unfold realized. rewrite List.filter_app, map_app.
  cbn [List.filter]. rewrite Hty. reflexivity.
Qed.

Lemma realized_buy (events : list Trade) (t : Trade) :
  String.eqb (t_Type t) "Buy" = true ->
  realized (events ++ [t]) = realized events.
Proof.
  intros Hty. unfold realized. rewrite List.filter_app, map_app.
  cbn [List.filter]. rewrite Hty. cbn [negb map]. now rewrite app_nil_r.
Qed.

Lemma accumulate_snoc (start : float) (amounts : list float) (x : float) :
  accumulate start (amounts ++ [x]) = accumulate start amounts + x.
Proof. unfold accumulate. now rewrite fold_left_app. Qed.

Lemma square_off_loop_books (p : Params) (row : Row)
    (snapshot : list Position) :
  forall st st' : State,
    square_off_loop p row snapshot st = Ok st' ->
    books_follow_log p st -> books_follow_log p st'.
Proof.
  induction snapshot as [|position snapshot IH]; intros st st' H Hinv.
  - injection H as <-. exact Hinv.
  - cbn [square_off_loop] in H.
    bind_ok H c Ec. bind_ok H gross Eg. bind_ok H paid Ep.
    bind_ok H remaining Er.
    apply (IH _ _ H). destruct Hinv as [Hc Ht].
    unfold books_follow_log. cbn [capital total_profit_loss trades].
    rewrite realized_exit by reflexivity.
    rewrite !accumulate_snoc, <- Hc, <- Ht. cbn [t_Profit_Loss]. auto.
Qed.

Lemma sell_loop_books (p : Params) (row : Row) (snapshot : list Position) :
  forall st st' : State,
    sell_loop p row snapshot st = Ok st' ->
    books_follow_log p st -> books_follow_log p st'.
Proof.
  induction snapshot as [|position snapshot IH]; intros st st' H Hinv.
  - injection H as <-. exact Hinv.
  - cbn [sell_loop] in H.
    destruct (exit_reason row position) as [reason|]; [|exact (IH _ _ H Hinv)].
    bind_ok H c Ec. bind_ok H gross Eg. bind_ok H paid Ep.
    bind_ok H remaining Er.
    apply (IH _ _ H). destruct Hinv as [Hc Ht].
    unfold books_follow_log. cbn [capital total_profit_loss trades].
    rewrite realized_exit by reflexivity.
    rewrite !accumulate_snoc, <- Hc, <- Ht. cbn [t_Profit_Loss]. auto.
Qed.

Lemma buy_signal_logic_books (p : Params) (row : Row) (st st' : State) :
  buy_signal_logic p row st = Ok st' ->
  books_follow_log p st -> books_follow_log p st'.
Proof.
  unfold buy_signal_logic. intros H Hinv.
  destruct (Buy_Signal row); [|injection H as <-; auto].
  destruct (_ <=? _); [|injection H as <-; exact Hinv].
  bind_ok H n En.
  destruct (0 <? n)%Z; [|injection H as <-; auto].
  bind_ok H c Ec. bind_ok H gross Eg. injection H as <-.
  unfold books_follow_log. cbn [capital total_profit_loss trades].
  rewrite realized_buy by reflexivity. exact Hinv.
Qed.

Lemma start_of_new_day_books (p : Params) (row : Row) (st : State) :
  books_follow_log p st -> books_follow_log p (start_of_new_day row st).
Proof. unfold start_of_new_day. destruct (is_new_day _ _); auto. Qed.

Lemma process_row_books (p : Params) (row : Row) (st st' : State) :
  process_row p st row = Ok st' ->
  books_follow_log p st -> books_follow_log p st'.
Proof.
  unfold process_row. intros H Hinv.
  bind_ok H st1 E1.
  assert (Hinv1 : books_follow_log p st1).
  { unfold scheduled_square_off in E1.
    destruct (_ && _) in E1.
    - exact (square_off_loop_books _ _ _ _ _ E1 Hinv).
    - injection E1 as <-. exact Hinv. }
  apply (start_of_new_day_books p row) in Hinv1.
  unfold gate_entry_exit in H.
  destruct (_ && _) in H.
  - injection H as <-. exact Hinv1.
  - bind_ok H st3 E3.
    apply (buy_signal_logic_books _ _ _ _ E3) in Hinv1.
    unfold sell_signal_logic in H.
    destruct (truthy _).
    + exact (sell_loop_books _ _ _ _ _ H Hinv1).
    + injection H as <-. exact Hinv1.
Qed.

Lemma square_off_loop_day (p : Params) (row : Row)
    (snapshot : list Position) :
  forall st st' : State,
    square_off_loop p row snapshot st = Ok st' ->
    current_day st' = current_day st.
Proof.
  induction snapshot as [|position snapshot IH]; intros st st' H.
  - now injection H as <-.
  - cbn [square_off_loop] in H.
    bind_ok H c Ec. bind_ok H gross Eg. bind_ok H paid Ep.
    bind_ok H remaining Er. exact (IH _ _ H).
Qed.

Lemma sell_loop_day (p : Params) (row : Row) (snapshot : list Position) :
  forall st st' : State,
    sell_loop p row snapshot st = Ok st' ->
    current_day st' = current_day st.
Proof.
  induction snapshot as [|position snapshot IH]; intros st st' H.
  - now injection H as <-.
  - cbn [sell_loop] in H.
    destruct (exit_reason row position); [|exact (IH _ _ H)].
    bind_ok H c Ec. bind_ok H gross Eg. bind_ok H paid Ep.
    bind_ok H remaining Er. exact (IH _ _ H).
Qed.

Lemma buy_signal_logic_day (p : Params) (row : Row) (st st' : State) :
  buy_signal_logic p row st = Ok st' -> current_day st' = current_day st.
Proof.
  unfold buy_signal_logic. intros H.
  destruct (Buy_Signal row); [|now injection H as <-].
  destruct (_ <=? _); [|now injection H as <-].
  bind_ok H n En.
  destruct (0 <? n)%Z; [|now injection H as <-].
  bind_ok H c Ec. bind_ok H gross Eg. now injection H as <-.
Qed.

(** After a bar, [current_day] is the bar's day. *)
Lemma process_row_day (p : Params) (row : Row) (st st' : State) :
  process_row p st row = Ok st' ->
  current_day st' = Some (ts_date (timestamp row)).
Proof.
  unfold process_row. intros H. bind_ok H st1 E1.
  assert (Hd : current_day (start_of_new_day row st1)
               = Some (ts_date (timestamp row))).
  { unfold start_of_new_day, is_new_day.
    destruct (current_day st1) as [d|] eqn:Ed; [|reflexivity].
    destruct (d =? _)%Z eqn:E; cbn [negb]; [|reflexivity].
    apply Z.eqb_eq in E. now rewrite Ed, E. }
  unfold gate_entry_exit in H.
  destruct (_ && _) in H; [now injection H as <-|].
  bind_ok H st3 E3.
  apply buy_signal_logic_day in E3. rewrite <- E3 in Hd.
  unfold sell_signal_logic in H.
  destruct (truthy _); [|now injection H as <-].
  now rewrite (sell_loop_day _ _ _ _ _ H).
Qed.

Lemma run_day (p : Params) (data : list Row) :
  forall st st' : State,
    run p st data = Ok st' ->
    current_day st' = None -> st' = st.
Proof.
  induction data as [|row data IH]; intros st st' H Hnone.
  - now injection H as <-.
  - cbn [run] in H. bind_ok H st1 E1.
    rewrite (IH _ _ H Hnone) in Hnone.
    rewrite (process_row_day _ _ _ _ E1) in Hnone. discriminate.
Qed.

Lemma run_books (p : Params) (data : list Row) :
  forall st st' : State,
    run p st data = Ok st' ->
    books_follow_log p st -> books_follow_log p st'.
Proof.
  induction data as [|row data IH]; intros st st' H Hinv.
  - injection H as <-. exact Hinv.
  - cbn [run] in H. bind_ok H st1 E1.
    exact (IH _ _ H (process_row_books _ _ _ _ E1 Hinv)).
Qed.

(** C3, as stated, fails over doubles. With a tenth of the free cash per
    trade and no leverage, an entry at 100 sold at its target at 101 realizes
    89.324341999999888, and an entry at 101 stopped out at 98 realizes
    -338.47284077999939. The running capital is
    (100000 + 89.32...) + (-338.47...) = 99750.851501220008, whereas the
    initial capital plus the cumulative profit/loss is
    100000 + (89.32... + (-338.47...)) = 99750.851501219993. The day's
    End of Day Capital is the former, the Final Capital the latter. *)
#[warnings="-inexact-float"]
Lemma capital_drifts_from_profit_loss :
  (exists st : State,
     run cautious_params (initial_state cautious_params) stopped_out_morning
     = Ok st
     /\ realized (trades st) = [89.324341999999888; -338.47284077999939]
     /\ capital st = 99750.851501220008
     /\ initial_capital cautious_params + total_profit_loss st
        = 99750.851501219993
     /\ (capital st
         =? initial_capital cautious_params + total_profit_loss st) = false)
  /\ (exists out : Output,
        simulate_trades stopped_out_morning cautious_params = Ok out
        /\ map d_End_of_Day_Capital (daily_summary_df out)
           = [99750.851501220008]
        /\ Final_Capital (final_summary out) = 99750.851501219993).
Proof.
  split.
  - eexists. split; [vm_compute; reflexivity|].
    repeat split; vm_compute; reflexivity.
  - eexists. split; [vm_compute; reflexivity|].
    split; vm_compute; reflexivity.
Qed.

(** C3, amended. After every bar of every run (the run over any prefix
    [take n data] of the bars), the running capital is the initial capital
    with the profit/loss of every exit so far added to it, one exit at a
    time in the order of the trade log, and the cumulative profit/loss is 0
    with the same amounts added in the same order. The final capital of the
    summary is the double sum of the initial capital and the total
    profit/loss, and the End of Day Capital of the last daily snapshot is
    the running capital. The two sums add the same amounts and round
    differently. *)
Theorem capital_and_profit_loss_add_the_same_amounts (p : Params)
    (data : list Row) :
  (forall (n : nat) (st : State),
     run p (initial_state p) (take n data) = Ok st ->
     capital st = accumulate (initial_capital p) (realized (trades st))
     /\ total_profit_loss st = accumulate 0 (realized (trades st)))
  /\ (forall out : Output,
        simulate_trades data p = Ok out ->
        Final_Capital (final_summary out)
        = Initial_Capital (final_summary out)
          + Total_Profit_Loss (final_summary out)
        /\ Total_Profit_Loss (final_summary out)
           = accumulate 0 (realized (trades_df out))
        /\ forall d : DaySummary,
             last (daily_summary_df out) = Some d ->
             d_End_of_Day_Capital d
             = accumulate (initial_capital p) (realized (trades_df out))).
Proof.
  assert (Hinit : books_follow_log p (initial_state p)).
  { split; reflexivity. }
  split.
  - intros n st H. exact (run_books _ _ _ _ H Hinit).
  - intros out H. unfold simulate_trades in H.
    bind_ok H st E. injection H as <-.
    destruct (run_books _ _ _ _ E Hinit) as [Hc Ht].
    cbn [final_summary Final_Capital Initial_Capital Total_Profit_Loss
         trades_df daily_summary_df].
    split; [reflexivity|]. split; [exact Ht|].
    intros d. destruct (current_day st) eqn:Ed.
    + rewrite last_snoc. intros [= <-]. exact Hc.
    + rewrite (run_day _ _ _ _ E Ed). discriminate.
Qed.

Lemma capital_and_profit_loss_add_the_same_amounts_witness :
  exists st : State,
    run cautious_params (initial_state cautious_params)
      (take 4 stopped_out_morning) = Ok st
    /\ capital st
       = accumulate (initial_capital cautious_params) (realized (trades st))
    /\ total_profit_loss st = accumulate 0 (realized (trades st)).
Proof.
  eexists. split; [vm_compute; reflexivity|].
  apply (proj1 (capital_and_profit_loss_add_the_same_amounts cautious_params
                  stopped_out_morning) 4%nat).
  vm_compute. reflexivity.
Defined.

End DoubleBooks.

(** ** The time windows *)

Lemma square_off_time_eq (t : Timestamp) :
  square_off_time t
  = {| ts_date := ts_date t;
       ts_nanos := (900 * nanos_per_minute + ts_nanos t mod 1000)%Z |}.
Proof.
  unfold square_off_time, market_close_time, sub_minutes, replace_time.
  cbn [ts_date ts_nanos].
  pose proof (Z.mod_pos_bound (ts_nanos t) 1000 eq_refl) as Hm.
  unfold nanos_per_day, nanos_per_minute in *.
  f_equal.
  - rewrite Z.div_small; lia.
  - rewrite Z.mod_small; lia.
Qed.

Lemma no_new_buys_time_eq (t : Timestamp) :
  no_new_buys_time t
  = {| ts_date := ts_date t;
       ts_nanos := (870 * nanos_per_minute + ts_nanos t mod 1000)%Z |}.
Proof.
  unfold no_new_buys_time, market_close_time, sub_minutes, replace_time.
  cbn [ts_date ts_nanos].
  pose proof (Z.mod_pos_bound (ts_nanos t) 1000 eq_refl) as Hm.
  unfold nanos_per_day, nanos_per_minute in *.
  f_equal.
  - rewrite Z.div_small; lia.
  - rewrite Z.mod_small; lia.
Qed.

(** The square-off deadline is 15:00 of the bar's day. *)
Lemma at_or_past_square_off (t : Timestamp) :
  ts_geb t (square_off_time t) = true
  <-> (900 * nanos_per_minute <= ts_nanos t)%Z.
Proof.
  rewrite square_off_time_eq. unfold ts_geb. cbn [ts_date ts_nanos].
  rewrite Z.ltb_irrefl, Z.eqb_refl. cbn [orb andb].
  rewrite Z.leb_le.
  pose proof (Z.mod_pos_bound (ts_nanos t) 1000 eq_refl) as Hm.
  pose proof (Z_div_mod_eq_full (ts_nanos t) 1000) as Hd.
  unfold nanos_per_minute. lia.
Qed.

(** The no-new-buy deadline is 14:30 of the bar's day. *)
Lemma at_or_past_no_new_buys (t : Timestamp) :
  ts_geb t (no_new_buys_time t) = true
  <-> (870 * nanos_per_minute <= ts_nanos t)%Z.
Proof.
  rewrite no_new_buys_time_eq. unfold ts_geb. cbn [ts_date ts_nanos].
  rewrite Z.ltb_irrefl, Z.eqb_refl. cbn [orb andb].
  rewrite Z.leb_le.
  pose proof (Z.mod_pos_bound (ts_nanos t) 1000 eq_refl) as Hm.
  pose proof (Z_div_mod_eq_full (ts_nanos t) 1000) as Hd.
  unfold nanos_per_minute. lia.
Qed.

Lemma square_off_implies_no_new_buys (t : Timestamp) :
  ts_geb t (square_off_time t) = true ->
  ts_geb t (no_new_buys_time t) = true.
Proof.
  rewrite at_or_past_square_off, at_or_past_no_new_buys.
  unfold nanos_per_minute. lia.
Qed.

(** ** The scheduled square-off empties the ledger *)

Lemma position_eqb_refl (x : Position) : position_eqb x x = true.
Proof.
  unfold position_eqb. now rewrite Z.eqb_refl, !Qeq_bool_refl.
Qed.

Lemma deque_remove_head (x : Position) (dq : list Position) :
  deque_remove x (x :: dq) = Ok dq.
Proof. cbn [deque_remove]. now rewrite position_eqb_refl. Qed.

Lemma sum_profit_loss_cons (t : Trade) (events : list Trade) :
  sum_profit_loss (t :: events) = t_Profit_Loss t + sum_profit_loss events.
Proof. reflexivity. Qed.

Lemma restored_cash_cons (p : Params) (row : Row) (position : Position)
    (positions : list Position) :
  restored_cash p row (position :: positions)
  = p_margin_used position + net_proceeds p row position
    + restored_cash p row positions.
Proof. reflexivity. Qed.

Lemma square_off_loop_total (p : Params) (row : Row) (r : Rates) :
  side_has_rates (charges_config p) "SELL" r ->
  forall st : State,
    exists (st' : State) (new : list Trade),
      square_off_loop p row (long_positions st) st = Ok st'
      /\ long_positions st' = []
      /\ trades st' = trades st ++ new
      /\ map event_view new = map (squared_off_view row) (long_positions st)
      /\ capital st' == capital st + sum_profit_loss new
      /\ current_day st' = current_day st
      /\ daily_summary st' = daily_summary st
      /\ start_of_day_capital st' = start_of_day_capital st
      /\ free_cash st'
         == free_cash st + restored_cash p row (long_positions st).
Proof.
  intros Hr st.
  remember (long_positions st) as snapshot eqn:Hs.
  revert st Hs.
  induction snapshot as [|position snapshot IH]; intros st Hs.
  - exists st, [].
    cbn [square_off_loop map sum_profit_loss restored_cash fold_right].
    rewrite app_nil_r, !Qplus_0_r. repeat split; auto.
  - cbn [square_off_loop]. rewrite restored_cash_cons. unfold net_proceeds.
    destruct (charges_return _ _ _ (close row) (p_shares position) Hr)
      as [c ->].
    cbn zeta. cbn [rbind]. rewrite <- Hs, deque_remove_head. cbn [rbind].
    match goal with
    | |- context [square_off_loop p row snapshot ?s] =>
        destruct (IH s eq_refl)
          as (st' & new & Hrun & Hl & Ht & Hv & Hc & Hd & Hds & Hsd & Hf)
    end.
    cbn [trades capital current_day daily_summary start_of_day_capital
         free_cash long_positions] in Ht, Hc, Hd, Hds, Hsd, Hf.
    eexists st', (_ :: new). split; [exact Hrun|].
    split; [exact Hl|].
    split; [|split; [|split; [|split; [|split; [|split]]]]]; auto.
    + rewrite Ht, <- app_assoc. reflexivity.
    + cbn [map]. rewrite Hv. reflexivity.
    + rewrite Hc, sum_profit_loss_cons. cbn [t_Profit_Loss]. ring.
    + rewrite Hf. ring.
Qed.

(** The scheduled square-off returns when the SELL rates are complete; it
    realizes the profit/loss of its events and leaves the day bookkeeping
    alone. *)
Lemma scheduled_square_off_total (p : Params) (row : Row) (r : Rates)
    (st : State) :
  side_has_rates (charges_config p) "SELL" r ->
  exists (st1 : State) (new : list Trade),
    scheduled_square_off p row st = Ok st1
    /\ trades st1 = trades st ++ new
    /\ capital st1 == capital st + sum_profit_loss new
    /\ current_day st1 = current_day st
    /\ daily_summary st1 = daily_summary st
    /\ start_of_day_capital st1 = start_of_day_capital st
    /\ (free_cash st1 == free_cash st
        \/ free_cash st1
           == free_cash st + restored_cash p row (long_positions st))
    /\ (long_positions st1 = long_positions st \/ long_positions st1 = []).
Proof.
  intros Hr. unfold scheduled_square_off.
  destruct (_ && _).
  - destruct (square_off_loop_total p row r Hr st)
      as (st1 & new & Hrun & Hl & Ht & _ & Hc & Hd & Hds & Hsd & Hf).
    exists st1, new. repeat split; auto.
  - exists st, []. cbn [sum_profit_loss fold_right].
    rewrite app_nil_r, Qplus_0_r.
    repeat split; auto. left. reflexivity.
Qed.

(** C9. After a bar at or past its day's square-off deadline (market close
    minus 30 minutes) the ledger is empty: the bar's new trade events are
    exactly one Square Off event per position that was open, in ledger
    order, at the bar's close price, with reason Square Off Before Market
    Close, whatever the bar's signals; no Buy event and no new position
    appear on such a bar. *)
Theorem square_off_empties_ledger (p : Params) (r : Rates) (st : State)
    (row : Row) :
  side_has_rates (charges_config p) "SELL" r ->
  ts_geb (timestamp row) (square_off_time (timestamp row)) = true ->
  exists (st' : State) (new : list Trade),
    process_row p st row = Ok st'
    /\ long_positions st' = []
    /\ trades st' = trades st ++ new
    /\ map event_view new = map (squared_off_view row) (long_positions st).
Proof.
  intros Hr Hsq.
  pose proof (square_off_implies_no_new_buys _ Hsq) as Hnb.
  assert (H1 : exists (st1 : State) (new : list Trade),
             scheduled_square_off p row st = Ok st1
             /\ long_positions st1 = []
             /\ trades st1 = trades st ++ new
             /\ map event_view new
                = map (squared_off_view row) (long_positions st)).
  { unfold scheduled_square_off. rewrite Hsq. cbn [andb].
    destruct (long_positions st) as [|x l] eqn:El.
    - exists st, []. cbn [truthy map]. rewrite app_nil_r. auto.
    - cbn [truthy]. rewrite <- El.
      destruct (square_off_loop_total p row r Hr st)
        as (st1 & new & Hrun & Hl & Ht & Hv & _).
      exists st1, new. auto. }
  destruct H1 as (st1 & new & Hrun & Hl & Ht & Hv).
  unfold process_row. rewrite Hrun. cbn [rbind].
  unfold gate_entry_exit. rewrite Hnb. cbn [andb].
  assert (Hl2 : long_positions (start_of_new_day row st1) = []).
  { unfold start_of_new_day. destruct (is_new_day _ _); exact Hl. }
  assert (Ht2 : trades (start_of_new_day row st1) = trades st ++ new).
  { unfold start_of_new_day. destruct (is_new_day _ _); exact Ht. }
  destruct (Buy_Signal row) eqn:Eb.
  - eexists _, new. split; [reflexivity|].
    cbn [record_missed long_positions trades]. auto.
  - unfold buy_signal_logic. rewrite Eb. cbn [rbind].
    unfold sell_signal_logic. rewrite Hl2. cbn [truthy].
    eexists _, new. split; [reflexivity|]. auto.
Qed.

Lemma square_off_empties_ledger_witness :
  side_has_rates (charges_config sample_params) "SELL" sell_rates
  /\ (let row := bar 1 15 0 100 2 true false in
      ts_geb (timestamp row) (square_off_time (timestamp row)) = true
      /\ exists (st' : State) (new : list Trade),
           process_row sample_params holding_one_lot row = Ok st'
           /\ long_positions st' = []
           /\ trades st' = trades holding_one_lot ++ new
           /\ map event_view new
              = map (squared_off_view row) (long_positions holding_one_lot)).
Proof.
  split; [exact sample_sell_rates|]. cbn zeta.
  assert (Hsq : ts_geb (timestamp (bar 1 15 0 100 2 true false))
                  (square_off_time (timestamp (bar 1 15 0 100 2 true false)))
                = true) by (vm_compute; reflexivity).
  split; [exact Hsq|].
  exact (square_off_empties_ledger sample_params sell_rates holding_one_lot
           (bar 1 15 0 100 2 true false) sample_sell_rates Hsq).
Defined.

(** ** The sell logic visits every open position *)

Lemma exit_reason_eqb (row : Row) (a b : Position) :
  position_eqb a b = true -> exit_reason row a = exit_reason row b.
Proof.
  unfold position_eqb. rewrite !andb_true_iff, !Qeq_bool_iff.
  intros [[[[[_ _] _] _] Ht] Hs].
  unfold exit_reason. now rewrite Ht, Hs.
Qed.

Lemma deque_remove_middle (x : Position) (kept rest : list Position) :
  Forall (fun k => position_eqb k x = false) kept ->
  deque_remove x (kept ++ x :: rest) = Ok (kept ++ rest).
Proof.
  induction 1 as [|k kept Hk _ IH]; cbn [app deque_remove].
  - now rewrite position_eqb_refl.
  - rewrite Hk, IH. reflexivity.
Qed.

Lemma kept_differ_from_exiting (row : Row) (x : Position)
    (kept : list Position) (reason : string) :
  exit_reason row x = Some reason ->
  Forall (fun k => exit_reason row k = None) kept ->
  Forall (fun k => position_eqb k x = false) kept.
Proof.
  intros Hx Hkept. eapply Forall_impl; [exact Hkept|].
  intros k Hk. cbn beta in *.
  destruct (position_eqb k x) eqn:E; [|reflexivity].
  apply (exit_reason_eqb row) in E. congruence.
Qed.

Lemma sold_view_cons (row : Row) (position : Position)
    (snapshot : list Position) :
  omap (sold_view row) (position :: snapshot)
  = match exit_reason row position with
    | Some reason =>
        ("Sell", reason, close row, p_shares position)
        :: omap (sold_view row) snapshot
    | None => omap (sold_view row) snapshot
    end.
Proof.
  unfold sold_view. simpl. destruct (exit_reason row position); reflexivity.
Qed.

Lemma exit_reason_cons (row : Row) (position : Position)
    (snapshot : list Position) :
  omap (exit_reason row) (position :: snapshot)
  = match exit_reason row position with
    | Some reason => reason :: omap (exit_reason row) snapshot
    | None => omap (exit_reason row) snapshot
    end.
Proof. simpl. destruct (exit_reason row position); reflexivity. Qed.

(** From a ledger [kept ++ snapshot], where no position of [kept] exits on
    this bar, the loop returns; it leaves [kept] and the positions of
    [snapshot] without a reason, and records one Sell event per position
    with a reason, in order, at the bar's close. *)
Lemma sell_loop_total (p : Params) (row : Row) (r : Rates) :
  side_has_rates (charges_config p) "SELL" r ->
  forall (snapshot kept : list Position) (st : State),
    long_positions st = kept ++ snapshot ->
    Forall (fun k => exit_reason row k = None) kept ->
    exists (st' : State) (new : list Trade),
      sell_loop p row snapshot st = Ok st'
      /\ long_positions st'
         = kept ++ filter (fun x => exit_reason row x = None) snapshot
      /\ trades st' = trades st ++ new
      /\ map event_view new = omap (sold_view row) snapshot
      /\ map t_Reason new = omap (exit_reason row) snapshot
      /\ missed_signals st' = missed_signals st
      /\ free_cash st'
         == free_cash st
            + restored_cash p row
                (filter (fun x => exit_reason row x <> None) snapshot).
Proof.
  intros Hr.
  induction snapshot as [|position snapshot IH]; intros kept st Hl Hk.
  - exists st, []. cbn [sell_loop]. rewrite Hl, !app_nil_r.
    repeat split; try reflexivity.
    rewrite filter_nil. cbn. ring.
  - cbn [sell_loop].
    pose proof (sold_view_cons row position snapshot) as Hview.
    pose proof (exit_reason_cons row position snapshot) as Hreason.
    destruct (exit_reason row position) as [reason|] eqn:Er.
    + rewrite (filter_cons_True (fun x => exit_reason row x <> None))
        by congruence.
      rewrite restored_cash_cons. unfold net_proceeds.
      destruct (charges_return _ _ _ (close row) (p_shares position) Hr)
        as [c ->].
      cbn zeta. cbn [rbind]. rewrite Hl.
      rewrite (deque_remove_middle _ _ _
                 (kept_differ_from_exiting _ _ _ _ Er Hk)).
      cbn [rbind].
      match goal with
      | |- context [sell_loop p row snapshot ?s] =>
          destruct (IH kept s eq_refl Hk)
            as (st' & new & Hrun & Hl' & Ht' & Hv' & Hr' & Hm' & Hf')
      end.
      cbn [trades missed_signals free_cash] in Ht', Hm', Hf'.
      eexists st', (_ :: new). split; [exact Hrun|].
      split; [|split; [|split; [|split; [|split]]]].
      * rewrite Hl'. rewrite filter_cons_False by congruence. reflexivity.
      * rewrite Ht', <- app_assoc. reflexivity.
      * rewrite Hview. cbn [map]. rewrite Hv'. reflexivity.
      * rewrite Hreason. cbn [map]. rewrite Hr'. reflexivity.
      * exact Hm'.
      * rewrite Hf'. ring.
    + rewrite (filter_cons_False (fun x => exit_reason row x <> None))
        by congruence.
      destruct (IH (kept ++ [position]) st)
        as (st' & new & Hrun & Hl' & Ht' & Hv' & Hr' & Hm' & Hf').
      * rewrite Hl, <- app_assoc. reflexivity.
      * apply Forall_app. split; [exact Hk|].
        constructor; [exact Er|constructor].
      * exists st', new. split; [exact Hrun|]. split.
        -- rewrite Hl', <- app_assoc.
           rewrite filter_cons_True by exact Er. reflexivity.
        -- rewrite Hview, Hreason. auto.
Qed.

Lemma sell_signal_logic_total (p : Params) (row : Row) (r : Rates)
    (st : State) :
  side_has_rates (charges_config p) "SELL" r ->
  exists (st' : State) (new : list Trade),
    sell_signal_logic p row st = Ok st'
    /\ long_positions st'
       = filter (fun x => exit_reason row x = None) (long_positions st)
    /\ trades st' = trades st ++ new
    /\ map event_view new = omap (sold_view row) (long_positions st)
    /\ map t_Reason new = omap (exit_reason row) (long_positions st)
    /\ missed_signals st' = missed_signals st
    /\ free_cash st'
       == free_cash st
          + restored_cash p row
              (filter (fun x => exit_reason row x <> None)
                 (long_positions st)).
Proof.
  intros Hr. unfold sell_signal_logic.
  destruct (long_positions st) as [|x l] eqn:El.
  - exists st, []. cbn [truthy]. rewrite El, app_nil_r.
    repeat split; try reflexivity.
    rewrite filter_nil. cbn. ring.
  - cbn [truthy]. rewrite <- El.
    apply (sell_loop_total p row r Hr (long_positions st) [] st);
      [reflexivity | constructor].
Qed.

Lemma exit_reason_first_match (row : Row) (position : Position) :
  exit_reason row position = first_match (exit_conditions row position).
Proof. reflexivity. Qed.

(** C2. On a bar whose exit evaluation runs, the reasons recorded are, for
    every open position in ledger order, the first match of the priority
    order: sell signal, then close >= target price, then close <= trailing
    stop, then timestamp >= square-off deadline. In particular a position
    whose target is reached on a bar without sell signal is recorded with
    Target Profit Reached, not Sell Signal Triggered. *)
Theorem exit_reason_is_first_match (p : Params) (r : Rates) (row : Row)
    (st : State) :
  side_has_rates (charges_config p) "SELL" r ->
  exists st' : State,
    sell_signal_logic p row st = Ok st'
    /\ map t_Reason (trades st')
       = map t_Reason (trades st)
         ++ omap (fun position => first_match (exit_conditions row position))
              (long_positions st)
    /\ forall position : Position,
         Sell_Signal row = false ->
         p_target_price position <= close row ->
         first_match (exit_conditions row position)
         = Some "Target Profit Reached".
Proof.
  intros Hr.
  destruct (sell_signal_logic_total p row r st Hr)
    as (st' & new & Hrun & _ & Ht & _ & Hreason & _ & _).
  exists st'. split; [exact Hrun|].
  split; [rewrite Ht, map_app, Hreason; reflexivity|].
  intros position Hs Hp. cbn [exit_conditions first_match]. rewrite Hs.
  apply Qle_bool_iff in Hp. now rewrite Hp.
Qed.

Lemma exit_reason_is_first_match_witness :
  side_has_rates (charges_config sample_params) "SELL" sell_rates
  /\ exists st' : State,
       sell_signal_logic sample_params (bar 1 9 25 102 2 false false)
         holding_one_lot = Ok st'
       /\ map t_Reason (trades st') = ["Target Profit Reached"].
Proof.
  split; [exact sample_sell_rates|].
  destruct (exit_reason_is_first_match sample_params sell_rates
              (bar 1 9 25 102 2 false false) holding_one_lot
              sample_sell_rates) as (st' & Hrun & Ht & _).
  exists st'. split; [exact Hrun|]. rewrite Ht. vm_compute. reflexivity.
Defined.

(** ** The gate on late buys and the exit evaluation *)

(** Between the no-new-buy deadline and the square-off deadline, a bar with
    a buy signal ends at the [continue] of line 129: the missed signal is
    recorded and the sell logic of lines 173-214 is not reached. *)
Lemma gated_bar_ends_early (p : Params) (st : State) (row : Row) :
  ts_geb (timestamp row) (no_new_buys_time (timestamp row)) = true ->
  ts_geb (timestamp row) (square_off_time (timestamp row)) = false ->
  Buy_Signal row = true ->
  process_row p st row
  = Ok (record_missed row "Buy restricted near market close"
          (start_of_new_day row st)).
Proof.
  intros Hnb Hsq Hb. unfold process_row, scheduled_square_off.
  rewrite Hsq. cbn [andb rbind]. unfold gate_entry_exit.
  rewrite Hnb, Hb. reflexivity.
Qed.

(** C1 at its failing input. After the entry at 14:20 one lot is open. The
    bar at 14:35 carries a sell signal, so the lot has an exit reason; it
    also carries a buy signal: the bar records the missed signal and leaves
    the ledger and the trade log unchanged, without any Sell event. The same
    bar without the buy signal sells the lot. *)
Theorem late_buy_signal_skips_exit :
  exists st st' st'' : State,
    run sample_params (initial_state sample_params) [late_entry] = Ok st
    /\ map (position_eqb late_lot) (long_positions st) = [true]
    /\ omap (exit_reason late_both_signals) (long_positions st)
       = ["Sell Signal Triggered"]
    /\ process_row sample_params st late_both_signals = Ok st'
    /\ long_positions st' = long_positions st
    /\ trades st' = trades st
    /\ map m_Reason (missed_signals st')
       = ["Buy restricted near market close"]
    /\ process_row sample_params st late_sell_signal = Ok st''
    /\ long_positions st'' = []
    /\ map event_view (trades st'')
       = map event_view (trades st)
         ++ [("Sell", "Sell Signal Triggered", 100, 2500%Z)].
Proof.
  do 3 eexists.
  split; [vm_compute; reflexivity|].
  split; [vm_compute; reflexivity|].
  split; [vm_compute; reflexivity|].
  split; [vm_compute; reflexivity|].
  split; [vm_compute; reflexivity|].
  split; [vm_compute; reflexivity|].
  split; [vm_compute; reflexivity|].
  split; [vm_compute; reflexivity|].
  split; vm_compute; reflexivity.
Qed.

(** ** The order of the scheduled square-off and the day rollover *)

(** C10, as stated, fails. A lot is held from day 1 into the first bar of
    day 2, at 15:05. The code squares the lot off first: the snapshot of
    day 1 ends with the capital after the square-off, and free cash is reset
    to that capital. With the rollover first, the snapshot of day 1 would
    end with the capital at the transition and free cash would differ. *)
Lemma rollover_first_differs :
  exists st st_code st_spec : State,
    run sample_params (initial_state sample_params) [overnight_entry] = Ok st
    /\ is_new_day st (ts_date (timestamp next_day_late)) = true
    /\ process_row sample_params st next_day_late = Ok st_code
    /\ process_row_rollover_first sample_params st next_day_late = Ok st_spec
    /\ map (fun d => Qeq_bool (d_End_of_Day_Capital d) (capital st))
         (daily_summary st_spec) = [true]
    /\ map (fun d => Qeq_bool (d_End_of_Day_Capital d) (capital st))
         (daily_summary st_code) = [false]
    /\ Qeq_bool (free_cash st_code) (free_cash st_spec) = false.
Proof.
  do 3 eexists.
  split; [vm_compute; reflexivity|].
  split; [vm_compute; reflexivity|].
  split; [vm_compute; reflexivity|].
  split; [vm_compute; reflexivity|].
  split; [vm_compute; reflexivity|].
  split; vm_compute; reflexivity.
Qed.

(** C10, amended. On a bar that begins a new day the scheduled square-off
    runs first and the rollover after it: the capital [capital st1] used by
    the rollover is the capital before the bar plus the profit/loss realized
    by the bar's square-off events; the previous day's snapshot ends with
    it, the new day starts with it, and free cash is reset to it, before
    the buy gate and the rest of the bar. *)
Theorem rollover_follows_square_off (p : Params) (r : Rates) (st : State)
    (row : Row) :
  side_has_rates (charges_config p) "SELL" r ->
  is_new_day st (ts_date (timestamp row)) = true ->
  exists (st1 : State) (new : list Trade),
    scheduled_square_off p row st = Ok st1
    /\ trades st1 = trades st ++ new
    /\ capital st1 == capital st + sum_profit_loss new
    /\ process_row p st row = gate_entry_exit p row (start_of_new_day row st1)
    /\ free_cash (start_of_new_day row st1) = capital st1
    /\ start_of_day_capital (start_of_new_day row st1) = capital st1
    /\ current_day (start_of_new_day row st1)
       = Some (ts_date (timestamp row))
    /\ daily_summary (start_of_new_day row st1)
       = daily_summary st ++
           match current_day st with
           | Some day =>
               [ {| d_Date := day;
                    d_Start_of_Day_Capital := start_of_day_capital st;
                    d_End_of_Day_Capital := capital st1 |} ]
           | None => []
           end.
Proof.
  intros Hr Hnew.
  destruct (scheduled_square_off_total p row r st Hr)
    as (st1 & new & Hrun & Ht & Hc & Hd & Hds & Hsd & _).
  exists st1, new.
  split; [exact Hrun|]. split; [exact Ht|]. split; [exact Hc|].
  split; [unfold process_row; now rewrite Hrun|].
  assert (Hnew1 : is_new_day st1 (ts_date (timestamp row)) = true).
  { unfold is_new_day in *. now rewrite Hd. }
  unfold start_of_new_day. rewrite Hnew1.
  cbn [free_cash start_of_day_capital current_day daily_summary].
  repeat split. rewrite Hd, Hds, Hsd.
  destruct (current_day st); [reflexivity | now rewrite app_nil_r].
Qed.

Lemma rollover_follows_square_off_witness :
  side_has_rates (charges_config sample_params) "SELL" sell_rates
  /\ is_new_day holding_one_lot (ts_date (timestamp next_day_late)) = true
  /\ exists st1 : State,
       scheduled_square_off sample_params next_day_late holding_one_lot
       = Ok st1
       /\ free_cash (start_of_new_day next_day_late st1) = capital st1
       /\ map d_End_of_Day_Capital
            (daily_summary (start_of_new_day next_day_late st1))
          = [capital st1].
Proof.
  assert (Hnew : is_new_day holding_one_lot
                   (ts_date (timestamp next_day_late)) = true)
    by reflexivity.
  split; [exact sample_sell_rates|]. split; [exact Hnew|].
  destruct (rollover_follows_square_off sample_params sell_rates
              holding_one_lot next_day_late sample_sell_rates Hnew)
    as (st1 & new & Hrun & _ & _ & _ & Hf & _ & _ & Hds).
  exists st1. split; [exact Hrun|]. split; [exact Hf|].
  rewrite Hds. reflexivity.
Defined.

(** ** Entries *)

Lemma floordiv_positive (a b : Q) :
  0 < b -> b <= a ->
  exists n : Z, floordiv a b = Ok n /\ (0 < n)%Z /\ n = Qfloor (a / b).
Proof.
  intros Hb Hle. unfold floordiv.
  destruct (Qeq_bool b 0) eqn:E; [apply Qeq_bool_eq in E; lra|].
  eexists. split; [reflexivity|]. split; [|reflexivity].
  assert (H1 : 1 <= a / b) by (apply Qle_shift_div_l; lra).
  apply Qfloor_resp_le in H1. change (Qfloor 1) with 1%Z in H1. lia.
Qed.

(** With complete BUY rates, a buy signal on a bar with positive close and
    enough buying power opens a position; the ATR is not inspected. *)
Lemma entry_made (p : Params) (r : Rates) (st : State) (row : Row) :
  side_has_rates (charges_config p) "BUY" r ->
  Buy_Signal row = true ->
  0 < close row ->
  close row <= free_cash st * trade_allocation p * leverage p ->
  exists (st' : State) (position : Position),
    buy_signal_logic p row st = Ok st'
    /\ long_positions st' = long_positions st ++ [position]
    /\ (0 < p_shares position)%Z
    /\ p_margin_used position = free_cash st * trade_allocation p
    /\ p_target_price position
       = close row * (1 + target_profit_percentage p / 100)
    /\ p_trailing_stop_loss position
       = close row - ATR row * atr_multiplier p
    /\ free_cash st' = free_cash st - free_cash st * trade_allocation p
    /\ missed_signals st' = missed_signals st.
Proof.
  intros Hr Hb Hpos Hle. unfold buy_signal_logic. rewrite Hb.
  apply Qle_bool_iff in Hle as Hle'. rewrite Hle'.
  destruct (floordiv_positive _ _ Hpos Hle) as (n & -> & Hn & _).
  cbn [rbind]. apply Z.ltb_lt in Hn as Hn'. rewrite Hn'.
  destruct (charges_return _ _ _ (close row) n Hr) as [c ->].
  cbn [rbind]. do 2 eexists. split; [reflexivity|].
  cbn [long_positions free_cash missed_signals p_shares p_margin_used
       p_target_price p_trailing_stop_loss].
  repeat split; auto.
Qed.

(** ** Bars with non-finite or non-positive close or ATR, over doubles *)

Module DoubleBars.

Import Double DoubleSpec.

Local Open Scope float_scope.

(** *** Comparisons of doubles *)

Lemma SFcompare_refl (x : spec_float) :
  x <> S754_nan -> SFcompare x x = Some Eq.
Proof.
  destruct x as [s|s| |s m e]; cbn; intros H; try congruence.
  - now destruct s.
  - destruct s; rewrite Z.compare_refl, Pos.compare_cont_refl; reflexivity.
Qed.

Lemma is_nan_spec (x : float) : is_nan x = true -> Prim2SF x = S754_nan.
Proof.
  unfold is_nan. rewrite FloatAxioms.eqb_spec. unfold SFeqb. intros H.
  destruct (Prim2SF x) eqn:E; try reflexivity;
    rewrite SFcompare_refl in H by discriminate; discriminate.
Qed.

(** Every comparison with NaN is false. *)
Lemma nan_compares_false (c x : float) :
  is_nan c = true -> (c <=? x) = false /\ (x <=? c) = false.
Proof.
  intros H. apply is_nan_spec in H. rewrite !FloatAxioms.leb_spec, H.
  unfold SFleb. cbn. now destruct (Prim2SF x).
Qed.

(** [c - a * m] is NaN when [a] is. *)
Lemma nan_propagates (c a m : float) :
  is_nan a = true -> is_nan (c - a * m) = true.
Proof.
  intros H. apply is_nan_spec in H.
  assert (E : Prim2SF (c - a * m) = S754_nan).
  { rewrite FloatAxioms.sub_spec, FloatAxioms.mul_spec, H.
    unfold SF64sub, SF64mul. cbn. now destruct (Prim2SF c). }
  unfold is_nan. rewrite FloatAxioms.eqb_spec, E. reflexivity.
Qed.

(** Two doubles that compare equal compare alike with every double. *)
Lemma eqb_leb (a b c : float) :
  (a =? b) = true ->
  (a <=? c) = (b <=? c) /\ (c <=? a) = (c <=? b).
Proof.
  rewrite FloatAxioms.eqb_spec, !FloatAxioms.leb_spec. unfold SFeqb, SFleb.
  destruct (Prim2SF a) as [sa|sa| |sa ma ea],
           (Prim2SF b) as [sb|sb| |sb mb eb]; cbn; try discriminate;
    try (destruct sa, sb; discriminate);
    try (destruct sa; discriminate); try (destruct sb; discriminate).
  - intros _. now destruct (Prim2SF c).
  - destruct sa, sb; try discriminate; intros _; now destruct (Prim2SF c).
  - destruct sa, sb; try discriminate;
      destruct (ea ?= eb)%Z eqn:Ee; try discriminate;
      destruct (Pos.compare_cont Eq ma mb) eqn:Em; try discriminate;
      apply Z.compare_eq in Ee; apply (Pos.compare_eq ma mb) in Em;
      subst; auto.
Qed.

(** *** The ledger *)

Lemma position_is_eq (a b : Position) : position_is a b = true -> a = b.
Proof.
  unfold position_is. rewrite !andb_true_iff, Z.eqb_eq.
  rewrite !FloatAxioms.Leibniz.eqb_spec.
  destruct a, b. cbn. intros [[[[[-> ->] ->] ->] ->] ->]. reflexivity.
Qed.

Lemma position_is_refl (x : Position) : position_is x x = true.
Proof.
  unfold position_is. rewrite Z.eqb_refl. cbn [andb].
  rewrite !andb_true_iff, !FloatAxioms.Leibniz.eqb_spec. auto.
Qed.

(** An entry that [remove] takes for [b] exits on a bar exactly when [b]
    does, and for the same reason. *)
Lemma exit_reason_match (row : Row) (a b : Position) :
  position_is a b || position_eqb a b = true ->
  exit_reason row a = exit_reason row b.
Proof.
  rewrite orb_true_iff. intros [H|H].
  - now rewrite (position_is_eq _ _ H).
  - unfold position_eqb in H. rewrite !andb_true_iff in H.
    destruct H as [[[[[_ _] _] _] Ht] Hs].
    unfold exit_reason.
    rewrite (proj1 (eqb_leb _ _ (close row) Ht)).
    rewrite (proj2 (eqb_leb _ _ (close row) Hs)). reflexivity.
Qed.

(** In the square-off loop the iterated position is the head of the deque:
    [remove] deletes it. *)
Lemma remove_at_head (x : Position) (dq : list Position) :
  deque_remove x (x :: dq) = Ok dq.
Proof. cbn [deque_remove]. now rewrite position_is_refl. Qed.

(** In the sell loop the entries before the iterated position have no exit
    reason on the bar, the iterated position has one: [remove] deletes
    it. *)
Lemma remove_after_kept (row : Row) (x : Position) (reason : string)
    (kept rest : list Position) :
  exit_reason row x = Some reason ->
  Forall (fun k => exit_reason row k = None) kept ->
  deque_remove x (kept ++ x :: rest) = Ok (kept ++ rest).
Proof.
  intros Hx. induction 1 as [|k kept Hk _ IH]; cbn [app deque_remove].
  - now rewrite position_is_refl.
  - destruct (position_is k x || position_eqb k x) eqn:E.
    + apply (exit_reason_match row) in E. congruence.
    + rewrite IH. reflexivity.
Qed.

(** *** Charges *)

Lemma rate_found (cfg : gmap string (gmap string float)) (side key : string) :
  has_rates cfg side -> In key (required_rates side) ->
  exists v : float, rate cfg side key = Ok v.
Proof.
  intros (d & Hd & Hkeys) Hin. unfold rate, getitem. rewrite Hd.
  cbn [rbind]. rewrite Forall_forall in Hkeys.
  destruct (Hkeys key) as [v ->]; [now apply list_elem_of_In|]. eauto.
Qed.

Lemma charges_computed (cfg : gmap string (gmap string float)) (side : string)
    (price : float) (quantity : Z) :
  has_rates cfg side -> convertible quantity ->
  exists c : Charges,
    calculate_transaction_charges price quantity side cfg = Ok c.
Proof.
  intros Hr [q Hq]. unfold calculate_transaction_charges, times_int.
  rewrite Hq. cbn [rbind].
  assert (Hfive : forall key : string,
            In key ["BROKERAGE"; "STT"; "TRANSACTION"; "SEBI"; "GST"] ->
            exists v : float, rate cfg side key = Ok v).
  { intros key Hin. apply rate_found; [exact Hr|].
    unfold required_rates. apply in_or_app. now left. }
  destruct (Hfive "BROKERAGE") as [v1 ->]; [cbn; tauto|].
  destruct (Hfive "STT") as [v2 ->]; [cbn; tauto|].
  destruct (Hfive "TRANSACTION") as [v3 ->]; [cbn; tauto|].
  destruct (Hfive "SEBI") as [v4 ->]; [cbn; tauto|].
  destruct (Hfive "GST") as [v5 ->]; [cbn; tauto|].
  cbn [rbind].
  destruct (String.eqb side "BUY") eqn:Eb; [|cbn [rbind]; eauto].
  destruct (rate_found cfg side "STAMP" Hr) as [v6 ->].
  { unfold required_rates. rewrite Eb. apply in_or_app. right. now left. }
  cbn [rbind]. eauto.
Qed.

(** *** The sell logic visits every open position *)

Lemma sold_view_step (row : Row) (position : Position)
    (snapshot : list Position) :
  omap (sold_view row) (position :: snapshot)
  = match exit_reason row position with
    | Some reason =>
        ("Sell"%string, reason, close row, p_shares position)
        :: omap (sold_view row) snapshot
    | None => omap (sold_view row) snapshot
    end.
Proof.
  unfold sold_view. simpl. destruct (exit_reason row position); reflexivity.
Qed.

Lemma sell_loop_visits_all (p : Params) (row : Row) :
  has_rates (charges_config p) "SELL" ->
  forall (snapshot kept : list Position) (st : State),
    Forall (fun position => convertible (p_shares position)) snapshot ->
    long_positions st = kept ++ snapshot ->
    Forall (fun k => exit_reason row k = None) kept ->
    exists (st' : State) (new : list Trade),
      sell_loop p row snapshot st = Ok st'
      /\ long_positions st'
         = kept ++ filter (fun x => exit_reason row x = None) snapshot
      /\ trades st' = trades st ++ new
      /\ map event_view new = omap (sold_view row) snapshot
      /\ missed_signals st' = missed_signals st.
Proof.
  intros Hr.
  induction snapshot as [|position snapshot IH]; intros kept st Hconv Hl Hk.
  - exists st, []. cbn [sell_loop]. rewrite Hl, !app_nil_r.
    repeat split; reflexivity.
  - cbn [sell_loop].
    apply Forall_cons in Hconv as [Hq Hconv].
    pose proof (sold_view_step row position snapshot) as Hview.
    destruct (exit_reason row position) as [reason|] eqn:Er.
    + destruct (charges_computed _ _ (close row) _ Hr Hq) as [c ->].
      destruct Hq as [q Hq]. unfold int_times. rewrite Hq.
      cbn zeta. cbn [rbind]. rewrite Hl.
      rewrite (remove_after_kept row _ _ _ _ Er Hk). cbn [rbind].
      match goal with
      | |- context [sell_loop p row snapshot ?s] =>
          destruct (IH kept s Hconv eq_refl Hk)
            as (st' & new & Hrun & Hl' & Ht' & Hv' & Hm')
      end.
      cbn [trades missed_signals] in Ht', Hm'.
      eexists st', (_ :: new). split; [exact Hrun|].
      split; [|split; [|split]].
      * rewrite Hl'. rewrite filter_cons_False by congruence. reflexivity.
      * rewrite Ht', <- app_assoc. reflexivity.
      * rewrite Hview. cbn [map]. rewrite Hv'. reflexivity.
      * exact Hm'.
    + destruct (IH (kept ++ [position]) st Hconv)
        as (st' & new & Hrun & Hl' & Ht' & Hv' & Hm').
      * rewrite Hl, <- app_assoc. reflexivity.
      * apply Forall_app. split; [exact Hk|].
        constructor; [exact Er|constructor].
      * exists st', new. split; [exact Hrun|]. split.
        -- rewrite Hl', <- app_assoc.
           rewrite filter_cons_True by exact Er. reflexivity.
        -- rewrite Hview. auto.
Qed.

Lemma sell_logic_visits_all (p : Params) (row : Row) (st : State) :
  has_rates (charges_config p) "SELL" ->
  Forall (fun position => convertible (p_shares position))
    (long_positions st) ->
  exists (st' : State) (new : list Trade),
    sell_signal_logic p row st = Ok st'
    /\ long_positions st'
       = filter (fun x => exit_reason row x = None) (long_positions st)
    /\ trades st' = trades st ++ new
    /\ map event_view new = omap (sold_view row) (long_positions st)
    /\ missed_signals st' = missed_signals st.
Proof.
  intros Hr Hconv. unfold sell_signal_logic.
  destruct (long_positions st) as [|x l] eqn:El.
  - exists st, []. cbn [truthy]. rewrite El, app_nil_r.
    repeat split; reflexivity.
  - cbn [truthy]. rewrite <- El in *.
    apply (sell_loop_visits_all p row Hr (long_positions st) [] st);
      [exact Hconv | reflexivity | constructor].
Qed.

(** *** A raising bar ends the run *)

Lemma run_raises (p : Params) (row : Row) (e : exn)
    (pre post : list Row) :
  forall st0 st : State,
    run p st0 pre = Ok st ->
    process_row p st row = Raise e ->
    run p st0 (pre ++ row :: post) = Raise e.
Proof.
  induction pre as [|r pre IH]; intros st0 st Hpre Hrow.
  - injection Hpre as ->. cbn [app run]. now rewrite Hrow.
  - cbn [app run] in *. destruct (process_row p st0 r); [|discriminate].
    cbn [rbind] in *. exact (IH _ _ Hpre Hrow).
Qed.

(** Before the no-new-buy deadline nothing is squared off. *)
Lemma early_bar (p : Params) (st : State) (row : Row) :
  ts_geb (timestamp row) (no_new_buys_time (timestamp row)) = false ->
  process_row p st row
  = (st' <~ buy_signal_logic p row (start_of_new_day row st);;
     sell_signal_logic p row st').
Proof.
  intros Hearly. unfold process_row, scheduled_square_off.
  destruct (ts_geb (timestamp row) (square_off_time (timestamp row))) eqn:E.
  - apply square_off_implies_no_new_buys in E. congruence.
  - cbn [andb rbind]. unfold gate_entry_exit. now rewrite Hearly.
Qed.

(** *** The buy logic, case by case *)

Lemma entry_without_funds (p : Params) (row : Row) (st : State) :
  Buy_Signal row = true ->
  (close row <=? buying_power p st) = false ->
  buy_signal_logic p row st
  = Ok (record_missed row "Insufficient Funds" st).
Proof.
  intros Hb Hle. unfold buy_signal_logic. rewrite Hb.
  unfold buying_power in Hle. now rewrite Hle.
Qed.

Lemma entry_at_zero_close (p : Params) (row : Row) (st : State) :
  Buy_Signal row = true ->
  (close row <=? buying_power p st) = true ->
  (close row =? 0) = true ->
  buy_signal_logic p row st = Raise ZeroDivisionError.
Proof.
  intros Hb Hle Hz. unfold buy_signal_logic. rewrite Hb.
  unfold buying_power in Hle. rewrite Hle.
  unfold floordiv, float_floor_div. now rewrite Hz.
Qed.

Lemma entry_dropped (p : Params) (row : Row) (st : State) (n : Z) :
  Buy_Signal row = true ->
  (close row <=? buying_power p st) = true ->
  floordiv (buying_power p st) (close row) = Ok n ->
  (n <= 0)%Z ->
  buy_signal_logic p row st = Ok st.
Proof.
  intros Hb Hle Hn Hneg. unfold buy_signal_logic. rewrite Hb.
  unfold buying_power in Hle, Hn. rewrite Hle, Hn. cbn [rbind].
  apply Z.ltb_ge in Hneg. now rewrite Hneg.
Qed.

Lemma position_opened (p : Params) (row : Row) (st : State) (n : Z) :
  Buy_Signal row = true ->
  (close row <=? buying_power p st) = true ->
  floordiv (buying_power p st) (close row) = Ok n ->
  (0 < n)%Z ->
  has_rates (charges_config p) "BUY" ->
  convertible n ->
  exists (c : Charges) (st' : State) (t : Trade),
    calculate_transaction_charges (close row) n "BUY" (charges_config p)
    = Ok c
    /\ buy_signal_logic p row st = Ok st'
    /\ long_positions st'
       = long_positions st ++ [opened_position p row st n c]
    /\ trades st' = trades st ++ [t]
    /\ event_view t = ("Buy"%string, "Buy Signal"%string, close row, n)
    /\ t_Charges t = total c
    /\ missed_signals st' = missed_signals st.
Proof.
  intros Hb Hle Hn Hpos Hr Hq. unfold buy_signal_logic. rewrite Hb.
  unfold buying_power in Hle, Hn. rewrite Hle, Hn. cbn [rbind].
  apply Z.ltb_lt in Hpos. rewrite Hpos.
  destruct (charges_computed _ _ (close row) n Hr Hq) as [c Hc].
  rewrite Hc. destruct Hq as [q Hq]. unfold int_times. rewrite Hq.
  cbn [rbind]. exists c. do 2 eexists.
  split; [reflexivity|]. split; [reflexivity|].
  cbn [long_positions trades missed_signals]. repeat split; reflexivity.
Qed.

(** C8, as stated, fails. No bar below is rejected or logged as invalid.
    An entry bar with a NaN ATR opens a lot whose trailing stop is NaN, and
    the fall of the close to 50 on the next bar does not sell it. An entry
    bar with ATR = -2 opens a lot with the stop at 102, above its price,
    and sells it on the same bar. A bar with close = -1 sells the open lot
    at -1, with a negative brokerage computed from the negative turnover.
    A bar with a NaN close at 15:05 squares the open lot off at NaN: the
    profit/loss, the charges and the final capital are NaN. *)
Lemma bad_bar_values_are_used :
  (exists out : Output,
     simulate_trades [nan_atr_entry; halved_close] leveraged_params = Ok out
     /\ map event_view (trades_df out)
        = [ ("Buy"%string, "Buy Signal"%string, 100, 2500%Z) ]
     /\ missed_signals_df out = []
     /\ Current_Stock_Holding (final_summary out) = 2500%Z)
  /\ (exists st : State,
        process_row leveraged_params (initial_state leveraged_params)
          nan_atr_entry = Ok st
        /\ map p_trailing_stop_loss (long_positions st) = [nan])
  /\ (exists out : Output,
        simulate_trades [negative_atr_entry] leveraged_params = Ok out
        /\ map event_view (trades_df out)
           = [ ("Buy"%string, "Buy Signal"%string, 100, 2500%Z);
               ("Sell"%string, "Trailing Stop-Loss Triggered"%string, 100,
                2500%Z) ]
        /\ missed_signals_df out = [])
  /\ (exists out : Output,
        simulate_trades [sound_entry; negative_close] leveraged_params
        = Ok out
        /\ map event_view (trades_df out)
           = [ ("Buy"%string, "Buy Signal"%string, 100, 2500%Z);
               ("Sell"%string, "Trailing Stop-Loss Triggered"%string, -1,
                2500%Z) ]
        /\ map (fun t => t_Brokerage t <? 0) (trades_df out) = [false; true]
        /\ missed_signals_df out = [])
  /\ (exists out : Output,
        simulate_trades [sound_entry; nan_close_late] leveraged_params
        = Ok out
        /\ map event_view (trades_df out)
           = [ ("Buy"%string, "Buy Signal"%string, 100, 2500%Z);
               ("Square Off"%string,
                "Square Off Before Market Close"%string, nan, 2500%Z) ]
        /\ map t_Charges (skipn 1 (trades_df out)) = [nan]
        /\ Final_Capital (final_summary out) = nan
        /\ missed_signals_df out = []).
Proof.
  split; [eexists; split; [vm_compute; reflexivity|];
          repeat split; vm_compute; reflexivity|].
  split; [eexists; split; vm_compute; reflexivity|].
  split; [eexists; split; [vm_compute; reflexivity|];
          repeat split; vm_compute; reflexivity|].
  split; [eexists; split; [vm_compute; reflexivity|];
          repeat split; vm_compute; reflexivity|].
  eexists; split; [vm_compute; reflexivity|];
    repeat split; vm_compute; reflexivity.
Qed.

(** C8, amended. The close and the ATR of a bar are not validated: no test
    of finiteness or sign exists, and the values enter the comparisons and
    the arithmetic as they are. With buying power
    B = free_cash * trade_allocation * leverage, a bar with a buy signal
    that reaches the buy logic
    - records the missed signal Insufficient Funds when [B >= close] is
      false, as it is for every NaN close;
    - raises ZeroDivisionError when [B >= close] holds and the close is
      zero, which ends the run at that bar;
    - drops the entry and logs nothing when the share count
      [int(B // close)] is not positive;
    - opens a position when the share count is positive, whatever the ATR:
      its charges are computed from the close, its target is
      close * (1 + target_profit_percentage / 100) and its trailing stop
      close - ATR * atr_multiplier, which is NaN for a NaN ATR and is then
      reached by no close.
    The exit evaluation visits every open position whatever the close:
    each position with an exit condition is sold at the bar's close, the
    others stay, no missed signal is recorded; a NaN close meets neither
    the target nor the stop condition. *)
Theorem close_and_atr_enter_the_arithmetic (p : Params) (st : State)
    (row : Row) :
  (Buy_Signal row = true ->
   ((close row <=? buying_power p st) = false ->
    buy_signal_logic p row st
    = Ok (record_missed row "Insufficient Funds" st))
   /\ ((close row <=? buying_power p st) = true ->
       (close row =? 0) = true ->
       buy_signal_logic p row st = Raise ZeroDivisionError)
   /\ (forall n : Z,
         (close row <=? buying_power p st) = true ->
         floordiv (buying_power p st) (close row) = Ok n ->
         (n <= 0)%Z ->
         buy_signal_logic p row st = Ok st)
   /\ (forall n : Z,
         (close row <=? buying_power p st) = true ->
         floordiv (buying_power p st) (close row) = Ok n ->
         (0 < n)%Z ->
         has_rates (charges_config p) "BUY" ->
         convertible n ->
         exists (c : Charges) (st' : State) (t : Trade),
           calculate_transaction_charges (close row) n "BUY"
             (charges_config p) = Ok c
           /\ buy_signal_logic p row st = Ok st'
           /\ long_positions st'
              = long_positions st ++ [opened_position p row st n c]
           /\ trades st' = trades st ++ [t]
           /\ event_view t
              = ("Buy"%string, "Buy Signal"%string, close row, n)
           /\ t_Charges t = total c
           /\ missed_signals st' = missed_signals st))
  /\ (is_nan (close row) = true ->
      (close row <=? buying_power p st) = false
      /\ forall position : Position,
           (p_target_price position <=? close row) = false
           /\ (close row <=? p_trailing_stop_loss position) = false)
  /\ (is_nan (ATR row) = true ->
      forall (n : Z) (c : Charges) (price : float),
        is_nan (p_trailing_stop_loss (opened_position p row st n c)) = true
        /\ (price <=? p_trailing_stop_loss (opened_position p row st n c))
           = false)
  /\ (entry_attempted row ->
      (close row <=? buying_power p (start_of_new_day row st)) = true ->
      (close row =? 0) = true ->
      process_row p st row = Raise ZeroDivisionError
      /\ forall pre post : list Row,
           run p (initial_state p) pre = Ok st ->
           simulate_trades (pre ++ row :: post) p = Raise ZeroDivisionError)
  /\ (has_rates (charges_config p) "SELL" ->
      Forall (fun position => convertible (p_shares position))
        (long_positions st) ->
      exists (st' : State) (new : list Trade),
        sell_signal_logic p row st = Ok st'
        /\ long_positions st'
           = filter (fun x => exit_reason row x = None) (long_positions st)
        /\ trades st' = trades st ++ new
        /\ map event_view new = omap (sold_view row) (long_positions st)
        /\ missed_signals st' = missed_signals st).
Proof.
  split; [|split; [|split; [|split]]].
  - intros Hb. split; [exact (entry_without_funds p row st Hb)|].
    split; [exact (entry_at_zero_close p row st Hb)|].
    split; [intros n; exact (entry_dropped p row st n Hb)|].
    intros n. exact (position_opened p row st n Hb).
  - intros Hnan.
    split; [exact (proj1 (nan_compares_false _ _ Hnan))|].
    intros position.
    split; [exact (proj2 (nan_compares_false _ _ Hnan))
           |exact (proj1 (nan_compares_false _ _ Hnan))].
  - intros Hnan n c price. cbn [opened_position p_trailing_stop_loss].
    pose proof (nan_propagates (close row) (ATR row) (atr_multiplier p) Hnan)
      as Hstop.
    split; [exact Hstop|exact (proj2 (nan_compares_false _ price Hstop))].
  - intros [Hb Hearly] Hle Hz.
    assert (Hrow : process_row p st row = Raise ZeroDivisionError).
    { rewrite (early_bar p st row Hearly).
      now rewrite (entry_at_zero_close p row _ Hb Hle Hz). }
    split; [exact Hrow|].
    intros pre post Hpre. unfold simulate_trades.
    now rewrite (run_raises p row _ pre post _ _ Hpre Hrow).
  - exact (sell_logic_visits_all p row st).
Qed.

Lemma close_and_atr_enter_the_arithmetic_witness :
  Buy_Signal nan_atr_entry = true
  /\ is_nan (ATR nan_atr_entry) = true
  /\ (exists (c : Charges) (st' : State),
        buy_signal_logic leveraged_params nan_atr_entry
          (initial_state leveraged_params) = Ok st'
        /\ long_positions st'
           = [ opened_position leveraged_params nan_atr_entry
                 (initial_state leveraged_params) 2500 c ]
        /\ missed_signals st' = [])
  /\ (forall (c : Charges) (price : float),
        (price
         <=? p_trailing_stop_loss
               (opened_position leveraged_params nan_atr_entry
                  (initial_state leveraged_params) 2500 c)) = false)
  /\ simulate_trades [zero_close_entry] leveraged_params
     = Raise ZeroDivisionError
  /\ buy_signal_logic leveraged_params nan_close_entry
       (initial_state leveraged_params)
     = Ok (record_missed nan_close_entry "Insufficient Funds"
             (initial_state leveraged_params))
  /\ buy_signal_logic leveraged_params negative_close_entry
       (initial_state leveraged_params)
     = Ok (initial_state leveraged_params).
Proof.
  destruct (close_and_atr_enter_the_arithmetic leveraged_params
              (initial_state leveraged_params) nan_atr_entry)
    as (Hentry & _ & Hatr & _ & _).
  destruct (close_and_atr_enter_the_arithmetic leveraged_params
              (initial_state leveraged_params) zero_close_entry)
    as (_ & _ & _ & Hzero & _).
  destruct (close_and_atr_enter_the_arithmetic leveraged_params
              (initial_state leveraged_params) nan_close_entry)
    as (Hmissed & Hnan & _).
  destruct (close_and_atr_enter_the_arithmetic leveraged_params
              (initial_state leveraged_params) negative_close_entry)
    as (Hnegative & _).
  split; [reflexivity|]. split; [reflexivity|].
  split; [|split; [|split; [|split]]].
  - destruct (Hentry eq_refl) as (_ & _ & _ & Hmade).
    destruct (Hmade 2500%Z) as (c & st' & t & _ & Hrun & Hl & _ & _ & _ & Hm).
    + vm_compute. reflexivity.
    + vm_compute. reflexivity.
    + reflexivity.
    + eexists. split; [vm_compute; reflexivity|].
      repeat constructor; vm_compute; eauto.
    + eexists. vm_compute. reflexivity.
    + exists c, st'. auto.
  - intros c price. exact (proj2 (Hatr eq_refl 2500%Z c price)).
  - apply (proj2 (Hzero (conj eq_refl eq_refl) eq_refl eq_refl) [] []).
    reflexivity.
  - apply (proj1 (Hmissed eq_refl)). exact (proj1 (Hnan eq_refl)).
  - destruct (Hnegative eq_refl) as (_ & _ & Hdropped & _).
    apply (Hdropped (-250000)%Z); [vm_compute; reflexivity| |lia].
    vm_compute. reflexivity.
Defined.

End DoubleBars.

(** ** Free cash *)

Lemma sell_charges_within_turnover (t a s c e g : Q) :
  0 <= t -> 0 <= a -> 0 <= s -> 0 <= c -> 0 <= e -> 0 <= g ->
  a + s + c + e + (a + c + e) * g <= 1 ->
  Qmin (t * a) 20 + t * s + t * c + t * e
  + (Qmin (t * a) 20 + t * c + t * e) * g + 0 <= t.
Proof.
  intros Ht Ha Hs Hc He Hg Hk.
  pose proof (Q.le_min_l (t * a) 20) as Hm.
  assert (H1 : (Qmin (t * a) 20 + t * c + t * e) * g
               <= (t * a + t * c + t * e) * g)
    by (apply Qmult_le_compat_r; lra).
  assert (H2 : t * (a + s + c + e + (a + c + e) * g) <= t * 1)
    by (rewrite !(Qmult_comm t); apply Qmult_le_compat_r; lra).
  lra.
Qed.

Lemma ledger_sound_filter (P : Position -> Prop)
    `{forall x, Decision (P x)} (positions : list Position) :
  ledger_sound positions -> ledger_sound (filter P positions).
Proof.
  unfold ledger_sound. rewrite !Forall_forall. intros Hall x Hx.
  apply Hall. apply list_elem_of_filter in Hx. tauto.
Qed.

(** The exits of one bar, under SELL rates that are complete, non-negative
    and cannot take more than a sale's turnover, at a non-negative close. *)
Section SellSide.

Variables (p : Params) (r : Rates) (row : Row).
Hypothesis Hrates : side_has_rates (charges_config p) "SELL" r.
Hypothesis Hnonneg : rates_nonneg r.
Hypothesis Hfraction : charge_fraction r <= 1.
Hypothesis Hclose : 0 <= close row.

Lemma net_proceeds_nonneg (position : Position) :
  (0 <= p_shares position)%Z -> 0 <= net_proceeds p row position.
Proof using Hrates Hnonneg Hfraction Hclose.
  destruct Hnonneg as (Hb & Hs & Ht & He & Hg & _).
  intros Hn. unfold net_proceeds.
  rewrite (charges_with_rates _ _ _ (close row) (p_shares position) Hrates).
  cbn [total]. change (String.eqb "SELL" "BUY") with false. cbv iota.
  assert (Hq : 0 <= inject_Z (p_shares position)).
  { change 0 with (inject_Z 0). now rewrite <- Zle_Qle. }
  assert (Hturn : 0 <= close row * inject_Z (p_shares position))
    by now apply Qmult_le_0_compat.
  pose proof (sell_charges_within_turnover _ _ _ _ _ _
                Hturn (rate_fraction_nonneg _ Hb) (rate_fraction_nonneg _ Hs)
                (rate_fraction_nonneg _ Ht) (rate_fraction_nonneg _ He)
                (rate_fraction_nonneg _ Hg) Hfraction) as H.
  lra.
Qed.

Lemma restored_cash_nonneg (positions : list Position) :
  ledger_sound positions -> 0 <= restored_cash p row positions.
Proof using Hrates Hnonneg Hfraction Hclose.
  induction 1 as [|position positions [Hm Hs] _ IH].
  - cbn. lra.
  - rewrite restored_cash_cons.
    pose proof (net_proceeds_nonneg position Hs). lra.
Qed.

(** The sell logic returns and keeps the invariant: each exit adds the
    position's margin and its net sale proceeds to the free cash. *)
Lemma sell_signal_logic_cash (st : State) :
  exists st' : State,
    sell_signal_logic p row st = Ok st'
    /\ free_cash st'
       == free_cash st
          + restored_cash p row
              (filter (fun x => exit_reason row x <> None)
                 (long_positions st))
    /\ (cash_invariant st -> cash_invariant st').
Proof using Hrates Hnonneg Hfraction Hclose.
  destruct (sell_signal_logic_total p row r st Hrates)
    as (st' & new & Hrun & Hl' & _ & _ & _ & _ & Hf').
  exists st'. split; [exact Hrun|]. split; [exact Hf'|].
  intros [Hf Hl]. split.
  - pose proof (restored_cash_nonneg _
                  (ledger_sound_filter
                     (fun x => exit_reason row x <> None) _ Hl)) as Hrest.
    rewrite Hf'. lra.
  - rewrite Hl'. now apply ledger_sound_filter.
Qed.

(** The scheduled square-off returns and keeps the invariant: it adds the
    margin and the net sale proceeds of every position it closes. *)
Lemma scheduled_square_off_cash (st : State) :
  exists st1 : State,
    scheduled_square_off p row st = Ok st1
    /\ current_day st1 = current_day st
    /\ (free_cash st1 == free_cash st
        \/ free_cash st1
           == free_cash st + restored_cash p row (long_positions st))
    /\ (cash_invariant st -> cash_invariant st1).
Proof using Hrates Hnonneg Hfraction Hclose.
  destruct (scheduled_square_off_total p row r st Hrates)
    as (st1 & new1 & Hrun1 & _ & _ & Hd & _ & _ & Hf1 & Hl1).
  exists st1. split; [exact Hrun1|]. split; [exact Hd|].
  split; [exact Hf1|]. intros [Hf Hl]. split.
  - pose proof (restored_cash_nonneg _ Hl) as Hrest.
    destruct Hf1 as [-> | ->]; lra.
  - destruct Hl1 as [-> | ->]; [exact Hl | constructor].
Qed.

End SellSide.

(** The buy logic returns and keeps the invariant: an entry takes
    [free_cash * trade_allocation] out of the free cash and nothing else. *)
Lemma buy_signal_logic_cash (p : Params) (r : Rates) (st : State)
    (row : Row) :
  0 <= trade_allocation p <= 1 ->
  side_has_rates (charges_config p) "BUY" r ->
  0 < close row ->
  exists st' : State,
    buy_signal_logic p row st = Ok st'
    /\ (free_cash st' = free_cash st
        \/ free_cash st' = free_cash st - free_cash st * trade_allocation p)
    /\ (cash_invariant st -> cash_invariant st').
Proof.
  intros Ha Hr Hpos.
  destruct (Buy_Signal row) eqn:Hb.
  - destruct (Qle_bool (close row)
                (free_cash st * trade_allocation p * leverage p)) eqn:Hle.
    + apply Qle_bool_iff in Hle.
      destruct (entry_made p r st row Hr Hb Hpos Hle)
        as (st' & position & Hrun & Hl' & Hs & Hm & _ & _ & Hf' & _).
      exists st'. split; [exact Hrun|]. split; [right; exact Hf'|].
      intros [Hf Hl]. split.
      * rewrite Hf'. nra.
      * unfold ledger_sound. rewrite Hl'. apply Forall_app. split; [exact Hl|].
        constructor; [|constructor]. split; [rewrite Hm; nra | lia].
    + exists (record_missed row "Insufficient Funds" st).
      unfold buy_signal_logic. rewrite Hb, Hle.
      split; [reflexivity|]. split; [left; reflexivity | auto].
  - exists st. unfold buy_signal_logic. rewrite Hb.
    split; [reflexivity|]. split; [left; reflexivity | auto].
Qed.




(** ** A bar as a sequence of elementary updates *)

Lemma square_off_loop_steps (p : Params) (row : Row)
    (snapshot : list Position) :
  ts_geb (timestamp row) (square_off_time (timestamp row)) = true ->
  forall st st' : State,
    square_off_loop p row snapshot st = Ok st' ->
    rtc (bar_step p row) st st'.
Proof.
  intros Hsq.
  induction snapshot as [|position snapshot IH]; intros st st' H.
  - injection H as <-. apply rtc_refl.
  - cbn [square_off_loop] in H.
    bind_ok H c Ec. bind_ok H remaining Er.
    eapply rtc_l; [|exact (IH _ _ H)].
    exact (step_square_off p row st position c remaining Hsq Ec Er).
Qed.

Lemma sell_loop_steps (p : Params) (row : Row) (snapshot : list Position) :
  forall st st' : State,
    current_day st = Some (ts_date (timestamp row)) ->
    sell_loop p row snapshot st = Ok st' ->
    rtc (bar_step p row) st st'.
Proof.
  induction snapshot as [|position snapshot IH]; intros st st' Hd H.
  - injection H as <-. apply rtc_refl.
  - cbn [sell_loop] in H.
    destruct (exit_reason row position) as [reason|] eqn:Ex;
      [|exact (IH _ _ Hd H)].
    bind_ok H c Ec. bind_ok H remaining Er.
    eapply rtc_l;
      [exact (step_sell p row st position reason c remaining Hd Ex Ec Er)|].
    exact (IH (after_sell row position reason c remaining st) _ Hd H).
Qed.

Lemma start_of_new_day_sets_day (row : Row) (st : State) :
  current_day (start_of_new_day row st) = Some (ts_date (timestamp row)).
Proof.
  unfold start_of_new_day, is_new_day.
  destruct (current_day st) as [d|] eqn:Ed; [|reflexivity].
  destruct (d =? ts_date (timestamp row))%Z eqn:E; cbn [negb]; [|reflexivity].
  apply Z.eqb_eq in E. now rewrite Ed, E.
Qed.

Lemma start_of_new_day_steps (p : Params) (row : Row) (st : State) :
  rtc (bar_step p row) st (start_of_new_day row st).
Proof.
  destruct (is_new_day st (ts_date (timestamp row))) eqn:E.
  - apply rtc_once. now apply step_new_day.
  - unfold start_of_new_day. rewrite E. apply rtc_refl.
Qed.

Lemma buy_signal_logic_steps (p : Params) (row : Row) (st st' : State) :
  current_day st = Some (ts_date (timestamp row)) ->
  ts_geb (timestamp row) (no_new_buys_time (timestamp row)) && Buy_Signal row
  = false ->
  buy_signal_logic p row st = Ok st' ->
  rtc (bar_step p row) st st'
  /\ current_day st' = Some (ts_date (timestamp row)).
Proof.
  intros Hd Hgate H. unfold buy_signal_logic in H.
  destruct (Buy_Signal row) eqn:Hb;
    [|injection H as <-; split; [apply rtc_refl | exact Hd]].
  rewrite andb_true_r in Hgate.
  destruct (Qle_bool _ _) eqn:Hle.
  - bind_ok H n En.
    destruct (0 <? n)%Z eqn:Hn;
      [|injection H as <-; split; [apply rtc_refl | exact Hd]].
    bind_ok H c Ec. injection H as <-.
    split; [|exact Hd]. apply rtc_once. apply Z.ltb_lt in Hn.
    exact (step_buy p row st n c Hd Hgate Hb Hle En Hn Ec).
  - injection H as <-. split; [|exact Hd]. apply rtc_once.
    exact (step_insufficient p row st Hd Hgate Hb Hle).
Qed.

(** Every bar the loop body processes is a sequence of elementary updates. *)
Lemma process_row_steps (p : Params) (row : Row) (st st' : State) :
  process_row p st row = Ok st' -> rtc (bar_step p row) st st'.
Proof.
  unfold process_row. intros H. bind_ok H st1 E1.
  assert (H1 : rtc (bar_step p row) st st1).
  { unfold scheduled_square_off in E1.
    destruct (ts_geb _ _) eqn:Hsq; cbn [andb] in E1.
    - destruct (truthy _); [|injection E1 as <-; apply rtc_refl].
      exact (square_off_loop_steps p row _ Hsq _ _ E1).
    - injection E1 as <-. apply rtc_refl. }
  pose proof (start_of_new_day_steps p row st1) as H2.
  pose proof (start_of_new_day_sets_day row st1) as Hd.
  etrans; [exact H1|]. etrans; [exact H2|].
  unfold gate_entry_exit in H.
  destruct (ts_geb _ _ && Buy_Signal row) eqn:Hgate.
  - injection H as <-. apply andb_true_iff in Hgate as [Hnb Hb].
    apply rtc_once. now apply step_late_buy.
  - bind_ok H st3 E3.
    destruct (buy_signal_logic_steps p row _ _ Hd Hgate E3) as [H3 Hd3].
    etrans; [exact H3|]. unfold sell_signal_logic in H.
    destruct (truthy _); [|injection H as <-; apply rtc_refl].
    exact (sell_loop_steps p row _ _ _ Hd3 H).
Qed.

(** An invariant kept by every elementary update of every bar of [data] is
    kept by the loop over [data]. *)
Lemma run_invariant (p : Params) (data : list Row) (Inv : State -> Prop) :
  (forall (row : Row) (st st' : State),
     In row data -> bar_step p row st st' -> Inv st -> Inv st') ->
  forall st st' : State, run p st data = Ok st' -> Inv st -> Inv st'.
Proof.
  induction data as [|row data IH]; intros Hstep st st' H Hinv.
  - injection H as <-. exact Hinv.
  - cbn [run] in H. bind_ok H st1 E1.
    apply (IH (fun row' s s' Hin => Hstep row' s s' (or_intror Hin)) _ _ H).
    pose proof (process_row_steps p row st st1 E1) as Hrtc.
    clear E1 H. induction Hrtc as [|x y z Hxy _ IHrtc]; [exact Hinv|].
    apply IHrtc. exact (Hstep row x y (or_introl eq_refl) Hxy Hinv).
Qed.

(** ** Missing charge rates *)

Lemma rate_cases (cfg : gmap string (gmap string Q)) (side key : string) :
  (exists v : Q, rate cfg side key = Ok v)
  \/ (exists k : string, rate cfg side key = Raise (KeyError k)).
Proof.
  unfold rate, getitem.
  destruct (cfg !! side) as [d|]; cbn [rbind]; [|right; eauto].
  destruct (d !! key) as [v|]; [left | right]; eauto.
Qed.

Lemma rate_absent_not_ok (cfg : gmap string (gmap string Q))
    (side key : string) (v : Q) :
  rate_absent cfg side key -> rate cfg side key <> Ok v.
Proof.
  unfold rate_absent, rate, getitem.
  destruct (cfg !! side) as [d|]; cbn [rbind]; [|discriminate].
  intros ->. discriminate.
Qed.

(** A charge computation for a side with an absent rate raises [KeyError]. *)
Lemma charges_raise_when_absent (cfg : gmap string (gmap string Q))
    (side key : string) (price : Q) (quantity : Z) :
  In key (required_rates side) ->
  rate_absent cfg side key ->
  exists k : string,
    calculate_transaction_charges price quantity side cfg
    = Raise (KeyError k).
Proof.
  intros Hin Habs. unfold calculate_transaction_charges.
  destruct (rate_cases cfg side "BROKERAGE") as [[v1 H1]|[k ->]];
    [rewrite H1; cbn [rbind] | eauto].
  destruct (rate_cases cfg side "STT") as [[v2 H2]|[k ->]];
    [rewrite H2; cbn [rbind] | eauto].
  destruct (rate_cases cfg side "TRANSACTION") as [[v3 H3]|[k ->]];
    [rewrite H3; cbn [rbind] | eauto].
  destruct (rate_cases cfg side "SEBI") as [[v4 H4]|[k ->]];
    [rewrite H4; cbn [rbind] | eauto].
  destruct (rate_cases cfg side "GST") as [[v5 H5]|[k ->]];
    [rewrite H5; cbn [rbind] | eauto].
  unfold required_rates in Hin.
  assert (Hfive : forall v : Q,
            In key ["BROKERAGE"; "STT"; "TRANSACTION"; "SEBI"; "GST"] ->
            False).
  { intros v [<-|[<-|[<-|[<-|[<-|[]]]]]];
      eapply rate_absent_not_ok; eauto. }
  destruct (String.eqb side "BUY").
  - destruct (rate_cases cfg side "STAMP") as [[v6 H6]|[k ->]];
      [exfalso | cbn [rbind]; eauto].
    apply in_app_or in Hin as [Hin|[<-|[]]]; [exact (Hfive 0 Hin)|].
    eapply rate_absent_not_ok; eauto.
  - exfalso. rewrite app_nil_r in Hin. exact (Hfive 0 Hin).
Qed.

(** A bar without buy signal, on an empty ledger, computes no charge. *)
Lemma quiet_row (p : Params) (st : State) (row : Row) :
  long_positions st = [] ->
  Buy_Signal row = false ->
  exists st' : State,
    process_row p st row = Ok st'
    /\ long_positions st' = []
    /\ trades st' = trades st
    /\ missed_signals st' = missed_signals st.
Proof.
  intros Hl Hb. unfold process_row, scheduled_square_off.
  rewrite Hl. cbn [truthy]. rewrite andb_false_r. cbn [rbind].
  unfold gate_entry_exit, buy_signal_logic. rewrite Hb, andb_false_r.
  cbn [rbind]. unfold sell_signal_logic.
  assert (Hl2 : long_positions (start_of_new_day row st) = []).
  { unfold start_of_new_day. destruct (is_new_day _ _); exact Hl. }
  rewrite Hl2. cbn [truthy]. eexists. split; [reflexivity|].
  split; [exact Hl2|].
  unfold start_of_new_day. destruct (is_new_day _ _); auto.
Qed.

Lemma quiet_run (p : Params) (data : list Row) :
  Forall (fun row => Buy_Signal row = false) data ->
  forall st : State,
    long_positions st = [] ->
    exists st' : State,
      run p st data = Ok st'
      /\ trades st' = trades st
      /\ missed_signals st' = missed_signals st.
Proof.
  induction 1 as [|row data Hb _ IH]; intros st Hl.
  - exists st. auto.
  - destruct (quiet_row p st row Hl Hb) as (st1 & Hrun & Hl1 & Ht1 & Hm1).
    destruct (IH st1 Hl1) as (st' & Hrun' & Ht' & Hm').
    exists st'. cbn [run]. rewrite Hrun. cbn [rbind].
    split; [exact Hrun'|]. split; congruence.
Qed.

(** C7, as stated, fails. With no charge table at all, a run over bars
    without signals completes. With the SELL table missing, the first bar is
    processed and produces a Buy event; the run raises [KeyError] only at
    the first exit, on the second bar. *)
Lemma missing_rate_is_not_fail_fast :
  rate_absent (charges_config no_charges_params) "BUY" "BROKERAGE"
  /\ (exists out : Output,
        simulate_trades quiet_morning no_charges_params = Ok out)
  /\ rate_absent (charges_config buy_only_params) "SELL" "BROKERAGE"
  /\ (exists st : State,
        run buy_only_params (initial_state buy_only_params)
          (take 1 sample_morning) = Ok st
        /\ map t_Type (trades st) = ["Buy"])
  /\ simulate_trades sample_morning buy_only_params = Raise (KeyError "SELL").
Proof.
  split; [exact I|].
  split; [eexists; vm_compute; reflexivity|].
  split; [exact I|].
  split; [eexists; split; vm_compute; reflexivity|].
  vm_compute. reflexivity.
Qed.

(** With a SELL rate absent, the square-off loop raises at its first
    position. *)
Lemma square_off_loop_raises (p : Params) (key : string) (row : Row)
    (snapshot : list Position) (st : State) :
  In key (required_rates "SELL") ->
  rate_absent (charges_config p) "SELL" key ->
  snapshot <> [] ->
  exists k : string, square_off_loop p row snapshot st = Raise (KeyError k).
Proof.
  intros Hin Habs Hne. destruct snapshot as [|position snapshot]; [easy|].
  cbn [square_off_loop].
  destruct (charges_raise_when_absent _ _ _ (close row) (p_shares position)
              Hin Habs) as [k ->].
  eauto.
Qed.

(** With a SELL rate absent, the sell loop raises at the first position
    that has an exit reason. *)
Lemma sell_loop_raises (p : Params) (key : string) (row : Row)
    (snapshot : list Position) :
  In key (required_rates "SELL") ->
  rate_absent (charges_config p) "SELL" key ->
  Exists (fun position => exit_reason row position <> None) snapshot ->
  forall st : State,
    exists k : string, sell_loop p row snapshot st = Raise (KeyError k).
Proof.
  intros Hin Habs.
  induction snapshot as [|position snapshot IH]; intros Hex st.
  - inversion Hex.
  - cbn [sell_loop].
    destruct (exit_reason row position) as [reason|] eqn:Er.
    + destruct (charges_raise_when_absent _ _ _ (close row)
                  (p_shares position) Hin Habs) as [k ->].
      eauto.
    + apply IH. apply Exists_cons in Hex as [Hex|Hex]; [congruence|exact Hex].
Qed.

(** A bar that computes a charge of a side with an absent rate raises
    [KeyError]. *)
Lemma process_row_raises (p : Params) (side key : string) (st : State)
    (row : Row) :
  In key (required_rates side) ->
  rate_absent (charges_config p) side key ->
  charge_due p side st row ->
  exists k : string, process_row p st row = Raise (KeyError k).
Proof.
  intros Hin Habs [[-> Hdue]|[-> Hdue]].
  - destruct Hdue as (Hb & Hearly & Hle & n & Hn & Hpos).
    unfold process_row, scheduled_square_off.
    destruct (ts_geb (timestamp row) (square_off_time (timestamp row)))
      eqn:Hsq.
    { apply square_off_implies_no_new_buys in Hsq. congruence. }
    cbn [andb rbind]. unfold gate_entry_exit. rewrite Hearly.
    cbn [andb]. unfold buy_signal_logic. rewrite Hb, Hle, Hn.
    cbn [rbind]. apply Z.ltb_lt in Hpos. rewrite Hpos.
    destruct (charges_raise_when_absent _ _ _ (close row) n Hin Habs)
      as [k ->].
    eauto.
  - destruct Hdue as [[Hsq Hne]|(Hsq & Hgate & st' & Hbuy & Hex)].
    + unfold process_row, scheduled_square_off. rewrite Hsq.
      destruct (long_positions st) as [|x l] eqn:El; [easy|].
      cbn [truthy andb]. rewrite <- El.
      destruct (square_off_loop_raises p key row (long_positions st) st
                  Hin Habs) as [k ->]; [now rewrite El|].
      eauto.
    + unfold process_row, scheduled_square_off. rewrite Hsq.
      cbn [andb rbind]. unfold gate_entry_exit. rewrite Hgate, Hbuy.
      cbn [rbind]. unfold sell_signal_logic.
      destruct (long_positions st') as [|x l] eqn:El; [inversion Hex|].
      cbn [truthy]. rewrite <- El in *.
      exact (sell_loop_raises p key row _ Hin Habs Hex st').
Qed.

(** A bar that raises ends the run with its exception. *)
Lemma run_fails_at (p : Params) (row : Row) (e : exn)
    (pre post : list Row) :
  forall st0 st : State,
    run p st0 pre = Ok st ->
    process_row p st row = Raise e ->
    run p st0 (pre ++ row :: post) = Raise e.
Proof.
  induction pre as [|r pre IH]; intros st0 st Hpre Hrow.
  - injection Hpre as ->. cbn [app run]. now rewrite Hrow.
  - cbn [app run] in *. destruct (process_row p st0 r); [|discriminate].
    cbn [rbind] in *. exact (IH _ _ Hpre Hrow).
Qed.

Lemma not_in_side_events (side ty : string) :
  (side = "BUY" -> ty <> "Buy") ->
  (side = "SELL" -> ty <> "Sell" /\ ty <> "Square Off") ->
  ~ In ty (side_events side).
Proof.
  intros Hb Hs. unfold side_events.
  destruct (String.eqb side "BUY") eqn:Eb.
  - apply String.eqb_eq in Eb. intros [<-|[]]. now apply Hb.
  - destruct (String.eqb side "SELL") eqn:Es; [|easy].
    apply String.eqb_eq in Es. destruct (Hs Es) as [H1 H2].
    intros [<-|[<-|[]]]; congruence.
Qed.

(** With a rate of [side] absent, no elementary update logs an event of
    that side. *)
Lemma bar_step_no_side_event (p : Params) (side key : string) (row : Row)
    (st st' : State) :
  In key (required_rates side) ->
  rate_absent (charges_config p) side key ->
  bar_step p row st st' ->
  Forall (fun t => ~ In (t_Type t) (side_events side)) (trades st) ->
  Forall (fun t => ~ In (t_Type t) (side_events side)) (trades st').
Proof.
  intros Hin Habs Hstep Hinv.
  assert (Hraise : forall (price : Q) (quantity : Z) (c : Charges),
            calculate_transaction_charges price quantity side
              (charges_config p) <> Ok c).
  { intros price quantity c.
    destruct (charges_raise_when_absent _ _ _ price quantity Hin Habs)
      as [k ->].
    discriminate. }
  destruct Hstep as
    [st position c remaining Hsq Hc Hrem
    |st Hnew
    |st Hd Hnb Hb
    |st Hd Hnb Hb Hle
    |st n c Hd Hnb Hb Hle Hn Hpos Hc
    |st position reason c remaining Hd Hex Hc Hrem].
  - cbn [after_square_off trades]. apply Forall_app. split; [exact Hinv|].
    constructor; [|constructor]. cbn [t_Type].
    apply not_in_side_events; [discriminate|].
    intros ->. exfalso. exact (Hraise _ _ _ Hc).
  - unfold start_of_new_day. rewrite Hnew. exact Hinv.
  - exact Hinv.
  - exact Hinv.
  - cbn [after_buy trades]. apply Forall_app. split; [exact Hinv|].
    constructor; [|constructor]. cbn [t_Type].
    apply not_in_side_events; [|intros _; split; discriminate].
    intros ->. exfalso. exact (Hraise _ _ _ Hc).
  - cbn [after_sell trades]. apply Forall_app. split; [exact Hinv|].
    constructor; [|constructor]. cbn [t_Type].
    apply not_in_side_events; [discriminate|].
    intros ->. exfalso. exact (Hraise _ _ _ Hc).
Qed.

(** C7, amended. When a required rate of a side is absent, every charge
    computation for that side raises [KeyError], and the run fails at the
    first bar that computes such a charge, after the bars before it have
    been processed: for BUY a bar that makes an entry, for SELL a bar that
    squares positions off or sells one. Hence a run that returns has logged
    no event of that side. A run whose bars carry no buy signal computes no
    charge and completes, with no trade and no missed signal. *)
Theorem missing_rate_fails_at_first_charge (p : Params) (side key : string) :
  In key (required_rates side) ->
  rate_absent (charges_config p) side key ->
  (forall (price : Q) (quantity : Z),
     exists k : string,
       calculate_transaction_charges price quantity side (charges_config p)
       = Raise (KeyError k))
  /\ (forall (pre post : list Row) (row : Row) (st : State),
        run p (initial_state p) pre = Ok st ->
        charge_due p side st row ->
        exists k : string,
          process_row p st row = Raise (KeyError k)
          /\ simulate_trades (pre ++ row :: post) p = Raise (KeyError k))
  /\ (forall (data : list Row) (out : Output),
        simulate_trades data p = Ok out ->
        Forall (fun t => ~ In (t_Type t) (side_events side)) (trades_df out))
  /\ (forall data : list Row,
        Forall (fun row => Buy_Signal row = false) data ->
        exists out : Output,
          simulate_trades data p = Ok out
          /\ trades_df out = []
          /\ missed_signals_df out = []).
Proof.
  intros Hin Habs.
  split; [|split; [|split]].
  - intros price quantity.
    exact (charges_raise_when_absent _ _ _ price quantity Hin Habs).
  - intros pre post row st Hpre Hdue.
    destruct (process_row_raises p side key st row Hin Habs Hdue)
      as [k Hrow].
    exists k. split; [exact Hrow|]. unfold simulate_trades.
    now rewrite (run_fails_at p row _ pre post _ _ Hpre Hrow).
  - intros data out H. unfold simulate_trades in H.
    bind_ok H st E. injection H as <-. cbn [trades_df].
    apply (run_invariant p data
             (fun s => Forall (fun t => ~ In (t_Type t) (side_events side))
                         (trades s))
             (fun row s s' _ =>
                bar_step_no_side_event p side key row s s' Hin Habs)
             _ _ E).
    constructor.
  - intros data Hq.
    destruct (quiet_run p data Hq (initial_state p) eq_refl)
      as (st & Hrun & Ht & Hm).
    unfold simulate_trades. rewrite Hrun. cbn [rbind].
    eexists. split; [reflexivity|]. cbn [trades_df missed_signals_df].
    rewrite Ht, Hm. auto.
Qed.

Lemma missing_rate_fails_at_first_charge_witness :
  In "BROKERAGE" (required_rates "SELL")
  /\ rate_absent (charges_config buy_only_params) "SELL" "BROKERAGE"
  /\ (exists st : State,
        run buy_only_params (initial_state buy_only_params)
          (take 1 sample_morning) = Ok st
        /\ charge_due buy_only_params "SELL" st
             (bar 1 9 25 102 2 false false))
  /\ (exists k : string,
        simulate_trades sample_morning buy_only_params
        = Raise (KeyError k))
  /\ (exists out : Output,
        simulate_trades quiet_morning buy_only_params = Ok out
        /\ trades_df out = [] /\ missed_signals_df out = []).
Proof.
  assert (Hin : In "BROKERAGE" (required_rates "SELL")) by (left; reflexivity).
  assert (Habs : rate_absent (charges_config buy_only_params) "SELL"
                   "BROKERAGE") by exact I.
  split; [exact Hin|]. split; [exact Habs|].
  destruct (missing_rate_fails_at_first_charge buy_only_params "SELL"
              "BROKERAGE" Hin Habs) as (_ & Hrun & _ & Hq).
  assert (Hfirst : exists st : State,
            run buy_only_params (initial_state buy_only_params)
              (take 1 sample_morning) = Ok st
            /\ charge_due buy_only_params "SELL" st
                 (bar 1 9 25 102 2 false false)).
  { eexists. split; [vm_compute; reflexivity|].
    right. split; [reflexivity|]. right.
    split; [reflexivity|]. split; [reflexivity|].
    eexists. split; [vm_compute; reflexivity|].
    apply Exists_cons_hd. discriminate. }
  split; [exact Hfirst|]. split.
  - destruct Hfirst as (st & Hpre & Hdue).
    destruct (Hrun (take 1 sample_morning) (skipn 2 sample_morning)
                (bar 1 9 25 102 2 false false) st Hpre Hdue)
      as (k & _ & Hfail).
    exists k. exact Hfail.
  - apply Hq. repeat constructor.
Defined.

(** ** The summary totals and the trade log *)

Lemma sum_profit_loss_snoc (events : list Trade) (t : Trade) :
  sum_profit_loss (events ++ [t]) == sum_profit_loss events + t_Profit_Loss t.
Proof.
  induction events as [|e events IH].
  - cbn. ring.
  - change ((e :: events) ++ [t]) with (e :: (events ++ [t])).
    rewrite !sum_profit_loss_cons, IH. ring.
Qed.

Lemma sum_over_snoc (ty : string) (f : Trade -> Q) (events : list Trade)
    (t : Trade) :
  sum_over ty f (events ++ [t])
  == sum_over ty f events
     + (if String.eqb (t_Type t) ty then f t else 0).
Proof.
  induction events as [|e events IH].
  - cbn. destruct (String.eqb (t_Type t) ty); ring.
  - change ((e :: events) ++ [t]) with (e :: (events ++ [t])).
    cbn [sum_over fold_right]. fold (sum_over ty f (events ++ [t])).
    fold (sum_over ty f events).
    destruct (String.eqb (t_Type e) ty); rewrite IH; ring.
Qed.

Lemma bar_step_totals (p : Params) (row : Row) (st st' : State) :
  bar_step p row st st' -> totals_match st -> totals_match st'.
Proof.
  intros Hstep (Hpl & Hcost & Hrev).
  destruct Hstep; unfold totals_match;
    try (unfold start_of_new_day; destruct (is_new_day _ _));
    cbn [after_square_off after_sell after_buy record_missed
         total_profit_loss total_cost total_revenue trades];
    rewrite ?sum_profit_loss_snoc, ?sum_over_snoc;
    cbn [t_Type t_Profit_Loss String.eqb Ascii.eqb Bool.eqb];
    change (event_cost ?t)
      with (inject_Z (t_Shares t) * t_Price t + t_Charges t);
    change (event_proceeds ?t)
      with (inject_Z (t_Shares t) * t_Price t - t_Charges t);
    cbn [t_Shares t_Price t_Charges];
    rewrite ?Hpl, ?Hcost, ?Hrev; repeat split; try reflexivity; ring.
Qed.

Lemma run_totals (p : Params) (data : list Row) (st : State) :
  run p (initial_state p) data = Ok st -> totals_match st.
Proof.
  intros H.
  apply (run_invariant p data totals_match
           (fun row s s' _ => bar_step_totals p row s s') _ _ H).
  repeat split; reflexivity.
Qed.

(** X1. The total profit/loss of the summary is the sum of the Profit/Loss
    column of the trade log. *)
Theorem total_profit_loss_sums_trade_log (p : Params) (data : list Row)
    (out : Output) :
  simulate_trades data p = Ok out ->
  Total_Profit_Loss (final_summary out) == sum_profit_loss (trades_df out).
Proof.
  unfold simulate_trades. intros H. bind_ok H st E. injection H as <-.
  exact (proj1 (run_totals p data st E)).
Qed.

(** X2. The total cost of the summary is the sum, over the Buy events, of
    shares x price + charges. The total revenue is the sum, over the Sell
    events, of shares x price - charges: the proceeds of Square Off events
    are not part of it. *)
Theorem cost_and_revenue_sum_trade_log (p : Params) (data : list Row)
    (out : Output) :
  simulate_trades data p = Ok out ->
  Total_Cost (final_summary out) == sum_over "Buy" event_cost (trades_df out)
  /\ Total_Revenue (final_summary out)
     == sum_over "Sell" event_proceeds (trades_df out).
Proof.
  unfold simulate_trades. intros H. bind_ok H st E. injection H as <-.
  exact (proj2 (run_totals p data st E)).
Qed.

Lemma total_profit_loss_sums_trade_log_witness :
  exists out : Output,
    simulate_trades sample_morning sample_params = Ok out
    /\ Total_Profit_Loss (final_summary out)
       == sum_profit_loss (trades_df out).
Proof.
  eexists. split; [vm_compute; reflexivity|].
  apply (total_profit_loss_sums_trade_log sample_params sample_morning).
  vm_compute. reflexivity.
Defined.

Lemma cost_and_revenue_sum_trade_log_witness :
  exists out : Output,
    simulate_trades sample_morning sample_params = Ok out
    /\ Total_Cost (final_summary out)
       == sum_over "Buy" event_cost (trades_df out)
    /\ Total_Revenue (final_summary out)
       == sum_over "Sell" event_proceeds (trades_df out).
Proof.
  eexists. split; [vm_compute; reflexivity|].
  apply (cost_and_revenue_sum_trade_log sample_params sample_morning).
  vm_compute. reflexivity.
Defined.

(** ** Shares bought, sold and held *)

Lemma fold_shares_acc (l : list Position) (a : Z) :
  fold_left (fun acc pos => (acc + p_shares pos)%Z) l a
  = (a + sum_shares l)%Z.
Proof.
  unfold sum_shares. revert a.
  induction l as [|x l IH]; intros a; cbn [fold_left]; [lia|].
  rewrite IH, (IH (0 + p_shares x)%Z). lia.
Qed.

Lemma sum_shares_cons (x : Position) (l : list Position) :
  sum_shares (x :: l) = (p_shares x + sum_shares l)%Z.
Proof.
  unfold sum_shares at 1. cbn [fold_left]. rewrite fold_shares_acc. lia.
Qed.

Lemma sum_shares_snoc (l : list Position) (x : Position) :
  sum_shares (l ++ [x]) = (sum_shares l + p_shares x)%Z.
Proof.
  induction l as [|y l IH].
  - cbn. lia.
  - change ((y :: l) ++ [x]) with (y :: (l ++ [x])).
    rewrite !sum_shares_cons, IH. lia.
Qed.

Lemma position_eqb_shares (a b : Position) :
  position_eqb a b = true -> p_shares a = p_shares b.
Proof.
  unfold position_eqb. rewrite !andb_true_iff.
  intros [[[[[H _] _] _] _] _]. now apply Z.eqb_eq.
Qed.

(** [remove] takes out a position with the share count of its argument. *)
Lemma deque_remove_shares (x : Position) (dq remaining : list Position) :
  deque_remove x dq = Ok remaining ->
  sum_shares dq = (p_shares x + sum_shares remaining)%Z.
Proof.
  revert remaining.
  induction dq as [|y dq IH]; intros remaining H; [discriminate H|].
  cbn [deque_remove] in H.
  destruct (position_eqb y x) eqn:E.
  - injection H as <-. rewrite sum_shares_cons.
    now rewrite (position_eqb_shares _ _ E).
  - bind_ok H rest Er. injection H as <-.
    rewrite !sum_shares_cons, (IH _ Er). lia.
Qed.

Lemma shares_over_snoc (ty : string) (events : list Trade) (t : Trade) :
  shares_over ty (events ++ [t])
  = (shares_over ty events
     + (if String.eqb (t_Type t) ty then t_Shares t else 0))%Z.
Proof.
  induction events as [|e events IH].
  - cbn. destruct (String.eqb (t_Type t) ty); lia.
  - change ((e :: events) ++ [t]) with (e :: (events ++ [t])).
    cbn [shares_over fold_right]. fold (shares_over ty (events ++ [t])).
    fold (shares_over ty events). rewrite IH.
    destruct (String.eqb (t_Type e) ty); lia.
Qed.

Lemma bar_step_shares (p : Params) (row : Row) (st st' : State) :
  bar_step p row st st' -> shares_conserved st -> shares_conserved st'.
Proof.
  unfold shares_conserved. intros Hstep Hinv.
  destruct Hstep;
    try (unfold start_of_new_day; destruct (is_new_day _ _));
    cbn [after_square_off after_sell after_buy record_missed
         trades long_positions];
    rewrite ?shares_over_snoc, ?sum_shares_snoc;
    cbn [t_Type t_Shares p_shares String.eqb Ascii.eqb Bool.eqb];
    try exact Hinv;
    repeat match goal with
           | H : deque_remove _ _ = Ok _ |- _ =>
               apply deque_remove_shares in H
           end;
    lia.
Qed.

(** X3. Over a whole run, the shares of the Buy events are the shares of
    the Sell events, plus the shares of the Square Off events, plus the
    shares still held that the summary reports: no lot is exited twice and
    none is lost. *)
Theorem shares_bought_are_sold_or_held (p : Params) (data : list Row)
    (out : Output) :
  simulate_trades data p = Ok out ->
  shares_over "Buy" (trades_df out)
  = (shares_over "Sell" (trades_df out)
     + shares_over "Square Off" (trades_df out)
     + Current_Stock_Holding (final_summary out))%Z.
Proof.
  unfold simulate_trades. intros H. bind_ok H st E. injection H as <-.
  cbn [trades_df final_summary Current_Stock_Holding].
  apply (run_invariant p data shares_conserved
           (fun row s s' _ => bar_step_shares p row s s') _ _ E).
  reflexivity.
Qed.

Lemma shares_bought_are_sold_or_held_witness :
  exists out : Output,
    simulate_trades [late_entry; late_both_signals] sample_params = Ok out
    /\ shares_over "Buy" (trades_df out)
       = (shares_over "Sell" (trades_df out)
          + shares_over "Square Off" (trades_df out)
          + Current_Stock_Holding (final_summary out))%Z
    /\ Current_Stock_Holding (final_summary out) = 2500%Z.
Proof.
  eexists. split; [vm_compute; reflexivity|]. split; [|reflexivity].
  apply (shares_bought_are_sold_or_held sample_params
           [late_entry; late_both_signals]).
  vm_compute. reflexivity.
Defined.

(** ** The events of a run *)

Lemma Forall_snoc {A : Type} (P : A -> Prop) (l : list A) (x : A) :
  Forall P l -> P x -> Forall P (l ++ [x]).
Proof.
  intros Hl Hx. apply Forall_app. split; [exact Hl|].
  constructor; [exact Hx | constructor].
Qed.

(** The total of a breakdown is the sum of its components, its brokerage is
    capped, and only BUY pays stamp duty. *)
Lemma charges_shape (price : Q) (quantity : Z) (side : string)
    (cfg : gmap string (gmap string Q)) (c : Charges) :
  calculate_transaction_charges price quantity side cfg = Ok c ->
  total c
  = brokerage c + stt c + transaction_charge c + sebi_charge c + gst c
    + stamp_duty c
  /\ brokerage c <= 20
  /\ (side <> "BUY" -> stamp_duty c = 0).
Proof.
  unfold calculate_transaction_charges. intros H.
  bind_ok H rb Eb. bind_ok H rs Es. bind_ok H rt Et. bind_ok H re Ee.
  bind_ok H rg Eg. bind_ok H sd Esd. injection H as <-.
  cbn [total brokerage stt transaction_charge sebi_charge gst stamp_duty].
  split; [reflexivity|]. split; [apply capped_le_cap|].
  intros Hside. destruct (String.eqb side "BUY") eqn:E.
  - apply String.eqb_eq in E. contradiction.
  - now injection Esd as <-.
Qed.

Lemma deque_remove_positive (x : Position) (dq remaining : list Position) :
  deque_remove x dq = Ok remaining ->
  Forall (fun position => (0 < p_shares position)%Z) dq ->
  (0 < p_shares x)%Z
  /\ Forall (fun position => (0 < p_shares position)%Z) remaining.
Proof.
  revert remaining.
  induction dq as [|y dq IH]; intros remaining H Hall; [discriminate H|].
  cbn [deque_remove] in H. inversion Hall as [|? ? Hy Hdq]; subst.
  destruct (position_eqb y x) eqn:E.
  - injection H as <-. rewrite <- (position_eqb_shares _ _ E). auto.
  - bind_ok H rest Er. injection H as <-.
    destruct (IH _ Er Hdq) as [Hx Hrest]. auto.
Qed.

Lemma exit_reason_in_sell_reasons (row : Row) (position : Position)
    (reason : string) :
  exit_reason row position = Some reason -> In reason sell_reasons.
Proof.
  unfold exit_reason, sell_reasons.
  destruct (Sell_Signal row); [intros [= <-]; cbn; auto|].
  destruct (Qle_bool _ _); [intros [= <-]; cbn; auto|].
  destruct (Qle_bool _ _); [intros [= <-]; cbn; auto|].
  destruct (ts_geb _ _); [intros [= <-]; cbn; auto 6 | discriminate].
Qed.

Lemma bar_step_well_formed (p : Params) (row : Row) (st st' : State) :
  bar_step p row st st' -> log_well_formed st -> log_well_formed st'.
Proof.
  intros Hstep [Hev Hled].
  destruct Hstep as
    [st position c remaining Hsq Hc Hrem
    |st Hnew
    |st Hd Hnb Hb
    |st Hd Hnb Hb Hle
    |st n c Hd Hnb Hb Hle Hn Hpos Hc
    |st position reason c remaining Hd Hex Hc Hrem].
  - destruct (deque_remove_positive _ _ _ Hrem Hled) as [Hx Hrest].
    destruct (charges_shape _ _ _ _ _ Hc) as (Htot & Hcap & Hstamp).
    split; [|exact Hrest].
    cbn [after_square_off trades]. apply Forall_snoc; [exact Hev|].
    unfold well_formed_event.
    cbn [t_Type t_Shares t_Charges t_Brokerage t_STT t_Transaction_Charge
         t_SEBI_Charge t_GST t_Stamp_Duty t_Profit_Loss t_Reason].
    repeat split; auto; try discriminate;
      try (intros _; now apply Hstamp).
  - unfold start_of_new_day. rewrite Hnew. split; assumption.
  - split; assumption.
  - split; assumption.
  - destruct (charges_shape _ _ _ _ _ Hc) as (Htot & Hcap & _).
    split.
    + cbn [after_buy trades]. apply Forall_snoc; [exact Hev|].
      unfold well_formed_event.
      cbn [t_Type t_Shares t_Charges t_Brokerage t_STT t_Transaction_Charge
           t_SEBI_Charge t_GST t_Stamp_Duty t_Profit_Loss t_Reason].
      repeat split; auto; try discriminate;
        try (intros Hne; now destruct Hne).
    + cbn [after_buy long_positions]. apply Forall_snoc; [exact Hled|].
      exact Hpos.
  - destruct (deque_remove_positive _ _ _ Hrem Hled) as [Hx Hrest].
    destruct (charges_shape _ _ _ _ _ Hc) as (Htot & Hcap & Hstamp).
    split; [|exact Hrest].
    cbn [after_sell trades]. apply Forall_snoc; [exact Hev|].
    unfold well_formed_event.
    cbn [t_Type t_Shares t_Charges t_Brokerage t_STT t_Transaction_Charge
         t_SEBI_Charge t_GST t_Stamp_Duty t_Profit_Loss t_Reason].
    repeat split; auto; try discriminate;
      try (intros _; now apply Hstamp);
      try (intros _; exact (exit_reason_in_sell_reasons _ _ _ Hex)).
Qed.



Lemma bar_step_timely (p : Params) (row : Row) (st st' : State) :
  bar_step p row st st' ->
  Forall timely (trades st) -> Forall timely (trades st').
Proof.
  intros Hstep Hev.
  destruct Hstep;
    try (unfold start_of_new_day; destruct (is_new_day _ _));
    cbn [after_square_off after_sell after_buy record_missed trades];
    try exact Hev;
    (apply Forall_snoc; [exact Hev|]); unfold timely; cbn [t_Type t_Time];
    split; intros Hty; try discriminate Hty; assumption.
Qed.

(** X5. No Buy event of a run is stamped at or after the no-new-buy
    deadline of its day, and every Square Off event is stamped at or after
    the square-off deadline. *)
Theorem buys_and_square_offs_are_timely (p : Params) (data : list Row)
    (out : Output) :
  simulate_trades data p = Ok out -> Forall timely (trades_df out).
Proof.
  unfold simulate_trades. intros H. bind_ok H st E. injection H as <-.
  cbn [trades_df].
  apply (run_invariant p data (fun s => Forall timely (trades s))
           (fun row s s' _ => bar_step_timely p row s s') _ _ E).
  constructor.
Qed.

Lemma buys_and_square_offs_are_timely_witness :
  exists out : Output,
    simulate_trades [overnight_entry; next_day_late] sample_params = Ok out
    /\ map t_Type (trades_df out) = ["Buy"; "Square Off"]
    /\ Forall timely (trades_df out).
Proof.
  eexists. split; [vm_compute; reflexivity|]. split; [reflexivity|].
  apply (buys_and_square_offs_are_timely sample_params
           [overnight_entry; next_day_late]).
  vm_compute. reflexivity.
Defined.

Lemma sell_signal_reason (row : Row) (position : Position) :
  exit_reason row position = Some "Sell Signal Triggered" ->
  Sell_Signal row = true.
Proof.
  unfold exit_reason.
  destruct (Sell_Signal row); [reflexivity|].
  destruct (Qle_bool _ _); [discriminate|].
  destruct (Qle_bool _ _); [discriminate|].
  destruct (ts_geb _ _); discriminate.
Qed.

Lemma bar_step_from_bar (p : Params) (data : list Row) (row : Row)
    (st st' : State) :
  In row data ->
  bar_step p row st st' ->
  Forall (from_bar data) (trades st) /\ Forall (missed_on_bar data)
                                          (missed_signals st) ->
  Forall (from_bar data) (trades st')
  /\ Forall (missed_on_bar data) (missed_signals st').
Proof.
  intros Hin Hstep [Hev Hmiss].
  destruct Hstep as
    [st position c remaining Hsq Hc Hrem
    |st Hnew
    |st Hd Hnb Hb
    |st Hd Hnb Hb Hle
    |st n c Hd Hnb Hb Hle Hn Hpos Hc
    |st position reason c remaining Hd Hex Hc Hrem].
  - split; [|exact Hmiss].
    cbn [after_square_off trades]. apply Forall_snoc; [exact Hev|].
    exists row. cbn [t_Time t_Price t_Type t_Reason].
    repeat split; auto; discriminate.
  - unfold start_of_new_day. rewrite Hnew. split; assumption.
  - split; [exact Hev|].
    cbn [record_missed missed_signals]. apply Forall_snoc; [exact Hmiss|].
    exists row. cbn [m_Time m_Price m_Reason]. repeat split; auto.
  - split; [exact Hev|].
    cbn [record_missed missed_signals]. apply Forall_snoc; [exact Hmiss|].
    exists row. cbn [m_Time m_Price m_Reason]. repeat split; auto.
  - split; [|exact Hmiss].
    cbn [after_buy trades]. apply Forall_snoc; [exact Hev|].
    exists row. cbn [t_Time t_Price t_Type t_Reason].
    repeat split; auto; discriminate.
  - split; [|exact Hmiss].
    cbn [after_sell trades]. apply Forall_snoc; [exact Hev|].
    exists row. cbn [t_Time t_Price t_Type t_Reason].
    repeat split; auto; try discriminate.
    intros ->. exact (sell_signal_reason _ _ Hex).
Qed.

Lemma run_from_bar (p : Params) (data : list Row) (st : State) :
  run p (initial_state p) data = Ok st ->
  Forall (from_bar data) (trades st)
  /\ Forall (missed_on_bar data) (missed_signals st).
Proof.
  intros H.
  apply (run_invariant p data
           (fun s => Forall (from_bar data) (trades s)
                     /\ Forall (missed_on_bar data) (missed_signals s))
           (fun row s s' Hin => bar_step_from_bar p data row s s' Hin)
           _ _ H).
  split; constructor.
Qed.

(** X6. Every event of a run was recorded on a bar of the data: it carries
    that bar's timestamp as Time and its close as Price; a Buy event comes
    from a bar whose buy signal is set, and an exit with reason Sell Signal
    Triggered from a bar whose sell signal is set. *)
Theorem events_come_from_bars (p : Params) (data : list Row) (out : Output) :
  simulate_trades data p = Ok out -> Forall (from_bar data) (trades_df out).
Proof.
  unfold simulate_trades. intros H. bind_ok H st E. injection H as <-.
  exact (proj1 (run_from_bar p data st E)).
Qed.

Lemma events_come_from_bars_witness :
  exists out : Output,
    simulate_trades sample_morning sample_params = Ok out
    /\ length (trades_df out) = 2%nat
    /\ Forall (from_bar sample_morning) (trades_df out).
Proof.
  eexists. split; [vm_compute; reflexivity|]. split; [reflexivity|].
  apply (events_come_from_bars sample_params sample_morning).
  vm_compute. reflexivity.
Defined.

(** X7. Every missed signal of a run was recorded on a bar of the data
    whose buy signal is set, with that bar's timestamp and close; its reason
    is Buy restricted near market close exactly when the bar is at or after
    the no-new-buy deadline, and Insufficient Funds otherwise. *)
Theorem missed_signals_come_from_buy_bars (p : Params) (data : list Row)
    (out : Output) :
  simulate_trades data p = Ok out ->
  Forall (missed_on_bar data) (missed_signals_df out).
Proof.
  unfold simulate_trades. intros H. bind_ok H st E. injection H as <-.
  exact (proj2 (run_from_bar p data st E)).
Qed.

Lemma missed_signals_come_from_buy_bars_witness :
  exists out : Output,
    simulate_trades [late_entry; late_both_signals] sample_params = Ok out
    /\ length (missed_signals_df out) = 1%nat
    /\ Forall (missed_on_bar [late_entry; late_both_signals])
         (missed_signals_df out).
Proof.
  eexists. split; [vm_compute; reflexivity|]. split; [reflexivity|].
  apply (missed_signals_come_from_buy_bars sample_params
           [late_entry; late_both_signals]).
  vm_compute. reflexivity.
Defined.

(** ** Properties of generate_signals *)

Lemma signal_rows_Forall (P : SignalRow -> Prop)
    (indicator_config : gmap string Q) :
  (forall (prev : option IndicatorRow) (r : IndicatorRow)
          (a b : option Q), P (signal_row indicator_config prev r a b)) ->
  forall (data : list IndicatorRow) (prev : option IndicatorRow)
         (sma50 sma200 : list (option Q)),
    Forall P (signal_rows indicator_config prev data sma50 sma200).
Proof.
  intros HP. induction data as [|r data IH]; intros prev sma50 sma200.
  - constructor.
  - cbn [signal_rows].
    destruct sma50 as [|a sma50]; [constructor|].
    destruct sma200 as [|b sma200]; [constructor|].
    constructor; [apply HP | apply IH].
Qed.

Lemma generate_signals_Forall (P : SignalRow -> Prop)
    (indicator_config : gmap string Q) (data : list IndicatorRow) :
  (forall (prev : option IndicatorRow) (r : IndicatorRow)
          (a b : option Q), P (signal_row indicator_config prev r a b)) ->
  Forall P (generate_signals data indicator_config).1.1.
Proof.
  intros HP. unfold generate_signals.
  destruct data as [|r data]; [constructor|].
  cbn [fst]. now apply signal_rows_Forall.
Qed.

Lemma rolling_mean_from_length (w : nat) (cells : list (option Q)) :
  forall seen : list (option Q),
    length (rolling_mean_from w seen cells) = length cells.
Proof.
  induction cells as [|cell cells IH]; intros seen; [reflexivity|].
  cbn [rolling_mean_from length]. now rewrite IH.
Qed.

Lemma signal_rows_rows (indicator_config : gmap string Q) :
  forall (data : list IndicatorRow) (prev : option IndicatorRow)
         (sma50 sma200 : list (option Q)),
    length sma50 = length data -> length sma200 = length data ->
    map g_row (signal_rows indicator_config prev data sma50 sma200) = data.
Proof.
  induction data as [|r data IH]; intros prev sma50 sma200 H50 H200.
  - reflexivity.
  - destruct sma50 as [|a sma50]; [discriminate H50|].
    destruct sma200 as [|b sma200]; [discriminate H200|].
    cbn [signal_rows map]. cbn [signal_row g_row]. f_equal.
    apply IH; [now injection H50 | now injection H200].
Qed.

Lemma generate_signals_rows (data : list IndicatorRow)
    (indicator_config : gmap string Q) :
  map g_row (generate_signals data indicator_config).1.1 = data.
Proof.
  unfold generate_signals. destruct data as [|r data]; [reflexivity|].
  cbn [fst]. apply signal_rows_rows; unfold rolling_mean;
    now rewrite rolling_mean_from_length, length_map.
Qed.

Lemma cell_gt_spec (a b : option Q) :
  cell_gt a b = true <-> exists x y : Q, a = Some x /\ b = Some y /\ y < x.
Proof.
  unfold cell_gt. split.
  - destruct a as [x|], b as [y|]; try discriminate.
    intros H. exists x, y. repeat split.
    apply negb_true_iff in H. apply Qnot_le_lt. intros Hle.
    apply Qle_bool_iff in Hle. congruence.
  - intros (x & y & -> & -> & Hlt). apply negb_true_iff.
    destruct (Qle_bool x y) eqn:E; [|reflexivity].
    apply Qle_bool_iff in E. lra.
Qed.

(** X9. No row of the frame returned by [generate_signals] carries both a
    buy and a sell signal; a row with either signal has its close above
    its VWAP and its ATR above the configured ATR threshold. *)
Theorem signals_are_exclusive (data : list IndicatorRow)
    (indicator_config : gmap string Q) :
  Forall
    (fun s =>
       (g_Buy_Signal s && g_Sell_Signal s = false)
       /\ (g_Buy_Signal s || g_Sell_Signal s = true ->
           exists c v a th : Q,
             i_close (g_row s) = Some c /\ i_VWAP (g_row s) = Some v
             /\ v < c
             /\ i_ATR (g_row s) = Some a
             /\ indicator_config !! "ATR_THRESHOLD" = Some th
             /\ th < a))
    (generate_signals data indicator_config).1.1.
Proof.
  apply generate_signals_Forall. intros prev r a b.
  cbn [signal_row g_Buy_Signal g_Sell_Signal g_row]. split.
  - unfold cell_lt.
    destruct (cell_gt (i_MACD r) (i_Signal r)) eqn:Hup;
      [|now rewrite andb_false_r].
    destruct (cell_gt (i_Signal r) (i_MACD r)) eqn:Hdown;
      [|now rewrite !andb_false_r].
    apply cell_gt_spec in Hup as (x & y & Hx & Hy & Hlt).
    apply cell_gt_spec in Hdown as (y' & x' & Hy' & Hx' & Hlt').
    rewrite Hx in Hx'. rewrite Hy in Hy'.
    injection Hx' as <-. injection Hy' as <-. lra.
  - intros Hsig.
    assert (Hboth : cell_gt (i_ATR r) (indicator_config !! "ATR_THRESHOLD")
                    = true
                    /\ cell_gt (i_close r) (i_VWAP r) = true).
    { apply orb_true_iff in Hsig as [H|H];
        rewrite !andb_true_iff in H; tauto. }
    destruct Hboth as [Hatr Hvwap].
    apply cell_gt_spec in Hatr as (x & th & Hx & Hth & Hlt).
    apply cell_gt_spec in Hvwap as (c & v & Hc & Hv & Hlt').
    exists c, v, x, th. auto 7.
Qed.

(** X10. [generate_signals] gives no buy signal on the first row, where
    the shifted columns are NaN; none when either RSI recovery threshold is
    absent from the configuration; no sell signal when the sell RSI
    threshold is absent; and no signal at all when the ATR threshold is
    absent. The rows keep their input columns. *)
Theorem signals_need_history_and_thresholds (data : list IndicatorRow)
    (indicator_config : gmap string Q) :
  let frame := (generate_signals data indicator_config).1.1 in
  map g_row frame = data
  /\ (forall s : SignalRow, head frame = Some s -> g_Buy_Signal s = false)
  /\ (indicator_config !! "BUY_RSI_THRESHOLD_LOW" = None
      \/ indicator_config !! "BUY_RSI_THRESHOLD_HIGH" = None ->
      Forall (fun s => g_Buy_Signal s = false) frame)
  /\ (indicator_config !! "SELL_RSI_THRESHOLD" = None ->
      Forall (fun s => g_Sell_Signal s = false) frame)
  /\ (indicator_config !! "ATR_THRESHOLD" = None ->
      Forall (fun s => g_Buy_Signal s = false /\ g_Sell_Signal s = false)
        frame).
Proof.
  cbn zeta. split; [|split; [|split; [|split]]].
  - apply generate_signals_rows.
  - unfold generate_signals. destruct data as [|r data]; [intros s [=]|].
    cbn [fst rolling_mean map rolling_mean_from signal_rows head].
    intros s [= <-]. cbn [signal_row g_Buy_Signal]. unfold cell_lt, cell_gt.
    destruct (indicator_config !! "BUY_RSI_THRESHOLD_LOW"); reflexivity.
  - intros Habs. apply generate_signals_Forall. intros prev r a b.
    cbn [signal_row g_Buy_Signal]. unfold cell_lt, cell_gt.
    destruct Habs as [-> | ->].
    + destruct (match prev with Some q => i_RSI q | None => None end);
        reflexivity.
    + destruct (i_RSI r); cbn; now rewrite ?andb_false_r.
  - intros Habs. apply generate_signals_Forall. intros prev r a b.
    cbn [signal_row g_Sell_Signal]. rewrite Habs. unfold cell_gt at 1.
    destruct (i_RSI r); now rewrite !andb_false_r.
  - intros Habs. apply generate_signals_Forall. intros prev r a b.
    cbn [signal_row g_Buy_Signal g_Sell_Signal]. rewrite Habs.
    assert (Hno : cell_gt (i_ATR r) None = false)
      by (unfold cell_gt; now destruct (i_ATR r)).
    rewrite Hno. now rewrite !andb_false_r.
Qed.

Lemma signals_are_exclusive_witness :
  map g_Buy_Signal (generate_signals sample_frame sample_thresholds).1.1
  = [false; true]
  /\ Forall
       (fun s =>
          (g_Buy_Signal s && g_Sell_Signal s = false)
          /\ (g_Buy_Signal s || g_Sell_Signal s = true ->
              exists c v a th : Q,
                i_close (g_row s) = Some c /\ i_VWAP (g_row s) = Some v
                /\ v < c
                /\ i_ATR (g_row s) = Some a
                /\ sample_thresholds !! "ATR_THRESHOLD" = Some th
                /\ th < a))
       (generate_signals sample_frame sample_thresholds).1.1.
Proof.
  split; [vm_compute; reflexivity|].
  exact (signals_are_exclusive sample_frame sample_thresholds).
Defined.

Lemma signals_need_history_and_thresholds_witness :
  thresholds_without_atr !! "ATR_THRESHOLD" = None
  /\ Forall (fun s => g_Buy_Signal s = false /\ g_Sell_Signal s = false)
       (generate_signals sample_frame thresholds_without_atr).1.1.
Proof.
  assert (Habs : thresholds_without_atr !! "ATR_THRESHOLD" = None)
    by reflexivity.
  split; [exact Habs|].
  exact (proj2 (proj2 (proj2 (proj2
           (signals_need_history_and_thresholds sample_frame
              thresholds_without_atr)))) Habs).
Defined.

(** ** The win rate *)

Lemma filter_length_bound {A : Type} (f : A -> bool) (l : list A) :
  (length (List.filter f l) <= length l)%nat.
Proof.
  induction l as [|x l IH]; cbn; [lia|]. destruct (f x); cbn; lia.
Qed.

Lemma filter_none {A : Type} (f : A -> bool) (l : list A) :
  Forall (fun x => f x = false) l -> List.filter f l = [].
Proof.
  induction 1 as [|x l Hx _ IH]; cbn; [reflexivity|]. now rewrite Hx.
Qed.

Lemma filter_all {A : Type} (f : A -> bool) (l : list A) :
  Forall (fun x => f x = true) l -> List.filter f l = l.
Proof.
  induction 1 as [|x l Hx _ IH]; cbn; [reflexivity|]. now rewrite Hx, IH.
Qed.

(** X12. The win rate computed from a trade log lies between 0 and 100. It
    is 0 when the log has no Sell or Square Off event, and 100 when it has
    such events and all of them have a positive profit/loss. *)
Theorem win_rate_is_a_percentage (trades_frame : list Trade) :
  0 <= win_rate trades_frame <= 100
  /\ (Forall (fun t => is_completed t = false) trades_frame ->
      win_rate trades_frame = 0)
  /\ (List.filter is_completed trades_frame <> [] ->
      Forall (fun t => 0 < t_Profit_Loss t)
        (List.filter is_completed trades_frame) ->
      win_rate trades_frame == 100).
Proof.
  unfold win_rate.
  set (completed := List.filter is_completed trades_frame).
  set (winning := fun t : Trade => negb (Qle_bool (t_Profit_Loss t) 0)).
  pose proof (filter_length_bound winning completed) as Hle.
  split; [|split].
  - destruct (0 <? length completed)%nat eqn:E; [|split; discriminate].
    apply Nat.ltb_lt in E.
    assert (Hw : 0 <= inject_Z (Z.of_nat (length (List.filter winning
                                                    completed)))).
    { change 0 with (inject_Z 0). rewrite <- Zle_Qle. lia. }
    assert (Ht : 0 < inject_Z (Z.of_nat (length completed))).
    { change 0 with (inject_Z 0). rewrite <- Zlt_Qlt. lia. }
    assert (Hwt : inject_Z (Z.of_nat (length (List.filter winning completed)))
                  <= inject_Z (Z.of_nat (length completed))).
    { rewrite <- Zle_Qle. lia. }
    assert (H0 : 0 <= inject_Z (Z.of_nat (length (List.filter winning
                                                    completed)))
                      / inject_Z (Z.of_nat (length completed)))
      by (apply Qle_shift_div_l; lra).
    assert (H1 : inject_Z (Z.of_nat (length (List.filter winning completed)))
                 / inject_Z (Z.of_nat (length completed)) <= 1)
      by (apply Qle_shift_div_r; lra).
    split; lra.
  - intros Hnone. unfold completed. now rewrite (filter_none _ _ Hnone).
  - intros Hne Hwin.
    assert (Hall : List.filter winning completed = completed).
    { apply filter_all. eapply Forall_impl; [exact Hwin|].
      intros t Hpos. unfold winning. apply negb_true_iff.
      destruct (Qle_bool (t_Profit_Loss t) 0) eqn:E; [|reflexivity].
      apply Qle_bool_iff in E. cbn beta in Hpos. lra. }
    rewrite Hall.
    destruct completed as [|t completed']; [now destruct Hne|].
    change (0 <? length (t :: completed'))%nat with true. cbv iota.
    assert (Ht : 0 < inject_Z (Z.of_nat (length (t :: completed')))).
    { change 0 with (inject_Z 0). rewrite <- Zlt_Qlt. cbn [length]. lia. }
    field. lra.
Qed.

Lemma win_rate_is_a_percentage_witness :
  List.filter is_completed sample_log <> []
  /\ Forall (fun t => 0 < t_Profit_Loss t)
       (List.filter is_completed sample_log)
  /\ win_rate sample_log == 100.
Proof.
  assert (Hne : List.filter is_completed sample_log <> [])
    by (vm_compute; discriminate).
  assert (Hwin : Forall (fun t => 0 < t_Profit_Loss t)
                   (List.filter is_completed sample_log)).
  { vm_compute. repeat constructor. }
  split; [exact Hne|]. split; [exact Hwin|].
  exact (proj2 (proj2 (win_rate_is_a_percentage sample_log)) Hne Hwin).
Defined.

(** ** clean_token *)

Lemma substring_all (s : string) :
  String.substring 0 (String.length s) s = s.
Proof.
  induction s as [|c s IH]; [reflexivity|]. cbn. now rewrite IH.
Qed.

Lemma substring_split (n : nat) :
  forall s : string,
    (String.substring 0 n s
     ++ String.substring n (String.length s - n) s)%string = s.
Proof.
  induction n as [|n IH]; intros s.
  - rewrite Nat.sub_0_r, substring_all. now destruct s.
  - destruct s as [|c s]; [reflexivity|].
    change (String c (String.substring 0 n s
                      ++ String.substring n (String.length s - n) s)%string
            = String c s).
    now rewrite IH.
Qed.

(** X13. [clean_token] removes one leading "Bearer " and nothing else:
    applied to "Bearer " followed by a token it returns that token; a token
    without the prefix is returned unchanged; and a token with the prefix is
    "Bearer " followed by the result. *)
Theorem clean_token_strips_one_prefix (token : string) :
  clean_token ("Bearer " ++ token) = token
  /\ (String.prefix "Bearer " token = false -> clean_token token = token)
  /\ (String.prefix "Bearer " token = true ->
      token = ("Bearer " ++ clean_token token)%string).
Proof.
  split; [|split].
  - destruct token as [|c token]; [reflexivity|].
    transitivity
      (String c (String.substring 0 (String.length token) token));
      [reflexivity | now rewrite substring_all].
  - intros H. unfold clean_token. now rewrite H.
  - intros H. unfold clean_token. rewrite H.
    apply String.prefix_correct in H.
    change (String.length "Bearer ") with 7%nat in *.
    rewrite <- H at 1. symmetry. apply (substring_split 7).
Qed.

Lemma clean_token_strips_one_prefix_witness :
  String.prefix "Bearer " "Bearer Bearer abc" = true
  /\ clean_token "Bearer Bearer abc" = "Bearer abc"%string
  /\ "Bearer Bearer abc"%string
     = ("Bearer " ++ clean_token "Bearer Bearer abc")%string.
Proof.
  assert (H : String.prefix "Bearer " "Bearer Bearer abc" = true)
    by reflexivity.
  split; [exact H|]. split; [reflexivity|].
  exact (proj2 (proj2 (clean_token_strips_one_prefix "Bearer Bearer abc")) H).
Defined.

(** ** The column widths *)

Lemma scan_widths_flat (get_column_letter : positive -> string)
    (rows : list (list Cell)) :
  forall m : gmap string nat,
    fold_left
      (fun column_widths row =>
         fold_left (track_cell get_column_letter) row column_widths)
      rows m
    = fold_left (track_cell get_column_letter) (concat rows) m.
Proof.
  induction rows as [|row rows IH]; intros m; [reflexivity|].
  cbn [fold_left concat]. rewrite fold_left_app. apply IH.
Qed.

Lemma track_cell_lookup (get_column_letter : positive -> string)
    (m : gmap string nat) (cell : Cell) (k : string) :
  track_cell get_column_letter m cell !! k
  = match cell.2 with
    | Some text =>
        if decide (get_column_letter cell.1 = k)
        then Some (match m !! k with
                   | Some width => Nat.max width (String.length text)
                   | None => String.length text
                   end)
        else m !! k
    | None => m !! k
    end.
Proof.
  unfold track_cell. destruct cell as [column [text|]]; cbn [fst snd];
    [|reflexivity].
  destruct (decide (get_column_letter column = k)) as [<-|Hne].
  - destruct (m !! get_column_letter column); now rewrite lookup_insert_eq.
  - destruct (m !! get_column_letter column);
      now rewrite lookup_insert_ne.
Qed.

Lemma widths_grow (get_column_letter : positive -> string)
    (cells : list Cell) :
  forall (m : gmap string nat) (k : string) (w : nat),
    m !! k = Some w ->
    exists w' : nat,
      fold_left (track_cell get_column_letter) cells m !! k = Some w'
      /\ (w <= w')%nat.
Proof.
  induction cells as [|cell cells IH]; intros m k w Hm.
  - exists w. auto.
  - cbn [fold_left].
    assert (Hstep : exists w1 : nat,
              track_cell get_column_letter m cell !! k = Some w1
              /\ (w <= w1)%nat).
    { rewrite track_cell_lookup. destruct (cell.2) as [text|]; [|eauto].
      destruct (decide _); [|eauto]. rewrite Hm. eexists. split; [eauto|lia]. }
    destruct Hstep as (w1 & H1 & Hle1).
    destruct (IH _ _ _ H1) as (w' & H' & Hle'). exists w'. split; [auto|lia].
Qed.

Lemma widths_fit (get_column_letter : positive -> string)
    (cells : list Cell) :
  forall (m : gmap string nat) (cell : Cell) (text : string),
    In cell cells -> cell.2 = Some text ->
    exists w : nat,
      fold_left (track_cell get_column_letter) cells m
        !! get_column_letter cell.1 = Some w
      /\ (String.length text <= w)%nat.
Proof.
  induction cells as [|c cells IH]; intros m cell text Hin Htext;
    [destruct Hin|].
  cbn [fold_left]. destruct Hin as [->|Hin]; [|exact (IH _ _ _ Hin Htext)].
  assert (Hstep : exists w1 : nat,
            track_cell get_column_letter m cell
              !! get_column_letter cell.1 = Some w1
            /\ (String.length text <= w1)%nat).
  { rewrite track_cell_lookup, Htext.
    destruct (decide _) as [_|Hne]; [|now destruct Hne].
    eexists. split; [reflexivity|].
    destruct (m !! get_column_letter cell.1); lia. }
  destruct Hstep as (w1 & H1 & Hle1).
  destruct (widths_grow get_column_letter cells _ _ _ H1) as (w & Hw & Hle).
  exists w. split; [exact Hw|lia].
Qed.

Lemma widths_attained (get_column_letter : positive -> string)
    (cells : list Cell) :
  forall (m : gmap string nat) (k : string) (w : nat),
    fold_left (track_cell get_column_letter) cells m !! k = Some w ->
    m !! k = Some w
    \/ exists (cell : Cell) (text : string),
         In cell cells /\ cell.2 = Some text
         /\ get_column_letter cell.1 = k /\ String.length text = w.
Proof.
  induction cells as [|c cells IH]; intros m k w H; [left; exact H|].
  cbn [fold_left] in H. destruct (IH _ _ _ H) as [Hm|(cell & text & Hin & ?)].
  - rewrite track_cell_lookup in Hm.
    destruct (c.2) as [text|] eqn:Htext; [|left; exact Hm].
    destruct (decide _) as [Hk|_]; [|left; exact Hm].
    injection Hm as Hw.
    destruct (m !! k) as [width|] eqn:Hmk.
    + destruct (Nat.max_spec width (String.length text)) as [[_ Hmax]|[_ Hmax]];
        rewrite Hmax in Hw.
      * right. exists c, text. cbn. auto.
      * left. now rewrite Hw.
    + right. exists c, text. cbn. auto.
  - right. exists cell, text. cbn. tauto.
Qed.

(** X14. After the scan, the width set for a column letter is 2 more than
    the length of the longest text among the cells that map to that letter:
    every cell with a value fits with 2 to spare, the width is reached by
    one of those cells, and a letter without any valued cell gets no
    width. *)
Theorem autofit_width_is_longest_plus_two
    (get_column_letter : positive -> string) (rows : list (list Cell)) :
  (forall (row : list Cell) (cell : Cell) (text : string),
     In row rows -> In cell row -> cell.2 = Some text ->
     exists w : nat,
       autofit_widths get_column_letter rows !! get_column_letter cell.1
       = Some w
       /\ (String.length text + 2 <= w)%nat)
  /\ (forall (k : string) (w : nat),
        autofit_widths get_column_letter rows !! k = Some w ->
        exists (row : list Cell) (cell : Cell) (text : string),
          In row rows /\ In cell row /\ cell.2 = Some text
          /\ get_column_letter cell.1 = k
          /\ w = (String.length text + 2)%nat).
Proof.
  unfold autofit_widths, scan_widths. rewrite scan_widths_flat. split.
  - intros row cell text Hrow Hcell Htext.
    assert (Hin : In cell (concat rows))
      by (apply in_concat; exists row; auto).
    destruct (widths_fit get_column_letter _ ∅ cell text Hin Htext)
      as (w & Hw & Hle).
    exists (w + 2)%nat. rewrite lookup_fmap, Hw. split; [reflexivity|lia].
  - intros k w. rewrite lookup_fmap.
    destruct (fold_left _ _ _ !! k) as [w0|] eqn:Hw0; [|discriminate].
    intros [= <-].
    destruct (widths_attained get_column_letter _ _ _ _ Hw0)
      as [Hm|(cell & text & Hin & Htext & Hk & Hlen)].
    + rewrite lookup_empty in Hm. discriminate Hm.
    + apply in_concat in Hin as (row & Hrow & Hcell).
      exists row, cell, text. rewrite Hlen. auto 6.
Qed.

Lemma autofit_width_is_longest_plus_two_witness :
  autofit_widths sample_letter sample_sheet !! "A"%string = Some 21%nat
  /\ exists (row : list Cell) (cell : Cell) (text : string),
       In row sample_sheet /\ In cell row /\ cell.2 = Some text
       /\ sample_letter cell.1 = "A"%string
       /\ 21%nat = (String.length text + 2)%nat.
Proof.
  assert (H : autofit_widths sample_letter sample_sheet !! "A"%string
              = Some 21%nat) by reflexivity.
  split; [exact H|].
  exact (proj2 (autofit_width_is_longest_plus_two sample_letter sample_sheet)
           "A"%string 21%nat H).
Defined.

(** ** load_config *)

Lemma field_set_field (key k : string) (value : json)
    (fields : list (string * json)) :
  field k (set_field key value fields)
  = if String.eqb key k then Some value else field k fields.
Proof.
  induction fields as [|[k0 v0] fields IH]; cbn [set_field field].
  - destruct (String.eqb key k); reflexivity.
  - destruct (String.eqb k0 key) eqn:E0; cbn [field].
    + apply String.eqb_eq in E0 as ->.
      destruct (String.eqb key k); reflexivity.
    + rewrite IH. destruct (String.eqb k0 k) eqn:E1; [|reflexivity].
      apply String.eqb_eq in E1 as ->.
      rewrite String.eqb_sym in E0. now rewrite E0.
Qed.

(** The loop over the sections keeps the fields that are there and gives
    an empty object to each absent section. *)
Lemma default_sections_fields (sections : list string) :
  forall fields : list (string * json),
    exists fields' : list (string * json),
      fold_left default_section sections (Some (JObj fields))
      = Some (JObj fields')
      /\ forall k : string,
           field k fields'
           = match field k fields with
             | Some v => Some v
             | None =>
                 if existsb (fun section => String.eqb section k) sections
                 then Some (JObj [])
                 else None
             end.
Proof.
  induction sections as [|section sections IH]; intros fields.
  - exists fields. split; [reflexivity|]. intros k.
    now destruct (field k fields).
  - cbn [fold_left default_section existsb].
    destruct (field section fields) as [v|] eqn:Hs.
    + destruct (IH fields) as (fields' & Hrun & Hf).
      exists fields'. split; [exact Hrun|]. intros k. rewrite Hf.
      destruct (field k fields) eqn:Hk; [reflexivity|].
      destruct (String.eqb section k) eqn:E; [|reflexivity].
      apply String.eqb_eq in E as ->. congruence.
    + destruct (IH (set_field section (JObj []) fields))
        as (fields' & Hrun & Hf).
      exists fields'. split; [exact Hrun|]. intros k.
      rewrite Hf, field_set_field.
      destruct (String.eqb section k) eqn:E.
      * apply String.eqb_eq in E as <-. now rewrite Hs.
      * reflexivity.
Qed.

Lemma default_sections_present (sections : list string)
    (fields : list (string * json)) :
  Forall (fun section => field section fields <> None) sections ->
  fold_left default_section sections (Some (JObj fields))
  = Some (JObj fields).
Proof.
  induction 1 as [|section sections Hs _ IH]; [reflexivity|].
  cbn [fold_left default_section].
  destruct (field section fields); [exact IH | now destruct Hs].
Qed.

(** What [load_config] accepts: an object whose HISTORICAL_DATA holds the
    five keys. *)
Lemma load_config_accepts (config config' : json) :
  load_config config = Some config' ->
  exists (fields : list (string * json)) (historical : json),
    config = JObj fields
    /\ field "HISTORICAL_DATA" fields = Some historical
    /\ forallb
         (fun key =>
            match contains historical key with
            | Some true => true
            | _ => false
            end)
         HISTORICAL_DATA_keys = true
    /\ fold_left default_section required_sections (Some (JObj fields))
       = Some config'.
Proof.
  unfold load_config. intros H.
  destruct (contains config "HISTORICAL_DATA") as [[|]|]; try discriminate.
  destruct (subscript config "HISTORICAL_DATA") as [historical|] eqn:Hsub;
    [|discriminate].
  destruct (forallb _ _) eqn:Hall; [|discriminate].
  destruct config as [| | | | |fields]; try discriminate Hsub.
  exists fields, historical. auto.
Qed.

(** X15. When [load_config] returns, the file content is an object, its
    HISTORICAL_DATA section holds the keys exchange, symboltoken, interval,
    fromdate and todate, and the returned configuration is an object with
    the sections HISTORICAL_DATA, INDICATOR_CONFIG, CHARGES and
    TRADE_CONFIG. A content that is not an object, or an object without
    HISTORICAL_DATA, ends the program. *)
Theorem load_config_validates (config : json) :
  (forall config' : json,
     load_config config = Some config' ->
     exists (fields fields' : list (string * json)) (historical : json),
       config = JObj fields /\ config' = JObj fields'
       /\ field "HISTORICAL_DATA" fields = Some historical
       /\ Forall (fun key => contains historical key = Some true)
            HISTORICAL_DATA_keys
       /\ Forall (fun section => field section fields' <> None)
            ("HISTORICAL_DATA"%string :: required_sections))
  /\ ((forall fields : list (string * json), config <> JObj fields) ->
      load_config config = None)
  /\ (forall fields : list (string * json),
        config = JObj fields -> field "HISTORICAL_DATA" fields = None ->
        load_config config = None).
Proof.
  split; [|split].
  - intros config' H.
    destruct (load_config_accepts _ _ H)
      as (fields & historical & -> & Hh & Hall & Hrun).
    destruct (default_sections_fields required_sections fields)
      as (fields' & Hrun' & Hf).
    rewrite Hrun' in Hrun. injection Hrun as <-.
    exists fields, fields', historical.
    split; [reflexivity|]. split; [reflexivity|]. split; [exact Hh|]. split.
    + apply Forall_forall. intros key Hkey.
      rewrite forallb_forall in Hall. specialize (Hall key).
      destruct (contains historical key) as [[|]|];
        try reflexivity; exfalso;
        (assert (false = true) by (apply Hall; now apply list_elem_of_In));
        discriminate.
    + repeat constructor; rewrite Hf.
      * now rewrite Hh.
      * now destruct (field "INDICATOR_CONFIG" fields).
      * now destruct (field "CHARGES" fields).
      * now destruct (field "TRADE_CONFIG" fields).
  - intros Hnot. destruct (load_config config) as [config'|] eqn:H;
      [|reflexivity].
    destruct (load_config_accepts _ _ H) as (fields & _ & -> & _).
    now destruct (Hnot fields).
  - intros fields -> Hnone. unfold load_config. cbn [contains].
    now rewrite Hnone.
Qed.

(** X16. [load_config] changes nothing that the file holds: every field of
    the content is returned with its value, each of the sections
    INDICATOR_CONFIG, CHARGES and TRADE_CONFIG that is absent is returned as
    an empty object, and no other field is added. Loading a returned
    configuration again returns it unchanged. *)
Theorem load_config_only_adds_empty_sections (fields : list (string * json))
    (config' : json) :
  load_config (JObj fields) = Some config' ->
  exists fields' : list (string * json),
    config' = JObj fields'
    /\ (forall (k : string) (v : json),
          field k fields = Some v -> field k fields' = Some v)
    /\ (forall k : string,
          field k fields = None ->
          field k fields'
          = if existsb (fun section => String.eqb section k)
                 required_sections
            then Some (JObj []) else None)
    /\ load_config config' = Some config'.
Proof.
  intros H.
  destruct (load_config_accepts _ _ H)
    as (fields0 & historical & [= <-] & Hh & Hall & Hrun).
  destruct (default_sections_fields required_sections fields)
    as (fields' & Hrun' & Hf).
  rewrite Hrun' in Hrun. injection Hrun as <-.
  exists fields'. split; [reflexivity|]. split; [|split].
  - intros k v Hk. now rewrite Hf, Hk.
  - intros k Hk. now rewrite Hf, Hk.
  - unfold load_config. cbn [contains subscript].
    rewrite (Hf "HISTORICAL_DATA"%string), Hh, Hall.
    apply default_sections_present.
    repeat constructor; rewrite Hf.
    + now destruct (field "INDICATOR_CONFIG" fields).
    + now destruct (field "CHARGES" fields).
    + now destruct (field "TRADE_CONFIG" fields).
Qed.

Lemma load_config_validates_witness :
  exists config' : json,
    load_config sample_config = Some config'
    /\ exists (fields fields' : list (string * json)) (historical : json),
         sample_config = JObj fields /\ config' = JObj fields'
         /\ field "HISTORICAL_DATA" fields = Some historical
         /\ Forall (fun key => contains historical key = Some true)
              HISTORICAL_DATA_keys
         /\ Forall (fun section => field section fields' <> None)
              ("HISTORICAL_DATA"%string :: required_sections).
Proof.
  eexists. split; [reflexivity|].
  apply (proj1 (load_config_validates sample_config)). reflexivity.
Defined.

Lemma load_config_only_adds_empty_sections_witness :
  exists config' : json,
    load_config sample_config = Some config'
    /\ exists fields' : list (string * json),
         config' = JObj fields'
         /\ field "CHARGES" fields' = Some (JObj [])
         /\ load_config config' = Some config'.
Proof.
  eexists. split; [reflexivity|].
  destruct (load_config_only_adds_empty_sections _ _
              (eq_refl (load_config sample_config)))
    as (fields' & Hc & _ & Hnew & Hidem).
  exists fields'. split; [exact Hc|]. split; [|exact Hidem].
  exact (Hnew "CHARGES"%string eq_refl).
Defined.

(** ** Timezones of the report frames *)

Lemma remove_timezone_cons (name : string) (col : Column) (df : Frame) :
  remove_timezone ((name, col) :: df)
  = (name, naive_column col) :: remove_timezone df.
Proof.
  unfold remove_timezone. cbn [map fst snd].
  now destruct col as [[zone|] wall|cells].
Qed.

(** X19. After [remove_timezone], [assert_timezone_naive] never raises:
    the check of save_results and save_summary cannot fail. The function
    keeps the columns, their order, their names and their wall-clock
    values, changes nothing in a frame that passes the check, and is
    idempotent; the check raises exactly when some datetime column has a
    timezone. *)
Theorem remove_timezone_passes_the_check (df : Frame) (df_name : string) :
  assert_timezone_naive (remove_timezone df) df_name = Ok tt
  /\ map fst (remove_timezone df) = map fst df
  /\ Forall2
       (fun before after =>
          match before.2, after.2 with
          | DatetimeColumn _ wall, DatetimeColumn tz wall' =>
              tz = None /\ wall' = wall
          | OtherColumn cells, OtherColumn cells' => cells' = cells
          | _, _ => False
          end)
       df (remove_timezone df)
  /\ remove_timezone (remove_timezone df) = remove_timezone df
  /\ (assert_timezone_naive df df_name = Ok tt -> remove_timezone df = df)
  /\ (assert_timezone_naive df df_name = Raise ValueError <->
      exists (name zone : string) (wall : list Timestamp),
        In (name, DatetimeColumn (Some zone) wall) df).
Proof.
  induction df as [|[name col] df
                     (IH1 & IH2 & IH3 & IH4 & IH5 & IH6)].
  - repeat split; try constructor; try discriminate.
    intros (? & ? & ? & []).
  - rewrite !remove_timezone_cons.
    destruct col as [[zone|] wall|cells];
      cbn [naive_column map fst snd assert_timezone_naive].
    + split; [exact IH1|]. split; [now rewrite IH2|].
      split; [constructor; [cbn; auto | exact IH3]|].
      split; [now rewrite IH4|]. split; [discriminate|].
      split; [|reflexivity]. intros _. exists name, zone, wall. now left.
    + split; [exact IH1|]. split; [now rewrite IH2|].
      split; [constructor; [cbn; auto | exact IH3]|].
      split; [now rewrite IH4|].
      split; [intros H; now rewrite (IH5 H)|]. rewrite IH6. split.
      * intros (n & z & w & Hin). exists n, z, w. now right.
      * intros (n & z & w & [Heq|Hin]); [discriminate Heq|eauto].
    + split; [exact IH1|]. split; [now rewrite IH2|].
      split; [constructor; [cbn; auto | exact IH3]|].
      split; [now rewrite IH4|].
      split; [intros H; now rewrite (IH5 H)|]. rewrite IH6. split.
      * intros (n & z & w & Hin). exists n, z, w. now right.
      * intros (n & z & w & [Heq|Hin]); [discriminate Heq|eauto].
Qed.

Lemma remove_timezone_passes_the_check_witness :
  assert_timezone_naive sample_aware_frame "trades" = Raise ValueError
  /\ assert_timezone_naive (remove_timezone sample_aware_frame) "trades"
     = Ok tt.
Proof.
  split; [reflexivity|].
  exact (proj1 (remove_timezone_passes_the_check sample_aware_frame
                  "trades")).
Defined.

(** ** What each bar adds to the logs *)

Lemma square_off_loop_events (p : Params) (row : Row)
    (snapshot : list Position) :
  forall st st' : State,
    square_off_loop p row snapshot st = Ok st' ->
    exists new : list Trade,
      trades st' = trades st ++ new
      /\ Forall (event_of row "Square Off") new
      /\ missed_signals st' = missed_signals st.
Proof.
  induction snapshot as [|position snapshot IH]; intros st st' H.
  - injection H as <-. exists []. now rewrite app_nil_r.
  - cbn [square_off_loop] in H.
    bind_ok H c Ec. bind_ok H remaining Er.
    destruct (IH _ _ H) as (new & Ht & Hnew & Hm).
    cbn [trades missed_signals] in Ht, Hm.
    eexists (_ :: new). split; [rewrite Ht, <- app_assoc; reflexivity|].
    split; [|exact Hm]. constructor; [|exact Hnew]. now split.
Qed.

Lemma sell_loop_events (p : Params) (row : Row)
    (snapshot : list Position) :
  forall st st' : State,
    sell_loop p row snapshot st = Ok st' ->
    exists new : list Trade,
      trades st' = trades st ++ new
      /\ Forall (event_of row "Sell") new
      /\ missed_signals st' = missed_signals st.
Proof.
  induction snapshot as [|position snapshot IH]; intros st st' H.
  - injection H as <-. exists []. now rewrite app_nil_r.
  - cbn [sell_loop] in H.
    destruct (exit_reason row position) as [reason|]; [|exact (IH _ _ H)].
    bind_ok H c Ec. bind_ok H remaining Er.
    destruct (IH _ _ H) as (new & Ht & Hnew & Hm).
    cbn [trades missed_signals] in Ht, Hm.
    eexists (_ :: new). split; [rewrite Ht, <- app_assoc; reflexivity|].
    split; [|exact Hm]. constructor; [|exact Hnew]. now split.
Qed.

Lemma buy_signal_logic_events (p : Params) (row : Row) (st st' : State) :
  buy_signal_logic p row st = Ok st' ->
  exists (buys : list Trade) (missed : list MissedSignal),
    trades st' = trades st ++ buys
    /\ missed_signals st' = missed_signals st ++ missed
    /\ Forall (event_of row "Buy") buys
    /\ (length buys + length missed <= 1)%nat
    /\ Forall (fun m => m_Time m = timestamp row) missed.
Proof.
  unfold buy_signal_logic. intros H.
  assert (Hnone : exists (buys : list Trade) (missed : list MissedSignal),
            trades st = trades st ++ buys
            /\ missed_signals st = missed_signals st ++ missed
            /\ Forall (event_of row "Buy") buys
            /\ (length buys + length missed <= 1)%nat
            /\ Forall (fun m => m_Time m = timestamp row) missed).
  { exists [], []. rewrite !app_nil_r. cbn [length Nat.add].
    repeat split; auto. }
  destruct (Buy_Signal row); [|injection H as <-; exact Hnone].
  destruct (Qle_bool _ _).
  - bind_ok H n En.
    destruct (0 <? n)%Z; [|injection H as <-; exact Hnone].
    bind_ok H c Ec. injection H as <-.
    eexists [_], []. cbn [trades missed_signals]. rewrite app_nil_r.
    repeat split; auto; repeat constructor.
  - injection H as <-. cbn [record_missed trades missed_signals].
    eexists [], [_]. rewrite app_nil_r.
    repeat split; auto; repeat constructor.
Qed.

(** The events one bar adds, in order. *)
Lemma process_row_events (p : Params) (row : Row) (st st' : State) :
  process_row p st row = Ok st' ->
  exists (new : list Trade) (missed : list MissedSignal),
    trades st' = trades st ++ new
    /\ missed_signals st' = missed_signals st ++ missed
    /\ bar_events row new missed.
Proof.
  unfold process_row. intros H. bind_ok H st1 E1.
  assert (H1 : exists sq : list Trade,
             trades st1 = trades st ++ sq
             /\ Forall (event_of row "Square Off") sq
             /\ missed_signals st1 = missed_signals st).
  { unfold scheduled_square_off in E1.
    destruct (_ && _); [exact (square_off_loop_events _ _ _ _ _ E1)|].
    injection E1 as <-. exists []. now rewrite app_nil_r. }
  destruct H1 as (sq & Ht1 & Hsq & Hm1).
  assert (Ht2 : trades (start_of_new_day row st1) = trades st ++ sq).
  { unfold start_of_new_day. destruct (is_new_day _ _); exact Ht1. }
  assert (Hm2 : missed_signals (start_of_new_day row st1)
                = missed_signals st).
  { unfold start_of_new_day. destruct (is_new_day _ _); exact Hm1. }
  unfold gate_entry_exit in H.
  destruct (_ && Buy_Signal row).
  - injection H as <-. cbn [record_missed trades missed_signals].
    eexists sq, [_]. split; [exact Ht2|]. split; [now rewrite Hm2|].
    exists sq, [], []. rewrite !app_nil_r.
    repeat split; auto; repeat constructor.
  - bind_ok H st3 E3.
    destruct (buy_signal_logic_events _ _ _ _ E3)
      as (buys & missed & Ht3 & Hm3 & Hbuys & Hone & Hmissed).
    assert (H4 : exists sells : list Trade,
               trades st' = trades st3 ++ sells
               /\ Forall (event_of row "Sell") sells
               /\ missed_signals st' = missed_signals st3).
    { unfold sell_signal_logic in H.
      destruct (truthy _); [exact (sell_loop_events _ _ _ _ _ H)|].
      injection H as <-. exists []. now rewrite app_nil_r. }
    destruct H4 as (sells & Ht4 & Hsells & Hm4).
    exists (sq ++ buys ++ sells), missed.
    split; [rewrite Ht4, Ht3, Ht2, <- !app_assoc; reflexivity|].
    split; [rewrite Hm4, Hm3, Hm2; reflexivity|].
    exists sq, buys, sells. auto 7.
Qed.


(** X17. One bar adds to the trade log, in this order, the events of the
    scheduled square-off, at most one Buy event, and the Sell events of the
    exit evaluation, all stamped with the bar's timestamp and close; it adds
    at most one missed signal, and none when it adds a Buy event. Earlier
    entries of both logs are kept. *)
Theorem bar_adds_ordered_events (p : Params) (row : Row) (st st' : State) :
  process_row p st row = Ok st' ->
  exists (new : list Trade) (missed : list MissedSignal),
    trades st' = trades st ++ new
    /\ missed_signals st' = missed_signals st ++ missed
    /\ bar_events row new missed.
Proof. exact (process_row_events p row st st'). Qed.

Lemma bar_adds_ordered_events_witness :
  exists st' : State,
    process_row sample_params (initial_state sample_params)
      negative_atr_entry = Ok st'
    /\ exists (new : list Trade) (missed : list MissedSignal),
         trades st' = trades (initial_state sample_params) ++ new
         /\ missed_signals st'
            = missed_signals (initial_state sample_params) ++ missed
         /\ bar_events negative_atr_entry new missed.
Proof.
  eexists. split; [vm_compute; reflexivity|].
  apply (bar_adds_ordered_events sample_params negative_atr_entry
           (initial_state sample_params)).
  vm_compute. reflexivity.
Defined.

(** X18. The logs of a run are the concatenation, in the order of the
    bars, of what each bar added: the trade log and the missed-signal log
    split into one group per bar, each group being that bar's events. *)
Theorem logs_follow_the_bars (p : Params) (data : list Row) (out : Output) :
  simulate_trades data p = Ok out ->
  exists (groups : list (list Trade)) (misses : list (list MissedSignal)),
    trades_df out = concat groups
    /\ missed_signals_df out = concat misses
    /\ length groups = length data
    /\ length misses = length data
    /\ forall (i : nat) (row : Row) (new : list Trade)
              (missed : list MissedSignal),
         nth_error data i = Some row ->
         nth_error groups i = Some new ->
         nth_error misses i = Some missed ->
         bar_events row new missed.
Proof.
  unfold simulate_trades. intros H. bind_ok H st E. injection H as <-.
  cbn [trades_df missed_signals_df].
  assert (Hgen : forall (rows : list Row) (s s' : State),
            run p s rows = Ok s' ->
            exists (groups : list (list Trade))
                   (misses : list (list MissedSignal)),
              trades s' = trades s ++ concat groups
              /\ missed_signals s' = missed_signals s ++ concat misses
              /\ length groups = length rows
              /\ length misses = length rows
              /\ forall (i : nat) (row : Row) (new : list Trade)
                        (missed : list MissedSignal),
                   nth_error rows i = Some row ->
                   nth_error groups i = Some new ->
                   nth_error misses i = Some missed ->
                   bar_events row new missed).
  { induction rows as [|row rows IH]; intros s s' Hrun.
    - injection Hrun as <-. exists [], []. cbn. rewrite !app_nil_r.
      repeat split; auto. intros [|i] ? ? ? [=].
    - cbn [run] in Hrun. bind_ok Hrun s1 E1.
      destruct (process_row_events p row s s1 E1)
        as (new & missed & Ht & Hm & Hbar).
      destruct (IH _ _ Hrun) as (groups & misses & Ht' & Hm' & Hl & Hl' & Hall).
      exists (new :: groups), (missed :: misses). cbn [concat length].
      split; [rewrite Ht', Ht, <- app_assoc; reflexivity|].
      split; [rewrite Hm', Hm, <- app_assoc; reflexivity|].
      split; [now rewrite Hl|]. split; [now rewrite Hl'|].
      intros [|i] r g m; cbn [nth_error].
      + intros [= <-] [= <-] [= <-]. exact Hbar.
      + apply Hall. }
  destruct (Hgen data _ _ E) as (groups & misses & Ht & Hm & Hrest).
  exists groups, misses. cbn in Ht, Hm. auto.
Qed.

Lemma logs_follow_the_bars_witness :
  exists out : Output,
    simulate_trades sample_morning sample_params = Ok out
    /\ exists (groups : list (list Trade)) (misses : list (list MissedSignal)),
         trades_df out = concat groups
         /\ missed_signals_df out = concat misses
         /\ length groups = length sample_morning
         /\ length misses = length sample_morning
         /\ forall (i : nat) (row : Row) (new : list Trade)
                   (missed : list MissedSignal),
              nth_error sample_morning i = Some row ->
              nth_error groups i = Some new ->
              nth_error misses i = Some missed ->
              bar_events row new missed.
Proof.
  eexists. split; [vm_compute; reflexivity|].
  apply (logs_follow_the_bars sample_params sample_morning).
  vm_compute. reflexivity.
Defined.

(** ** The daily capital snapshots of a run *)

Lemma chained_last_irrelevant (start : Q) (l : list DaySummary)
    (x x' : DaySummary) :
  d_Date x' = d_Date x ->
  d_Start_of_Day_Capital x' = d_Start_of_Day_Capital x ->
  chained start (l ++ [x]) -> chained start (l ++ [x']).
Proof.
  intros Hdate Hstart. revert start.
  induction l as [|d l IH]; intros start.
  - cbn. intros (Hs & _ & _). rewrite Hstart. auto.
  - cbn [app chained]. intros (Hs & Hd & Hc).
    split; [exact Hs|]. split; [|exact (IH _ Hc)].
    intros d' Hhead.
    destruct l as [|e l]; cbn in *; [|exact (Hd d' Hhead)].
    injection Hhead as <-. rewrite Hdate. now apply Hd.
Qed.

Lemma chained_extend (start : Q) (l : list DaySummary) (x y : DaySummary) :
  d_Start_of_Day_Capital y = d_End_of_Day_Capital x ->
  d_Date x <> d_Date y ->
  chained start (l ++ [x]) -> chained start ((l ++ [x]) ++ [y]).
Proof.
  intros Hlink Hdate. revert start.
  induction l as [|d l IH]; intros start.
  - cbn. intros (Hs & _ & _).
    repeat split; auto; intros d' Hh; inversion Hh; subst; exact Hdate.
  - cbn [app chained]. intros (Hs & Hd & Hc).
    split; [exact Hs|]. split; [|exact (IH _ Hc)].
    intros d' Hhead. apply Hd.
    destruct l as [|e l]; cbn in *; exact Hhead.
Qed.

Lemma bar_step_day_book (p : Params) (row : Row) (st st' : State) :
  bar_step p row st st' -> day_book_chained p st -> day_book_chained p st'.
Proof.
  unfold day_book_chained. intros Hstep Hinv.
  destruct Hstep as
    [st position c remaining Hsq Hc Hrem
    |st Hnew
    |st Hd Hnb Hb
    |st Hd Hnb Hb Hle
    |st n c Hd Hnb Hb Hle Hn Hpos Hc
    |st position reason c remaining Hd Hex Hc Hrem].
  - cbn [after_square_off current_day daily_summary].
    destruct (current_day st) as [today|].
    + revert Hinv. apply chained_last_irrelevant; reflexivity.
    + destruct Hinv as (_ & _ & Hl). rewrite Hl in Hrem. discriminate Hrem.
  - unfold start_of_new_day. rewrite Hnew.
    cbn [current_day daily_summary]. unfold is_new_day in Hnew.
    destruct (current_day st) as [today|].
    + apply chained_extend; [reflexivity | | exact Hinv].
      cbn [open_snapshot d_Date].
      apply negb_true_iff, Z.eqb_neq in Hnew. exact Hnew.
    + destruct Hinv as (-> & Hcap & _). cbn.
      repeat split; [exact Hcap | intros d' [=]].
  - cbn [record_missed current_day daily_summary].
    rewrite Hd in *. exact Hinv.
  - cbn [record_missed current_day daily_summary].
    rewrite Hd in *. exact Hinv.
  - cbn [after_buy current_day daily_summary].
    rewrite Hd in *. exact Hinv.
  - cbn [after_sell current_day daily_summary].
    rewrite Hd in *. revert Hinv.
    apply chained_last_irrelevant; reflexivity.
Qed.

Lemma sell_loop_current_day (p : Params) (row : Row)
    (snapshot : list Position) :
  forall st st' : State,
    sell_loop p row snapshot st = Ok st' -> current_day st' = current_day st.
Proof.
  induction snapshot as [|position snapshot IH]; intros st st' H.
  - now injection H as <-.
  - cbn [sell_loop] in H.
    destruct (exit_reason row position); [|exact (IH _ _ H)].
    bind_ok H c Ec. bind_ok H remaining Er. exact (IH _ _ H).
Qed.

(** After a bar, [current_day] is the bar's day. *)
Lemma process_row_sets_day (p : Params) (row : Row) (st st' : State) :
  process_row p st row = Ok st' ->
  current_day st' = Some (ts_date (timestamp row)).
Proof.
  unfold process_row. intros H. bind_ok H st1 E1.
  pose proof (start_of_new_day_sets_day row st1) as Hd.
  unfold gate_entry_exit in H.
  destruct (ts_geb _ _ && Buy_Signal row) eqn:Hgate.
  - injection H as <-. exact Hd.
  - bind_ok H st3 E3.
    destruct (buy_signal_logic_steps p row _ _ Hd Hgate E3) as [_ Hd3].
    unfold sell_signal_logic in H.
    destruct (truthy _); [|injection H as <-; exact Hd3].
    rewrite (sell_loop_current_day _ _ _ _ _ H). exact Hd3.
Qed.

Lemma run_sets_day (p : Params) (data : list Row) :
  forall st st' : State,
    run p st data = Ok st' ->
    data <> [] \/ current_day st <> None ->
    current_day st' <> None.
Proof.
  induction data as [|row data IH]; intros st st' H Hne.
  - injection H as <-. destruct Hne as [Hne|Hne]; [now destruct Hne|exact Hne].
  - cbn [run] in H. bind_ok H st1 E1. apply (IH _ _ H). right.
    now rewrite (process_row_sets_day _ _ _ _ E1).
Qed.

Lemma run_last_day (p : Params) (data : list Row) (row : Row) :
  forall st st' : State,
    run p st data = Ok st' ->
    last data = Some row ->
    current_day st' = Some (ts_date (timestamp row)).
Proof.
  induction data as [|r data IH]; intros st st' H Hlast; [discriminate|].
  cbn [run] in H. bind_ok H st1 E1.
  destruct data as [|r' data].
  - injection Hlast as <-. injection H as <-.
    exact (process_row_sets_day _ _ _ _ E1).
  - apply (IH _ _ H). exact Hlast.
Qed.

(** X8. The daily snapshots of a run form a chain: the first day starts
    with the initial capital, every later day starts with the end-of-day
    capital of the snapshot before it and has a different date, and the last
    snapshot carries the date of the last bar. There is no snapshot exactly
    when there is no bar. *)
Theorem daily_snapshots_are_chained (p : Params) (data : list Row)
    (out : Output) :
  simulate_trades data p = Ok out ->
  chained (initial_capital p) (daily_summary_df out)
  /\ (forall (d : DaySummary) (row : Row),
        last (daily_summary_df out) = Some d ->
        last data = Some row ->
        d_Date d = ts_date (timestamp row))
  /\ (daily_summary_df out = [] <-> data = []).
Proof.
  unfold simulate_trades. intros H. bind_ok H st E. injection H as <-.
  cbn [daily_summary_df].
  assert (Hbook : day_book_chained p st).
  { apply (run_invariant p data (day_book_chained p)
             (fun row s s' _ => bar_step_day_book p row s s') _ _ E).
    cbn. auto. }
  unfold day_book_chained in Hbook.
  destruct (current_day st) as [today|] eqn:Hday.
  - split; [exact Hbook|]. split.
    + intros d row. rewrite last_snoc. intros [= <-] Hlast. cbn [d_Date].
      pose proof (run_last_day p data row _ _ E Hlast) as Hd.
      congruence.
    + split.
      * intros Hnil. now destruct (daily_summary st).
      * intros ->. injection E as <-. discriminate Hday.
  - destruct Hbook as (-> & _ & _). split; [exact I|]. split.
    + intros d row [=].
    + split; [|reflexivity]. intros _.
      destruct data as [|row data]; [reflexivity|].
      exfalso. apply (run_sets_day p _ _ _ E); [left; discriminate|].
      exact Hday.
Qed.

Lemma daily_snapshots_are_chained_witness :
  exists out : Output,
    simulate_trades crash_days sample_params = Ok out
    /\ length (daily_summary_df out) = 2%nat
    /\ chained (initial_capital sample_params) (daily_summary_df out).
Proof.
  eexists. split; [vm_compute; reflexivity|]. split; [reflexivity|].
  apply (daily_snapshots_are_chained sample_params crash_days).
  vm_compute. reflexivity.
Defined.
